(** * allauth.socialaccount.models: the social-login aggregate and its
      persistence model, embedded shallowly.

    The development follows [allauth/socialaccount/models.py].  Model
    instances are records whose foreign keys hold the primary key of the
    row they refer to; a table maps primary keys to rows; methods that
    touch the database, the clock or a collaborator are computations in a
    state-and-exception monad over [World].

    The model classes that [get_social_app_model] and
    [get_social_account_model] resolve are the ones declared here, with
    integer primary keys; a setting that does not resolve
    ([ImproperlyConfigured]) is not part of the embedding. *)

From Stdlib Require Import ZArith.
From stdpp Require Import gmap strings list fin_maps.

Local Open Scope string_scope.
Local Open Scope Z_scope.

(** ** Python values and exceptions *)

(** Values held by the [state] dictionary of a login: request parameters
    are strings, the site id is an integer. *)
Inductive PyVal :=
| PyStr (s : string)
| PyInt (n : Z).

#[global] Instance PyVal_eq_dec : EqDecision PyVal.
Proof. solve_decision. Defined.

(** The model classes that occur in the module. *)
Inductive Model := MSocialApp | MSocialAccount | MSocialToken | MUser.

#[global] Instance Model_eq_dec : EqDecision Model.
Proof. solve_decision. Defined.

(** Exceptions raised in the module.  [DoesNotExist m] and
    [MultipleObjectsReturned m] are the per-model classes [m.DoesNotExist]
    and [m.MultipleObjectsReturned]; [PermissionDenied] is
    [django.core.exceptions.PermissionDenied]. *)
Inductive Exception :=
| AssertionError
| PermissionDenied
| DoesNotExist (m : Model)
| MultipleObjectsReturned (m : Model)
| IntegrityError (m : Model)
| NameError (name : string)
| KeyError (key : string)
| TypeError.

#[global] Instance Exception_eq_dec : EqDecision Exception.
Proof. solve_decision. Defined.

(** Truth value of a primary key: [None] and [0] are false. *)
Definition truthy_pk (pk : option Z) : bool :=
  match pk with
  | Some k => negb (k =? 0)
  | None => false
  end.

(** Truth value of a string: the empty string is false. *)
Definition truthy_str (s : string) : bool :=
  match s with
  | EmptyString => false
  | String _ _ => true
  end.

(** ** Model instances *)

(** [SocialAppABC].  [sites] is the many-to-many relation to [Site],
    kept as the set of the ids of the associated sites. *)
Module SocialApp.
Record t := mk {
  pk : option Z;
  provider : string;
  name : string;
  client_id : string;
  secret : string;
  key : string;
  sites : gset Z
}.

Definition set_pk (v : option Z) (x : t) : t :=
  mk v (provider x) (name x) (client_id x) (secret x) (key x) (sites x).
End SocialApp.

(** The user model ([allauth.app_settings.USER_MODEL], by default
    [django.contrib.auth.models.User]); only its identity and the two
    fields the account adapter fills in are kept. *)
Module User.
Record t := mk {
  pk : option Z;
  username : string;
  email : string
}.

Definition set_pk (v : option Z) (x : t) : t :=
  mk v (username x) (email x).
End User.

(** [SocialAccountABC].  [user_id] and [app_id] are the foreign keys
    [user] and [app]; [extra_data] is the JSON document as text. *)
Module SocialAccount.
Record t := mk {
  pk : option Z;
  user_id : option Z;
  provider : string;
  uid : string;
  last_login : option Z;
  date_joined : option Z;
  extra_data : string;
  app_id : option Z
}.

Definition set_pk (v : option Z) (x : t) : t :=
  mk v (user_id x) (provider x) (uid x) (last_login x) (date_joined x)
     (extra_data x) (app_id x).
Definition set_user_id (v : option Z) (x : t) : t :=
  mk (pk x) v (provider x) (uid x) (last_login x) (date_joined x)
     (extra_data x) (app_id x).
Definition set_last_login (v : option Z) (x : t) : t :=
  mk (pk x) (user_id x) (provider x) (uid x) v (date_joined x)
     (extra_data x) (app_id x).
Definition set_date_joined (v : option Z) (x : t) : t :=
  mk (pk x) (user_id x) (provider x) (uid x) (last_login x) v
     (extra_data x) (app_id x).
Definition set_extra_data (v : string) (x : t) : t :=
  mk (pk x) (user_id x) (provider x) (uid x) (last_login x) (date_joined x)
     v (app_id x).
Definition set_app_id (v : option Z) (x : t) : t :=
  mk (pk x) (user_id x) (provider x) (uid x) (last_login x) (date_joined x)
     (extra_data x) v.
End SocialAccount.

(** [SocialToken]. *)
Module SocialToken.
Record t := mk {
  pk : option Z;
  app_id : option Z;
  account_id : option Z;
  token : string;
  token_secret : string;
  expires_at : option Z
}.

Definition set_pk (v : option Z) (x : t) : t :=
  mk v (app_id x) (account_id x) (token x) (token_secret x) (expires_at x).
Definition set_account_id (v : option Z) (x : t) : t :=
  mk (pk x) (app_id x) v (token x) (token_secret x) (expires_at x).
Definition set_token (v : string) (x : t) : t :=
  mk (pk x) (app_id x) (account_id x) v (token_secret x) (expires_at x).
Definition set_token_secret (v : string) (x : t) : t :=
  mk (pk x) (app_id x) (account_id x) (token x) v (expires_at x).
Definition set_expires_at (v : option Z) (x : t) : t :=
  mk (pk x) (app_id x) (account_id x) (token x) (token_secret x) v.
End SocialToken.

(** [allauth.account.models.EmailAddress], as the providers fill it in. *)
Module EmailAddress.
Record t := mk {
  email : string;
  verified : bool;
  primary : bool
}.
End EmailAddress.

(** ** Requests *)

(** The part of a request the module reads: the current site
    ([get_current_site]), the redirect target ([get_next_redirect_url]),
    the request parameters ([get_request_param]) and the session.  The
    only session entry of the module is ['socialaccount_state'], a pair of
    a state dictionary and a verifier. *)
Record HttpRequest := mkRequest {
  site_id : Z;
  next_redirect_url : option string;
  params : gmap string string;
  session : gmap string (gmap string PyVal * string)
}.

Definition set_session (v : gmap string (gmap string PyVal * string))
    (r : HttpRequest) : HttpRequest :=
  mkRequest (site_id r) (next_redirect_url r) (params r) v.

(** ** The world: tables, clock and journal *)

(** Effects that leave the process: rows written, the call of the
    e-mail collaborator, and log records. *)
Inductive Effect :=
| SavedUser (u : User.t)
| SavedAccount (a : SocialAccount.t)
| SavedToken (t : SocialToken.t)
| SetupUserEmail (u : User.t) (addresses : list EmailAddress.t)
| LogDebug (msg : string).

(** The primary-key column of a table is the key of the map: the [pk]
    field of a stored row is not read, an instance loaded from the table
    gets its [pk] from the key.  [STORE_TOKENS] is the setting
    [app_settings.STORE_TOKENS]; [clock] is the time [auto_now] reads. *)
Record World := mkWorld {
  STORE_TOKENS : bool;
  socialapp_table : gmap Z SocialApp.t;
  user_table : gmap Z User.t;
  socialaccount_table : gmap Z SocialAccount.t;
  socialtoken_table : gmap Z SocialToken.t;
  clock : Z;
  journal : list Effect
}.

Definition set_user_table (v : gmap Z User.t) (w : World) : World :=
  mkWorld (STORE_TOKENS w) (socialapp_table w) v (socialaccount_table w)
          (socialtoken_table w) (clock w) (journal w).
Definition set_socialaccount_table (v : gmap Z SocialAccount.t) (w : World) : World :=
  mkWorld (STORE_TOKENS w) (socialapp_table w) (user_table w) v
          (socialtoken_table w) (clock w) (journal w).
Definition set_socialtoken_table (v : gmap Z SocialToken.t) (w : World) : World :=
  mkWorld (STORE_TOKENS w) (socialapp_table w) (user_table w)
          (socialaccount_table w) v (clock w) (journal w).
Definition set_clock (v : Z) (w : World) : World :=
  mkWorld (STORE_TOKENS w) (socialapp_table w) (user_table w)
          (socialaccount_table w) (socialtoken_table w) v (journal w).
Definition emit (e : Effect) (w : World) : World :=
  mkWorld (STORE_TOKENS w) (socialapp_table w) (user_table w)
          (socialaccount_table w) (socialtoken_table w) (clock w)
          (journal w ++ [e])%list.

(** ** The monad of the module's methods *)

Inductive Outcome (A : Type) :=
| Returned (a : A)
| Raised (e : Exception).
Arguments Returned {A} a.
Arguments Raised {A} e.

(** A method runs in a world and leaves a world behind, also when it
    raises: nothing in the module opens a transaction. *)
Definition M (A : Type) : Type := World -> Outcome A * World.

Definition ret {A} (a : A) : M A := fun w => (Returned a, w).

Definition bind {A B} (m : M A) (k : A -> M B) : M B :=
  fun w =>
    match m w with
    | (Returned a, w') => k a w'
    | (Raised e, w') => (Raised e, w')
    end.

Definition raise {A} (e : Exception) : M A := fun w => (Raised e, w).

(** [try: body except: handler]; the handler re-raises what it does not
    catch. *)
Definition try_except {A} (body : M A) (handler : Exception -> M A) : M A :=
  fun w =>
    match body w with
    | (Returned a, w') => (Returned a, w')
    | (Raised e, w') => handler e w'
    end.

(** The [assert] statement. *)
Definition assert (b : bool) : M unit :=
  if b then ret tt else raise AssertionError.

Definition get_world : M World := fun w => (Returned w, w).
Definition modify (f : World -> World) : M unit := fun w => (Returned tt, f w).

Notation "'let*' x := c1 'in' c2" := (bind c1 (fun x => c2))
  (at level 10, x name, c1 at level 99, c2 at level 200).

(** ** The object-relational layer *)

(** What the module relies on of [django.db.models.Model]: the table of a
    model, its primary key, the fields set on save ([auto_now],
    [auto_now_add]), the columns that may not be null (a [ForeignKey]
    without [null=True]) and the uniqueness constraints of the model
    (the [unique_together] of its [Meta], a [unique] column). *)
Class DbModel (T : Type) := {
  model : Model;
  get_pk : T -> option Z;
  with_pk : option Z -> T -> T;
  table : World -> gmap Z T
}.

(** What [save] needs on top; [SocialApp] rows are only read here. *)
Class DbSave (T : Type) `{DbModel T} := {
  set_table : gmap Z T -> World -> World;
  pre_save : bool -> Z -> T -> T;
  not_null : T -> bool;
  unique_together : T -> T -> bool;
  saved : T -> Effect
}.

#[global] Instance SocialApp_model : DbModel SocialApp.t := {
  model := MSocialApp;
  get_pk := SocialApp.pk;
  with_pk := SocialApp.set_pk;
  table := socialapp_table
}.

(** Modelled from the spec: the user is persisted by the rules of the
    user model, a collaborator.  The rules here are those of the default
    user model, whose [username] column is unique: a second row with the
    username of another is an [IntegrityError].  ([unique_together] is
    read as the relation between two rows that may not both be stored.) *)
#[global] Instance User_model : DbModel User.t := {
  model := MUser;
  get_pk := User.pk;
  with_pk := User.set_pk;
  table := user_table
}.

#[global] Instance User_save : DbSave User.t := {
  set_table := set_user_table;
  pre_save := fun _ _ x => x;
  not_null := fun _ => true;
  unique_together := fun x y =>
    bool_decide (User.username x = User.username y);
  saved := SavedUser
}.

(** [last_login] has [auto_now=True], [date_joined] has
    [auto_now_add=True]; [user] and [app] may not be null;
    [unique_together = ('app', 'uid')]. *)
#[global] Instance SocialAccount_model : DbModel SocialAccount.t := {
  model := MSocialAccount;
  get_pk := SocialAccount.pk;
  with_pk := SocialAccount.set_pk;
  table := socialaccount_table
}.

#[global] Instance SocialAccount_save : DbSave SocialAccount.t := {
  set_table := set_socialaccount_table;
  pre_save := fun add now x =>
    let x := SocialAccount.set_last_login (Some now) x in
    if add then SocialAccount.set_date_joined (Some now) x else x;
  not_null := fun x =>
    bool_decide (SocialAccount.user_id x <> None)
    && bool_decide (SocialAccount.app_id x <> None);
  unique_together := fun x y =>
    bool_decide (SocialAccount.app_id x = SocialAccount.app_id y)
    && bool_decide (SocialAccount.uid x = SocialAccount.uid y);
  saved := SavedAccount
}.

(** [app] and [account] may not be null;
    [unique_together = ('app', 'account')]. *)
#[global] Instance SocialToken_model : DbModel SocialToken.t := {
  model := MSocialToken;
  get_pk := SocialToken.pk;
  with_pk := SocialToken.set_pk;
  table := socialtoken_table
}.

#[global] Instance SocialToken_save : DbSave SocialToken.t := {
  set_table := set_socialtoken_table;
  pre_save := fun _ _ x => x;
  not_null := fun x =>
    bool_decide (SocialToken.app_id x <> None)
    && bool_decide (SocialToken.account_id x <> None);
  unique_together := fun x y =>
    bool_decide (SocialToken.app_id x = SocialToken.app_id y)
    && bool_decide (SocialToken.account_id x = SocialToken.account_id y);
  saved := SavedToken
}.

Section Orm.
Context {T : Type} `{DbModel T}.

(** The instances of a table, each with the key of its row as [pk]. *)
Definition instances (tbl : gmap Z T) : list T :=
  (fun kv => with_pk (Some kv.1) kv.2) <$> map_to_list tbl.

(** [QuerySet.get] with a filter: the one instance that passes the
    filter; [DoesNotExist] when there is none, [MultipleObjectsReturned]
    when there are several. *)
Definition QuerySet_get (tbl : gmap Z T) (p : T -> bool) : Outcome T :=
  match List.filter p (instances tbl) with
  | [] => Raised (DoesNotExist model)
  | [x] => Returned x
  | _ :: _ :: _ => Raised (MultipleObjectsReturned model)
  end.

(** [Model.objects.get(...)]: a query, the world stays as it is. *)
Definition objects_get (p : T -> bool) : M T :=
  fun w => (QuerySet_get (table w) p, w).

(** Reading a foreign-key attribute loads the row it points to;
    [DoesNotExist] of the related model when the key is null or
    dangling.  (The per-instance cache of related objects is not
    modelled: the key of the instance decides.) *)
Definition fetch (tbl : gmap Z T) (fk : option Z) : Outcome T :=
  match fk with
  | Some k =>
      match tbl !! k with
      | Some row => Returned (with_pk (Some k) row)
      | None => Raised (DoesNotExist model)
      end
  | None => Raised (DoesNotExist model)
  end.

Definition related (fk : option Z) : M T :=
  fun w => (fetch (table w) fk, w).

(** The key a sequence hands out for an insert: above every key in
    use, and positive. *)
Definition fresh_pk (tbl : gmap Z T) : Z :=
  1 + foldr Z.max 0 (fst <$> map_to_list tbl).

Context `{!DbSave T}.

(** The key under which [model_save] writes. *)
Definition save_key (x : T) (w : World) : Z :=
  match get_pk x with
  | Some k => k
  | None => fresh_pk (table w)
  end.

(** The instance [model_save] writes and returns. *)
Definition save_result (x : T) (w : World) : T :=
  let k := save_key x w in
  let add := bool_decide (table w !! k = None) in
  with_pk (Some k) (pre_save add (clock w) x).

(** [instance.save()]: an instance without primary key is inserted
    under a fresh one; an instance with a primary key replaces the row
    of that key, or is inserted under it when there is none.  A null
    in a mandatory column or a second row with the same
    [unique_together] columns is an [IntegrityError], and nothing is
    written.  The saved instance carries its key and the [auto_now]
    fields. *)
Definition model_save (x : T) : M T :=
  fun w =>
    let k := save_key x w in
    let x' := save_result x w in
    if negb (not_null x') then (Raised (IntegrityError model), w)
    else if existsb (unique_together x') (instances (delete k (table w)))
    then (Raised (IntegrityError model), w)
    else (Returned x', emit (saved x') (set_table (<[k := x']> (table w)) w)).
End Orm.

(** The primary key of an instance is what [with_pk] stored. *)
Class DbModelLaws (T : Type) `{DbModel T} := {
  get_with_pk : forall v (x : T), get_pk (with_pk v x) = v
}.

(** ** Names of the module *)

(** The names bound at module level in [models.py]: its imports, its
    functions and its classes. *)
Definition module_globals : list string :=
  [ "absolute_import"; "PermissionDenied"; "ImproperlyConfigured"; "models";
    "authenticate"; "Site"; "python_2_unicode_compatible";
    "get_random_string"; "_"; "force_text"; "allauth"; "EmailAddress";
    "get_next_redirect_url"; "setup_user_email"; "get_user_model";
    "get_current_site"; "serialize_instance"; "deserialize_instance";
    "app_settings"; "providers"; "JSONField"; "get_request_param";
    "settings"; "get_model"; "_get_model"; "get_social_app_model";
    "get_social_account_model"; "SocialAppManager"; "SocialAppABC";
    "SocialApp"; "SocialAccountABC"; "SocialAccount"; "SocialToken";
    "SocialLogin" ].

(** Evaluating a name that is neither local nor bound in the module (nor
    a builtin) raises [NameError]. *)
Definition load_name (name : string) : M unit :=
  if bool_decide (name ∈ module_globals) then ret tt
  else raise (NameError name).

(** [logger.debug(msg)]: the name [logger] is looked up, then the record
    is written. *)
Definition logger_debug (msg : string) : M unit :=
  let* _ := load_name "logger" in
  modify (emit (LogDebug msg)).

(** ** Collaborators *)

(** Modelled from the spec: [allauth.utils.get_current_site] gives the
    site of the request, here its id. *)
Definition get_current_site (request : HttpRequest) : Z := site_id request.

(** Modelled from the spec: [allauth.utils.get_request_param] reads a
    request parameter, with a default. *)
Definition get_request_param (request : HttpRequest) (param dflt : string)
    : string :=
  default dflt (params request !! param).

(** Modelled from the spec: [allauth.account.utils.setup_user_email] is an
    external collaborator of which only the call is observed; its own
    writes are outside the module. *)
Definition setup_user_email (request : HttpRequest) (user : User.t)
    (addresses : list EmailAddress.t) : M unit :=
  modify (emit (SetupUserEmail user addresses)).

(** ** Filters *)

(** The keyword filters of the three [get] calls of the module.  A
    filter on a related object compares the foreign key with the primary
    key of the object given. *)

(** [sites__id=site.id, provider=provider] *)
Definition by_site_provider (site : Z) (provider : string)
    : SocialApp.t -> bool :=
  fun r => bool_decide (site ∈ SocialApp.sites r)
           && bool_decide (SocialApp.provider r = provider).

(** [app=app, uid=uid] *)
Definition by_app_uid (app : SocialApp.t) (uid : string)
    : SocialAccount.t -> bool :=
  fun r => bool_decide (SocialAccount.app_id r = SocialApp.pk app)
           && bool_decide (SocialAccount.uid r = uid).

(** [account=account, app=app] *)
Definition by_account_app (account : SocialAccount.t) (app : SocialApp.t)
    : SocialToken.t -> bool :=
  fun r => bool_decide (SocialToken.account_id r = SocialAccount.pk account)
           && bool_decide (SocialToken.app_id r = SocialApp.pk app).

(** ** [SocialAppManager] *)

Module SocialAppManager.
(** [get_current]: the application of the provider that is linked to
    the current site. *)
Definition get_current (provider : string) (request : HttpRequest)
    : M SocialApp.t :=
  let site := get_current_site request in
  objects_get (by_site_provider site provider).
End SocialAppManager.

(** ** Serialized instances *)

(** [allauth.utils.serialize_instance] and [deserialize_instance] turn an
    instance into transport data of type [SI] and back, for the model
    class given (here: by the type of the instance). *)
Class InstanceCodec (SI T : Type) := {
  serialize_instance : T -> SI;
  deserialize_instance : SI -> Outcome T
}.

(** The values of the dictionary [SocialLogin.serialize] builds: a
    serialized instance, a sequence of serialized instances, a state. *)
Inductive PyData (SI : Type) :=
| DInstance (i : SI)
| DList (l : list SI)
| DState (s : gmap string PyVal).
Arguments DInstance {SI} i.
Arguments DList {SI} l.
Arguments DState {SI} s.

Definition Outcome_bind {A B} (o : Outcome A) (k : A -> Outcome B) : Outcome B :=
  match o with
  | Returned a => k a
  | Raised e => Raised e
  end.

Notation "'let?' x := c1 'in' c2" := (Outcome_bind c1 (fun x => c2))
  (at level 10, x name, c1 at level 99, c2 at level 200).

(** Reading the dictionary in [deserialize].  A key that is missing is
    a [KeyError].  The source checks no entry: it hands [data['account']]
    to [deserialize_instance], iterates over [data['email_addresses']]
    and stores [data['state']] as it is.  The login of the embedding is
    typed: where an entry has a shape for which the typed login, or
    [deserialize_instance], has no counterpart, the reading is reported
    as [TypeError], which stands for data outside the embedding and not
    for an exception of the source.  What is proved of a returning
    [deserialize] is stated for data without such entries. *)

(** [data[key]] for a key that holds an instance. *)
Definition item_instance {SI} (data : gmap string (PyData SI)) (key : string)
    : Outcome SI :=
  match data !! key with
  | Some (DInstance i) => Returned i
  | Some _ => Raised TypeError
  | None => Raised (KeyError key)
  end.

(** [data[key]] for the key that is iterated over: the items the loop
    sees.  A sequence gives its elements; a dictionary gives its keys,
    so an empty one gives nothing; the keys of one that is not empty are
    no serialized instances. *)
Definition item_list {SI} (data : gmap string (PyData SI)) (key : string)
    : Outcome (list SI) :=
  match data !! key with
  | Some (DList l) => Returned l
  | Some (DState s) => if decide (s = ∅) then Returned [] else Raised TypeError
  | Some (DInstance _) => Raised TypeError
  | None => Raised (KeyError key)
  end.

(** [data[key]] for the key that holds the state. *)
Definition item_state {SI} (data : gmap string (PyData SI)) (key : string)
    : Outcome (gmap string PyVal) :=
  match data !! key with
  | Some (DState s) => Returned s
  | Some _ => Raised TypeError
  | None => Raised (KeyError key)
  end.

(** ** [SocialLogin] *)

Module SocialLogin.
Record t := mk {
  token : option SocialToken.t;
  user : User.t;
  account : SocialAccount.t;
  email_addresses : list EmailAddress.t;
  state : gmap string PyVal;
  request : option HttpRequest
}.

Definition set_token (v : option SocialToken.t) (x : t) : t :=
  mk v (user x) (account x) (email_addresses x) (state x) (request x).
Definition set_user (v : User.t) (x : t) : t :=
  mk (token x) v (account x) (email_addresses x) (state x) (request x).
Definition set_account (v : SocialAccount.t) (x : t) : t :=
  mk (token x) (user x) v (email_addresses x) (state x) (request x).
Definition set_request (v : option HttpRequest) (x : t) : t :=
  mk (token x) (user x) (account x) (email_addresses x) (state x) v.

(** [is_existing]: the primary key of the account, used as a truth
    value. *)
Definition is_existing (self : t) : option Z :=
  SocialAccount.pk (account self).

Section Serialization.
Context {SI : Type}.
Context `{!InstanceCodec SI SocialAccount.t, !InstanceCodec SI User.t,
          !InstanceCodec SI SocialToken.t, !InstanceCodec SI EmailAddress.t}.

Definition serialize (self : t) : gmap string (PyData SI) :=
  let ret : gmap string (PyData SI) :=
    <["account" := DInstance (serialize_instance (account self))]>
    (<["user" := DInstance (serialize_instance (user self))]>
    (<["state" := DState (state self)]>
    (<["email_addresses" :=
         DList (serialize_instance <$> email_addresses self)]> ∅))) in
  match token self with
  | Some tk => <["token" := DInstance (serialize_instance tk)]> ret
  | None => ret
  end.

(** The loop over [data['email_addresses']]. *)
Fixpoint deserialize_email_addresses (l : list SI)
    : Outcome (list EmailAddress.t) :=
  match l with
  | [] => Returned []
  | ea :: l' =>
      let? email_address := deserialize_instance ea in
      let? email_addresses := deserialize_email_addresses l' in
      Returned (email_address :: email_addresses)
  end.

Definition deserialize (data : gmap string (PyData SI)) : Outcome t :=
  let? account_data := item_instance data "account" in
  let? account := deserialize_instance account_data in
  let? user_data := item_instance data "user" in
  let? user := deserialize_instance user_data in
  let? token :=
    match data !! "token" with
    | Some _ =>
        let? token_data := item_instance data "token" in
        let? token := deserialize_instance token_data in
        Returned (Some token)
    | None => Returned None
    end in
  let? eas := item_list data "email_addresses" in
  let? email_addresses := deserialize_email_addresses eas in
  let? state := item_state data "state" in
  Returned (mk token user account email_addresses state None).
End Serialization.

(** [save] and [connect]. *)
Definition save (request : HttpRequest) (connect : bool) (self : t) : M t :=
  let* _ := assert (negb (truthy_pk (is_existing self))) in
  let* app := SocialAppManager.get_current
                (SocialAccount.provider (account self)) request in
  let self := set_request (Some request) self in
  let* u := model_save (user self) in
  let self := set_user u self in
  let self := set_account
                (SocialAccount.set_user_id (User.pk u) (account self))
                self in
  let self := set_account
                (SocialAccount.set_app_id (SocialApp.pk app) (account self))
                self in
  let* a := model_save (account self) in
  let self := set_account a self in
  let* w := get_world in
  let* self :=
    match STORE_TOKENS w, token self with
    | true, Some tk =>
        let tk := SocialToken.set_account_id
                    (SocialAccount.pk (account self)) tk in
        let* tk := model_save tk in
        ret (set_token (Some tk) self)
    | _, _ => ret self
    end in
  if connect then ret self
  else
    let* _ := setup_user_email request (user self) (email_addresses self) in
    ret self.

Definition connect (request : HttpRequest) (u : User.t) (self : t) : M t :=
  let self := set_user u self in
  save request true self.

(** The block [# Update token] of [lookup]; the account [a] of the
    source is [self.account] at this point. *)
Definition lookup_update_token (self : t) : M t :=
  let* w := get_world in
  match STORE_TOKENS w, token self with
  | true, Some tk =>
      let* _ := assert (negb (truthy_pk (SocialToken.pk tk))) in
      try_except
        (let* tk_app := related (T := SocialApp.t) (SocialToken.app_id tk) in
         let* t := objects_get (by_account_app (account self) tk_app) in
         let t := SocialToken.set_token (SocialToken.token tk) t in
         let t := if truthy_str (SocialToken.token_secret tk)
                  then SocialToken.set_token_secret
                         (SocialToken.token_secret tk) t
                  else t in
         let t := SocialToken.set_expires_at (SocialToken.expires_at tk) t in
         let* t := model_save t in
         ret (set_token (Some t) self))
        (fun e =>
           match e with
           | DoesNotExist MSocialToken =>
               let tk := SocialToken.set_account_id
                           (SocialAccount.pk (account self)) tk in
               let* tk := model_save tk in
               ret (set_token (Some tk) self)
           | _ => raise e
           end)
  | _, _ => ret self
  end.

(** The [except] clauses of [lookup]; [self] is the login as it was
    when the [try] was entered (the only statement that raises
    [SocialAccount.DoesNotExist] comes before any assignment). *)
Definition lookup_except (self : t) (e : Exception) : M t :=
  match e with
  | DoesNotExist MSocialAccount => ret self
  | DoesNotExist MSocialApp =>
      let* _ := logger_debug
                  ("Couldn't find SocialApp "
                   +:+ SocialAccount.provider (account self)) in
      raise e
  | _ => raise e
  end.

(** [lookup]. *)
Definition lookup (request : HttpRequest) (self : t) : M t :=
  let* _ := assert (negb (truthy_pk (is_existing self))) in
  try_except
    (let* app := SocialAppManager.get_current
                   (SocialAccount.provider (account self)) request in
     let* a := objects_get
                 (by_app_uid app (SocialAccount.uid (account self))) in
     let a := SocialAccount.set_extra_data
                (SocialAccount.extra_data (account self)) a in
     let self := set_account a self in
     let* u := related (SocialAccount.user_id (account self)) in
     let self := set_user u self in
     let* a := model_save a in
     let self := set_account a self in
     lookup_update_token self)
    (lookup_except self).

Definition get_redirect_url (request : HttpRequest) (self : t) : option PyVal :=
  state self !! "next".

(** [state_from_request], [stash_state], [unstash_state] and
    [verify_and_unstash_state] are class methods on the request; the
    session is the only thing they change. *)
Definition state_from_request (request : HttpRequest) : gmap string PyVal :=
  let state : gmap string PyVal := ∅ in
  let state :=
    match next_redirect_url request with
    | Some next_url =>
        if truthy_str next_url then <["next" := PyStr next_url]> state
        else state
    | None => state
    end in
  let state := <["site" := PyInt (get_current_site request)]> state in
  let state := <["process" :=
                   PyStr (get_request_param request "process" "login")]> state in
  let state := <["scope" :=
                   PyStr (get_request_param request "scope" "")]> state in
  let state := <["auth_params" :=
                   PyStr (get_request_param request "auth_params" "")]> state in
  state.

(** The verifier is [get_random_string()]; the random string drawn is
    an argument here. *)
Definition stash_state (random_string : string) (request : HttpRequest)
    : string * HttpRequest :=
  let state := state_from_request request in
  let verifier := random_string in
  (verifier,
   set_session (<["socialaccount_state" := (state, verifier)]> (session request))
               request).

Definition unstash_state (request : HttpRequest)
    : Outcome (gmap string PyVal) * HttpRequest :=
  match session request !! "socialaccount_state" with
  | None => (Raised PermissionDenied, request)
  | Some (state, verifier) =>
      (Returned state,
       set_session (delete "socialaccount_state" (session request)) request)
  end.

Definition verify_and_unstash_state (request : HttpRequest) (verifier : string)
    : Outcome (gmap string PyVal) * HttpRequest :=
  match session request !! "socialaccount_state" with
  | None => (Raised PermissionDenied, request)
  | Some (state, verifier2) =>
      let request :=
        set_session (delete "socialaccount_state" (session request)) request in
      if bool_decide (verifier <> verifier2)
      then (Raised PermissionDenied, request)
      else (Returned state, request)
  end.
End SocialLogin.

(** ** A transport format *)

(** Modelled from the spec: [allauth.utils.serialize_instance] and
    [deserialize_instance] are not among the sources at hand; the spec
    asks for a transport-safe structure from which the instance of the
    given model class is rebuilt.  Here that structure is the dictionary
    of the fields of the instance, as JSON values; a field that is
    missing keeps the default of the model. *)
Inductive JsonVal :=
| JNull
| JBool (b : bool)
| JInt (n : Z)
| JStr (s : string).

Definition json_opt_int (o : option Z) : JsonVal :=
  match o with
  | Some n => JInt n
  | None => JNull
  end.

Definition field_opt_int (d : gmap string JsonVal) (k : string) : option Z :=
  match d !! k with
  | Some (JInt n) => Some n
  | _ => None
  end.

Definition field_str (d : gmap string JsonVal) (k : string) : string :=
  match d !! k with
  | Some (JStr s) => s
  | _ => ""
  end.

Definition field_bool (d : gmap string JsonVal) (k : string) : bool :=
  match d !! k with
  | Some (JBool b) => b
  | _ => false
  end.

#[global] Instance SocialAccount_codec
    : InstanceCodec (gmap string JsonVal) SocialAccount.t := {
  serialize_instance x :=
    {[ "id" := json_opt_int (SocialAccount.pk x);
       "user_id" := json_opt_int (SocialAccount.user_id x);
       "provider" := JStr (SocialAccount.provider x);
       "uid" := JStr (SocialAccount.uid x);
       "last_login" := json_opt_int (SocialAccount.last_login x);
       "date_joined" := json_opt_int (SocialAccount.date_joined x);
       "extra_data" := JStr (SocialAccount.extra_data x);
       "app_id" := json_opt_int (SocialAccount.app_id x) ]};
  deserialize_instance d :=
    Returned
      (SocialAccount.mk (field_opt_int d "id") (field_opt_int d "user_id")
         (field_str d "provider") (field_str d "uid")
         (field_opt_int d "last_login") (field_opt_int d "date_joined")
         (field_str d "extra_data") (field_opt_int d "app_id"))
}.

#[global] Instance User_codec
    : InstanceCodec (gmap string JsonVal) User.t := {
  serialize_instance x :=
    {[ "id" := json_opt_int (User.pk x);
       "username" := JStr (User.username x);
       "email" := JStr (User.email x) ]};
  deserialize_instance d :=
    Returned
      (User.mk (field_opt_int d "id") (field_str d "username")
         (field_str d "email"))
}.

#[global] Instance SocialToken_codec
    : InstanceCodec (gmap string JsonVal) SocialToken.t := {
  serialize_instance x :=
    {[ "id" := json_opt_int (SocialToken.pk x);
       "app_id" := json_opt_int (SocialToken.app_id x);
       "account_id" := json_opt_int (SocialToken.account_id x);
       "token" := JStr (SocialToken.token x);
       "token_secret" := JStr (SocialToken.token_secret x);
       "expires_at" := json_opt_int (SocialToken.expires_at x) ]};
  deserialize_instance d :=
    Returned
      (SocialToken.mk (field_opt_int d "id") (field_opt_int d "app_id")
         (field_opt_int d "account_id") (field_str d "token")
         (field_str d "token_secret") (field_opt_int d "expires_at"))
}.

#[global] Instance EmailAddress_codec
    : InstanceCodec (gmap string JsonVal) EmailAddress.t := {
  serialize_instance x :=
    {[ "email" := JStr (EmailAddress.email x);
       "verified" := JBool (EmailAddress.verified x);
       "primary" := JBool (EmailAddress.primary x) ]};
  deserialize_instance d :=
    Returned
      (EmailAddress.mk (field_str d "email") (field_bool d "verified")
         (field_bool d "primary"))
}.

(** ** Sample data *)

(** A site with two configured providers, one known user with a linked
    account and stored tokens, and a login in progress for that
    identity. *)
Module Sample.
Definition uid : string := "108204268033311374519".

Definition request : HttpRequest :=
  mkRequest 1 (Some "/profile/") ∅ ∅.

Definition google : SocialApp.t :=
  SocialApp.mk None "google" "google" "app123id" "dummy" "google" {[ 1 ]}.
Definition google_bis : SocialApp.t :=
  SocialApp.mk None "google" "google-bis" "app456id" "dummy" "google" {[ 1 ]}.
Definition twitter : SocialApp.t :=
  SocialApp.mk None "twitter" "twitter" "app789id" "dummy" "twitter" {[ 1 ]}.

Definition raymond : User.t :=
  User.mk None "raymond" "raymond.penners@gmail.com".

Definition stored_account : SocialAccount.t :=
  SocialAccount.mk None (Some 7) "google" uid (Some 10) (Some 10)
                   "{}" (Some 1).
Definition stored_token : SocialToken.t :=
  SocialToken.mk None (Some 1) (Some 5) "old-access" "refresh" (Some 50).
Definition stored_twitter_token : SocialToken.t :=
  SocialToken.mk None (Some 2) (Some 5) "tw-access" "tw-secret" None.

(** Nothing stored yet for the identity. *)
Definition first_time : World :=
  mkWorld true {[ 1 := google; 2 := twitter ]} ∅ ∅ ∅ 100 [].

(** The identity is linked, with a token of each application. *)
Definition linked : World :=
  mkWorld true {[ 1 := google; 2 := twitter ]} {[ 7 := raymond ]}
          {[ 5 := stored_account ]}
          {[ 3 := stored_token; 4 := stored_twitter_token ]} 100 [].

(** The identity is linked, no token stored. *)
Definition linked_no_token : World :=
  mkWorld true {[ 1 := google; 2 := twitter ]} {[ 7 := raymond ]}
          {[ 5 := stored_account ]} ∅ 100 [].

(** Two applications of one provider on one site. *)
Definition ambiguous : World :=
  mkWorld true {[ 1 := google; 2 := google_bis ]} ∅ ∅ ∅ 100 [].

(** No application at all. *)
Definition unconfigured : World :=
  mkWorld true ∅ ∅ ∅ ∅ 100 [].

Definition account : SocialAccount.t :=
  SocialAccount.mk None None "google" uid None None
                   "{'name': 'Raymond Penners'}" None.
Definition user : User.t :=
  User.mk None "raymond" "raymond.penners@gmail.com".
Definition token : SocialToken.t :=
  SocialToken.mk None (Some 1) None "new-access" "" (Some 200).
Definition email_address : EmailAddress.t :=
  EmailAddress.mk "raymond.penners@gmail.com" true true.
Definition state : gmap string PyVal :=
  {[ "next" := PyStr "/profile/"; "site" := PyInt 1;
     "process" := PyStr "login" ]}.

Definition login : SocialLogin.t :=
  SocialLogin.mk (Some token) user account [email_address] state None.

(** The same login with a token of the other application. *)
Definition twitter_token : SocialToken.t :=
  SocialToken.mk None (Some 2) None "tw-new" "" None.
Definition login_twitter_token : SocialLogin.t :=
  SocialLogin.set_token (Some twitter_token) login.

(** The same login with a token that is already a row. *)
Definition login_saved_token : SocialLogin.t :=
  SocialLogin.set_token (Some (SocialToken.set_pk (Some 3) token)) login.

(** The same login for a user whose username no row has. *)
Definition newcomer : User.t :=
  User.mk None "guido" "guido@example.com".
Definition login_newcomer : SocialLogin.t :=
  SocialLogin.set_user newcomer login.

(** A login whose account is already a row. *)
Definition existing_login : SocialLogin.t :=
  SocialLogin.set_account (SocialAccount.set_pk (Some 5) account) login.

(** A request whose session holds a stashed state. *)
Definition stashed_request : HttpRequest :=
  snd (SocialLogin.stash_state "k3Jq0wPzX1aB" request).
End Sample.

(** * Facts *)

(** ** Filters on lists without duplicates *)

Section FilterFacts.
Context {A : Type}.
Implicit Types (p : A -> bool) (l : list A).

Lemma filter_nil_iff p l :
  List.filter p l = [] <-> forall y, y ∈ l -> p y = false.
Proof.
  induction l as [|a l IH]; simpl.
  - split; [intros _ y Hy; inversion Hy | done].
  - destruct (p a) eqn:Hpa.
    + split; [done | intros Hall].
      specialize (Hall a (list_elem_of_here _ _)). congruence.
    + rewrite IH. split.
      * intros Hall y Hy. apply elem_of_cons in Hy as [-> | Hy]; auto.
      * intros Hall y Hy. apply Hall. by apply list_elem_of_further.
Qed.

Lemma elem_of_filter p l x :
  x ∈ List.filter p l <-> x ∈ l /\ p x = true.
Proof. rewrite !list_elem_of_In. apply filter_In. Qed.

Lemma NoDup_all_eq l x :
  NoDup l -> x ∈ l -> (forall y, y ∈ l -> y = x) -> l = [x].
Proof.
  intros Hnd Hx Hall.
  destruct l as [|a l]; [inversion Hx |].
  assert (a = x) as -> by (apply Hall; left).
  destruct l as [|b l]; [done |].
  assert (b = x) as -> by (apply Hall; right; left).
  apply NoDup_cons in Hnd as [Hnot _].
  exfalso. apply Hnot. left.
Qed.

Lemma filter_singleton_iff p l x :
  NoDup l ->
  List.filter p l = [x] <->
  x ∈ l /\ p x = true /\ forall y, y ∈ l -> p y = true -> y = x.
Proof.
  intros Hnd. split.
  - intros Hf.
    assert (Hx : x ∈ List.filter p l) by (rewrite Hf; left).
    apply elem_of_filter in Hx as [Hx Hpx].
    repeat split; [done | done |].
    intros y Hy Hpy.
    assert (Hy' : y ∈ List.filter p l) by (by apply elem_of_filter).
    rewrite Hf in Hy'. by apply list_elem_of_singleton in Hy'.
  - intros (Hx & Hpx & Huniq).
    apply NoDup_all_eq.
    + apply NoDup_ListNoDup, List.NoDup_filter, NoDup_ListNoDup, Hnd.
    + by apply elem_of_filter.
    + intros y Hy. apply elem_of_filter in Hy as [Hy Hpy]. auto.
Qed.

Lemma existsb_false_iff p l :
  existsb p l = false <-> forall y, y ∈ l -> p y = false.
Proof.
  induction l as [|a l IH]; simpl.
  - split; [intros _ y Hy; inversion Hy | done].
  - rewrite orb_false_iff, IH. split.
    + intros [Ha Hall] y Hy. apply elem_of_cons in Hy as [-> | Hy]; auto.
    + intros Hall. split; [apply Hall; left |].
      intros y Hy. apply Hall. by right.
Qed.
End FilterFacts.

(** ** Queries and saves *)

#[global] Instance SocialApp_laws : DbModelLaws SocialApp.t.
Proof. split. by intros v []. Qed.
#[global] Instance User_laws : DbModelLaws User.t.
Proof. split. by intros v []. Qed.
#[global] Instance SocialAccount_laws : DbModelLaws SocialAccount.t.
Proof. split. by intros v []. Qed.
#[global] Instance SocialToken_laws : DbModelLaws SocialToken.t.
Proof. split. by intros v []. Qed.

Section OrmFacts.
Context {T : Type} `{DbModelLaws T}.
Implicit Types (tbl : gmap Z T) (p : T -> bool) (x y : T).

Lemma elem_of_instances tbl x :
  x ∈ instances tbl <->
  exists k row, tbl !! k = Some row /\ x = with_pk (Some k) row.
Proof.
  unfold instances. rewrite list_elem_of_fmap. split.
  - intros [[k row] [-> Hin]]. apply elem_of_map_to_list in Hin. eauto.
  - intros (k & row & Hl & ->). exists (k, row). split; [done |].
    by apply elem_of_map_to_list.
Qed.

Lemma NoDup_instances tbl : NoDup (instances tbl).
Proof.
  apply NoDup_fmap_2_strong; [| apply NoDup_map_to_list].
  intros [k1 r1] [k2 r2] H1 H2 Heq; simpl in *.
  assert (k1 = k2) as ->.
  { apply (f_equal get_pk) in Heq. rewrite !get_with_pk in Heq. congruence. }
  apply elem_of_map_to_list in H1, H2. congruence.
Qed.

Lemma QuerySet_get_Returned tbl p x :
  QuerySet_get tbl p = Returned x <->
  x ∈ instances tbl /\ p x = true
  /\ forall y, y ∈ instances tbl -> p y = true -> y = x.
Proof.
  rewrite <- (filter_singleton_iff p _ x (NoDup_instances tbl)).
  unfold QuerySet_get.
  destruct (List.filter p (instances tbl)) as [|a [|b l]]; split;
    intros Heq; congruence.
Qed.

Lemma QuerySet_get_DoesNotExist tbl p :
  QuerySet_get tbl p = Raised (DoesNotExist model) <->
  forall y, y ∈ instances tbl -> p y = false.
Proof.
  rewrite <- filter_nil_iff. unfold QuerySet_get.
  destruct (List.filter p (instances tbl)) as [|a [|b l]]; split;
    intros Heq; congruence.
Qed.

Lemma QuerySet_get_Multiple tbl p x y :
  x ∈ instances tbl -> y ∈ instances tbl -> x <> y ->
  p x = true -> p y = true ->
  QuerySet_get tbl p = Raised (MultipleObjectsReturned model).
Proof.
  intros Hx Hy Hne Hpx Hpy. unfold QuerySet_get.
  destruct (List.filter p (instances tbl)) as [|a [|b l]] eqn:Hf; [| | done].
  - apply filter_nil_iff with (y := x) in Hf; [congruence | done].
  - apply filter_singleton_iff in Hf as (_ & _ & Huniq);
      [| apply NoDup_instances].
    rewrite (Huniq x), (Huniq y) in Hne by done. done.
Qed.

(** A fresh key is positive and not in use. *)
Lemma fresh_pk_pos tbl : 0 < fresh_pk tbl.
Proof.
  unfold fresh_pk.
  assert (0 <= foldr Z.max 0 (map_to_list tbl).*1); [| lia].
  induction ((map_to_list tbl).*1); simpl; lia.
Qed.

Lemma fresh_pk_unused tbl : tbl !! fresh_pk tbl = None.
Proof.
  destruct (tbl !! fresh_pk tbl) as [row|] eqn:Hl; [exfalso | done].
  apply elem_of_map_to_list in Hl.
  assert (Hin : fresh_pk tbl ∈ (map_to_list tbl).*1).
  { apply list_elem_of_fmap. by exists (fresh_pk tbl, row). }
  assert (Hle : forall (l : list Z) k, k ∈ l -> k <= foldr Z.max 0 l).
  { clear. induction l as [|a l IH]; intros k Hk; [inversion Hk |].
    apply elem_of_cons in Hk as [-> | Hk]; simpl; [lia |].
    specialize (IH k Hk). lia. }
  apply Hle in Hin. unfold fresh_pk in Hin at 1. lia.
Qed.

Lemma elem_of_instances_delete tbl k x :
  x ∈ instances (delete k tbl) <->
  x ∈ instances tbl /\ get_pk x <> Some k.
Proof.
  rewrite !elem_of_instances. split.
  - intros (k' & row & Hl & ->).
    apply lookup_delete_Some in Hl as [Hne Hl].
    rewrite get_with_pk. split; [eauto | congruence].
  - intros [(k' & row & Hl & ->) Hne]. rewrite get_with_pk in Hne.
    exists k', row. split; [| done].
    apply lookup_delete_Some. split; [congruence | done].
Qed.

Lemma elem_of_instances_insert tbl k row x :
  x ∈ instances (<[k := row]> tbl) <->
  x = with_pk (Some k) row
  \/ (x ∈ instances tbl /\ get_pk x <> Some k).
Proof.
  rewrite <- elem_of_instances_delete, !elem_of_instances. split.
  - intros (k' & row' & Hl & ->).
    apply lookup_insert_Some in Hl as [[-> ->] | [Hne Hl]]; [by left |].
    right. exists k', row'. split; [| done].
    apply lookup_delete_Some. done.
  - intros [-> | (k' & row' & Hl & ->)].
    + exists k, row. by rewrite lookup_insert_eq.
    + apply lookup_delete_Some in Hl as [Hne Hl].
      exists k', row'. by rewrite lookup_insert_ne.
Qed.
End OrmFacts.

Section SaveFacts.
Context {T : Type} `{DbModelLaws T} `{!DbSave T}.

Lemma model_save_Returned (x : T) (w : World) :
  not_null (save_result x w) = true ->
  (forall y, y ∈ instances (table w) -> get_pk y <> Some (save_key x w) ->
             unique_together (save_result x w) y = false) ->
  model_save x w =
  (Returned (save_result x w),
   emit (saved (save_result x w))
        (set_table (<[save_key x w := save_result x w]> (table w)) w)).
Proof.
  intros Hnn Huniq. unfold model_save.
  rewrite Hnn. simpl.
  replace (existsb _ _) with false; [done |].
  symmetry. apply existsb_false_iff.
  intros y Hy. apply elem_of_instances_delete in Hy as [Hy Hne]. auto.
Qed.

(** [model_save] either writes exactly one row or raises
    [IntegrityError] and leaves the world as it was. *)
Lemma model_save_cases (x : T) (w : World) :
  model_save x w =
    (Returned (save_result x w),
     emit (saved (save_result x w))
          (set_table (<[save_key x w := save_result x w]> (table w)) w))
  \/ model_save x w = (Raised (IntegrityError model), w).
Proof.
  unfold model_save.
  destruct (not_null (save_result x w)); simpl; [| by right].
  destruct (existsb _ _); [by right | by left].
Qed.
End SaveFacts.

(** ** Running the monad step by step *)

Section MonadFacts.
Context {A B : Type}.
Implicit Types (m : M A) (k : A -> M B) (w : World).

Lemma bind_Returned m k w a w' r :
  m w = (Returned a, w') -> k a w' = r -> bind m k w = r.
Proof. unfold bind. by intros -> <-. Qed.

Lemma bind_Raised m k w e w' :
  m w = (Raised e, w') -> bind m k w = (Raised e, w').
Proof. unfold bind. by intros ->. Qed.

Lemma try_except_Returned (body : M A) handler w a w' :
  body w = (Returned a, w') -> try_except body handler w = (Returned a, w').
Proof. unfold try_except. by intros ->. Qed.

Lemma try_except_Raised (body : M A) handler w e w' r :
  body w = (Raised e, w') -> handler e w' = r ->
  try_except body handler w = r.
Proof. unfold try_except. by intros -> <-. Qed.

Lemma try_except_bind_Returned m (k : A -> M B) handler w a w' :
  m w = (Returned a, w') ->
  try_except (bind m k) handler w = try_except (k a) handler w'.
Proof. unfold try_except, bind. by intros ->. Qed.
End MonadFacts.

Lemma assert_true w : assert true w = (Returned tt, w).
Proof. done. Qed.

Lemma assert_false w : assert false w = (Raised AssertionError, w).
Proof. done. Qed.

Lemma objects_get_table {T} `{DbModel T} (p : T -> bool) w :
  objects_get p w = (QuerySet_get (table w) p, w).
Proof. done. Qed.

Lemma related_table {T} `{DbModel T} fk w :
  related (T := T) fk w = (fetch (table w) fk, w).
Proof. done. Qed.

Lemma load_name_logger : load_name "logger" = raise (NameError "logger").
Proof.
  unfold load_name.
  replace (bool_decide ("logger" ∈ module_globals)) with false; [done |].
  by vm_compute.
Qed.

(** A filter that looks at no primary key is indifferent to [with_pk]. *)
Lemma by_site_provider_with_pk site provider v (r : SocialApp.t) :
  by_site_provider site provider (with_pk v r) = by_site_provider site provider r.
Proof. by destruct r. Qed.

Lemma by_app_uid_with_pk app uid v (r : SocialAccount.t) :
  by_app_uid app uid (with_pk v r) = by_app_uid app uid r.
Proof. by destruct r. Qed.

Lemma by_account_app_with_pk a app v (r : SocialToken.t) :
  by_account_app a app (with_pk v r) = by_account_app a app r.
Proof. by destruct r. Qed.

(** ** The handshake state stash *)

(** C1: [verify_and_unstash_state] raises [PermissionDenied] when the
    session holds no stashed state, and when the verifier given differs
    from the stashed one; with the stashed verifier it returns the
    stashed state and removes the entry, so that any further call on the
    session left behind raises [PermissionDenied]. *)
Theorem verify_and_unstash_state_spec (request : HttpRequest) (verifier : string) :
  (session request !! "socialaccount_state" = None ->
   SocialLogin.verify_and_unstash_state request verifier
   = (Raised PermissionDenied, request))
  /\ (forall state verifier2,
        session request !! "socialaccount_state" = Some (state, verifier2) ->
        verifier <> verifier2 ->
        fst (SocialLogin.verify_and_unstash_state request verifier)
        = Raised PermissionDenied)
  /\ (forall state,
        session request !! "socialaccount_state" = Some (state, verifier) ->
        exists request',
          SocialLogin.verify_and_unstash_state request verifier
          = (Returned state, request')
          /\ session request'
             = delete "socialaccount_state" (session request)
          /\ forall verifier',
               fst (SocialLogin.verify_and_unstash_state request' verifier')
               = Raised PermissionDenied).
Proof.
  unfold SocialLogin.verify_and_unstash_state. repeat split.
  - by intros ->.
  - intros state verifier2 -> Hne. by rewrite bool_decide_eq_true_2.
  - intros state ->. rewrite bool_decide_eq_false_2 by auto.
    eexists. split; [done |]. split; [done |].
    intros verifier'. simpl. by rewrite lookup_delete_eq.
Qed.

Lemma verify_and_unstash_state_witness :
  exists request',
    SocialLogin.verify_and_unstash_state Sample.stashed_request "k3Jq0wPzX1aB"
    = (Returned (SocialLogin.state_from_request Sample.request), request')
    /\ session request'
       = delete "socialaccount_state" (session Sample.stashed_request)
    /\ forall verifier',
         fst (SocialLogin.verify_and_unstash_state request' verifier')
         = Raised PermissionDenied.
Proof.
  apply (proj2 (proj2 (verify_and_unstash_state_spec
                         Sample.stashed_request "k3Jq0wPzX1aB"))).
  reflexivity.
Defined.

(** ** [save] on an existing account *)

(** C2: when [is_existing] is true, [save] raises [AssertionError] and
    the world is as before: nothing was written and no collaborator was
    called. *)
Theorem save_existing_faults (request : HttpRequest) (connect : bool)
    (self : SocialLogin.t) (w : World) :
  truthy_pk (SocialLogin.is_existing self) = true ->
  SocialLogin.save request connect self w = (Raised AssertionError, w).
Proof.
  intros Hex. unfold SocialLogin.save. rewrite Hex.
  by apply bind_Raised.
Qed.

Lemma save_existing_faults_witness :
  truthy_pk (SocialLogin.is_existing Sample.existing_login) = true
  /\ SocialLogin.save Sample.request false Sample.existing_login Sample.linked
     = (Raised AssertionError, Sample.linked).
Proof.
  split; [reflexivity |].
  apply (save_existing_faults Sample.request false Sample.existing_login
                              Sample.linked).
  reflexivity.
Defined.

(** ** Resolving the current application *)

Lemma get_current_DoesNotExist provider request w :
  (forall k app, socialapp_table w !! k = Some app ->
                 by_site_provider (site_id request) provider app = false) ->
  SocialAppManager.get_current provider request w
  = (Raised (DoesNotExist MSocialApp), w).
Proof.
  intros Hnone. unfold SocialAppManager.get_current, objects_get.
  f_equal. refine (proj2 (QuerySet_get_DoesNotExist (T := SocialApp.t) _ _) _).
  intros y (k & row & Hl & ->)%elem_of_instances.
  rewrite by_site_provider_with_pk. eauto.
Qed.

(** An application that [get_current] returns is a row of the table and
    carries the key of that row. *)
Lemma get_current_Returned provider request w app w' :
  SocialAppManager.get_current provider request w = (Returned app, w') ->
  w' = w /\ exists k, SocialApp.pk app = Some k
                      /\ is_Some (socialapp_table w !! k).
Proof.
  unfold SocialAppManager.get_current, objects_get. intros [= Hq <-].
  split; [done |].
  apply QuerySet_get_Returned in Hq as [Hin _].
  apply elem_of_instances in Hin as (k & row & Hl & ->).
  exists k. split; [by destruct row | by rewrite Hl].
Qed.

(** C7 as the spec states it fails where several applications match:
    the two [google] applications of site 1 make [get_current] raise
    [MultipleObjectsReturned], which is not [DoesNotExist]. *)
Lemma get_current_ambiguous_not_DoesNotExist :
  socialapp_table Sample.ambiguous !! 1 = Some Sample.google
  /\ socialapp_table Sample.ambiguous !! 2 = Some Sample.google_bis
  /\ by_site_provider 1 "google" Sample.google = true
  /\ by_site_provider 1 "google" Sample.google_bis = true
  /\ fst (SocialAppManager.get_current "google" Sample.request Sample.ambiguous)
     = Raised (MultipleObjectsReturned MSocialApp)
  /\ fst (SocialAppManager.get_current "google" Sample.request Sample.ambiguous)
     <> Raised (DoesNotExist MSocialApp).
Proof. repeat split; try by vm_compute. Qed.

(** C7 (amended): [get_current] raises [SocialApp.DoesNotExist] when no
    application matches the provider and the current site, and
    [SocialApp.MultipleObjectsReturned] when two or more match; in both
    cases no application is returned and the world is as before. *)
Theorem get_current_zero_or_several (provider : string) (request : HttpRequest)
    (w : World) :
  ((forall k app, socialapp_table w !! k = Some app ->
                  by_site_provider (site_id request) provider app = false) ->
   SocialAppManager.get_current provider request w
   = (Raised (DoesNotExist MSocialApp), w))
  /\ (forall k1 k2 app1 app2,
        k1 <> k2 ->
        socialapp_table w !! k1 = Some app1 ->
        socialapp_table w !! k2 = Some app2 ->
        by_site_provider (site_id request) provider app1 = true ->
        by_site_provider (site_id request) provider app2 = true ->
        SocialAppManager.get_current provider request w
        = (Raised (MultipleObjectsReturned MSocialApp), w)).
Proof.
  split; [apply get_current_DoesNotExist |].
  intros k1 k2 app1 app2 Hne H1 H2 Hp1 Hp2.
  unfold SocialAppManager.get_current, objects_get. f_equal.
  refine (QuerySet_get_Multiple (T := SocialApp.t) _ _
            (with_pk (Some k1) app1) (with_pk (Some k2) app2) _ _ _ _ _).
  - apply elem_of_instances; eauto.
  - apply elem_of_instances; eauto.
  - intros Heq. apply (f_equal get_pk) in Heq.
    rewrite !get_with_pk in Heq. congruence.
  - by rewrite by_site_provider_with_pk.
  - by rewrite by_site_provider_with_pk.
Qed.

Lemma get_current_zero_or_several_witness :
  SocialAppManager.get_current "google" Sample.request Sample.unconfigured
  = (Raised (DoesNotExist MSocialApp), Sample.unconfigured)
  /\ SocialAppManager.get_current "google" Sample.request Sample.ambiguous
     = (Raised (MultipleObjectsReturned MSocialApp), Sample.ambiguous).
Proof.
  split.
  - apply (proj1 (get_current_zero_or_several "google" Sample.request
                    Sample.unconfigured)).
    intros k app Hl. vm_compute in Hl. discriminate.
  - apply (proj2 (get_current_zero_or_several "google" Sample.request
                    Sample.ambiguous) 1 2 Sample.google Sample.google_bis);
      [lia | reflexivity | reflexivity | reflexivity | reflexivity].
Defined.

(** ** [lookup] *)

(** C4: with no application for the provider and the current site,
    [lookup] enters the handler of [SocialApp.DoesNotExist]; evaluating
    [logger] there raises [NameError], so that nothing is logged and the
    exception that reaches the caller is not [SocialApp.DoesNotExist]. *)
Theorem lookup_unconfigured_NameError (request : HttpRequest)
    (self : SocialLogin.t) (w : World) :
  truthy_pk (SocialLogin.is_existing self) = false ->
  (forall k app, socialapp_table w !! k = Some app ->
     by_site_provider (site_id request)
       (SocialAccount.provider (SocialLogin.account self)) app = false) ->
  SocialLogin.lookup request self w = (Raised (NameError "logger"), w).
Proof.
  intros Hnew Hnone. unfold SocialLogin.lookup. rewrite Hnew.
  eapply bind_Returned; [apply assert_true |].
  eapply try_except_Raised.
  - apply bind_Raised. by apply get_current_DoesNotExist.
  - unfold SocialLogin.lookup_except, logger_debug.
    by rewrite load_name_logger.
Qed.

Lemma lookup_unconfigured_NameError_witness :
  SocialLogin.lookup Sample.request Sample.login Sample.unconfigured
  = (Raised (NameError "logger"), Sample.unconfigured).
Proof.
  apply (lookup_unconfigured_NameError Sample.request Sample.login
           Sample.unconfigured).
  - reflexivity.
  - intros k app Hl. vm_compute in Hl. discriminate.
Defined.

(** C8: on a login whose account has no primary key, when the
    application resolves and no account row has that application and the
    uid of the login, [lookup] returns without raising; the login and the
    world are what they were. *)
Theorem lookup_absent_noop (request : HttpRequest) (self : SocialLogin.t)
    (w : World) (app : SocialApp.t) :
  truthy_pk (SocialLogin.is_existing self) = false ->
  SocialAppManager.get_current
    (SocialAccount.provider (SocialLogin.account self)) request w
  = (Returned app, w) ->
  (forall k row, socialaccount_table w !! k = Some row ->
     by_app_uid app (SocialAccount.uid (SocialLogin.account self)) row = false) ->
  SocialLogin.lookup request self w = (Returned self, w).
Proof.
  intros Hnew Happ Hnone. unfold SocialLogin.lookup. rewrite Hnew.
  eapply bind_Returned; [apply assert_true |].
  eapply try_except_Raised.
  - eapply bind_Returned; [apply Happ |].
    apply bind_Raised. rewrite objects_get_table. f_equal.
    refine (proj2 (QuerySet_get_DoesNotExist (T := SocialAccount.t) _ _) _).
    intros y (k & row & Hl & ->)%elem_of_instances.
    rewrite by_app_uid_with_pk. eauto.
  - done.
Qed.

Lemma lookup_absent_noop_witness :
  SocialLogin.lookup Sample.request Sample.login Sample.first_time
  = (Returned Sample.login, Sample.first_time).
Proof.
  apply (lookup_absent_noop Sample.request Sample.login Sample.first_time
           (with_pk (Some 1) Sample.google)).
  - reflexivity.
  - reflexivity.
  - intros k row Hl. vm_compute in Hl. discriminate.
Defined.

(** ** [lookup] when the account is found *)

(** What a successful [get] tells about the instance found. *)
Lemma QuerySet_get_row {T} `{DbModelLaws T} (tbl : gmap Z T) p x :
  QuerySet_get tbl p = Returned x ->
  exists k row, tbl !! k = Some row /\ x = with_pk (Some k) row
                /\ get_pk x = Some k /\ p x = true.
Proof.
  intros (Hin & Hp & _)%QuerySet_get_Returned.
  apply elem_of_instances in Hin as (k & row & Hl & ->).
  exists k, row. by rewrite get_with_pk.
Qed.

Lemma fetch_Returned {T} `{DbModelLaws T} (tbl : gmap Z T) fk x :
  fetch tbl fk = Returned x ->
  exists k row, fk = Some k /\ tbl !! k = Some row /\ x = with_pk (Some k) row
                /\ get_pk x = Some k.
Proof.
  unfold fetch. destruct fk as [k|]; [| done].
  destruct (tbl !! k) as [row|] eqn:Hl; [| done].
  intros [= <-]. exists k, row. by rewrite get_with_pk.
Qed.

(** The account that [lookup] found, with the fresh [extra_data], goes
    back to its own row; the constraints cannot fail. *)
Lemma lookup_account_save (w : World) (app : SocialApp.t) (uid extra : string)
    (a : SocialAccount.t) (u : User.t) (i : Z) :
  SocialApp.pk app = Some i ->
  QuerySet_get (socialaccount_table w) (by_app_uid app uid) = Returned a ->
  fetch (user_table w) (SocialAccount.user_id a) = Returned u ->
  let a1 := SocialAccount.set_last_login (Some (clock w))
              (SocialAccount.set_extra_data extra a) in
  exists k,
    SocialAccount.pk a = Some k
    /\ is_Some (socialaccount_table w !! k)
    /\ model_save (SocialAccount.set_extra_data extra a) w
       = (Returned a1,
          emit (SavedAccount a1)
               (set_socialaccount_table
                  (<[k := a1]> (socialaccount_table w)) w)).
Proof.
  intros Hi Hget Hu a1.
  pose proof Hget as (Hin & Hp & Huniq)%QuerySet_get_Returned.
  apply QuerySet_get_row in Hget as (k & row & Hl & Ha & Hpk & _).
  apply fetch_Returned in Hu as (ku & _ & Hfk & _).
  exists k. split; [done |]. split; [by rewrite Hl |].
  unfold by_app_uid in Hp. apply andb_true_iff in Hp as [Happ Huid].
  apply bool_decide_eq_true in Happ, Huid.
  assert (Hkey : save_key (SocialAccount.set_extra_data extra a) w = k).
  { unfold save_key. simpl in *. by rewrite Hpk. }
  assert (Hres : save_result (SocialAccount.set_extra_data extra a) w = a1).
  { unfold save_result. rewrite Hkey. simpl.
    change (table (T := SocialAccount.t) w) with (socialaccount_table w).
    rewrite bool_decide_eq_false_2 by (rewrite Hl; done).
    subst a1. simpl in Hpk. destruct a; simpl in *. by subst. }
  rewrite model_save_Returned; rewrite Hres, ?Hkey; [done | |].
  - subst a1. simpl. rewrite Hfk, Happ, Hi. done.
  - intros y Hy Hne. subst a1. simpl.
    destruct (bool_decide (SocialAccount.app_id a = SocialAccount.app_id y))
      eqn:E1; [| done].
    destruct (bool_decide (SocialAccount.uid a = SocialAccount.uid y))
      eqn:E2; [| done].
    apply bool_decide_eq_true in E1, E2. exfalso. apply Hne.
    rewrite (Huniq y Hy); [done |].
    unfold by_app_uid. rewrite <- E1, <- E2, Happ, Huid.
    by rewrite !bool_decide_eq_true_2.
Qed.

(** Up to the token block, [lookup] on a found account is one write. *)
Lemma lookup_found (request : HttpRequest) (self : SocialLogin.t) (w : World)
    (app : SocialApp.t) (a : SocialAccount.t) (u : User.t) :
  truthy_pk (SocialLogin.is_existing self) = false ->
  SocialAppManager.get_current
    (SocialAccount.provider (SocialLogin.account self)) request w
  = (Returned app, w) ->
  QuerySet_get (socialaccount_table w)
    (by_app_uid app (SocialAccount.uid (SocialLogin.account self)))
  = Returned a ->
  fetch (user_table w) (SocialAccount.user_id a) = Returned u ->
  let a1 := SocialAccount.set_last_login (Some (clock w))
              (SocialAccount.set_extra_data
                 (SocialAccount.extra_data (SocialLogin.account self)) a) in
  exists k,
    SocialAccount.pk a = Some k
    /\ is_Some (socialaccount_table w !! k)
    /\ SocialLogin.lookup request self w
       = try_except
           (SocialLogin.lookup_update_token
              (SocialLogin.set_account a1 (SocialLogin.set_user u self)))
           (SocialLogin.lookup_except self)
           (emit (SavedAccount a1)
                 (set_socialaccount_table
                    (<[k := a1]> (socialaccount_table w)) w)).
Proof.
  intros Hnew Happ Hget Hu a1.
  destruct (get_current_Returned _ _ _ _ _ Happ) as (_ & i & Hi & _).
  destruct (lookup_account_save w app _
              (SocialAccount.extra_data (SocialLogin.account self))
              a u i Hi Hget Hu) as (k & Hpk & Hrow & Hsave).
  exists k. split; [done |]. split; [done |].
  unfold SocialLogin.lookup. rewrite Hnew.
  eapply bind_Returned; [apply assert_true |].
  erewrite try_except_bind_Returned by apply Happ.
  erewrite try_except_bind_Returned
    by (rewrite objects_get_table; f_equal; apply Hget).
  erewrite try_except_bind_Returned
    by (rewrite related_table; f_equal; apply Hu).
  erewrite try_except_bind_Returned by apply Hsave.
  done.
Qed.

(** ** The token block of [lookup] *)

(** The stored token with the values of the carried one: access token
    and expiry always, the secret only when the carried one is not
    empty. *)
Lemma updated_token_fields (tk t : SocialToken.t) :
  let t' := SocialToken.set_expires_at (SocialToken.expires_at tk)
              (if truthy_str (SocialToken.token_secret tk)
               then SocialToken.set_token_secret (SocialToken.token_secret tk)
                      (SocialToken.set_token (SocialToken.token tk) t)
               else SocialToken.set_token (SocialToken.token tk) t) in
  SocialToken.pk t' = SocialToken.pk t
  /\ SocialToken.app_id t' = SocialToken.app_id t
  /\ SocialToken.account_id t' = SocialToken.account_id t
  /\ SocialToken.token t' = SocialToken.token tk
  /\ SocialToken.expires_at t' = SocialToken.expires_at tk
  /\ SocialToken.token_secret t'
     = (if truthy_str (SocialToken.token_secret tk)
        then SocialToken.token_secret tk
        else SocialToken.token_secret t).
Proof. simpl. by destruct (truthy_str (SocialToken.token_secret tk)). Qed.

Lemma token_block_assert (self : SocialLogin.t) (w : World) (tk : SocialToken.t) :
  STORE_TOKENS w = true ->
  SocialLogin.token self = Some tk ->
  truthy_pk (SocialToken.pk tk) = true ->
  SocialLogin.lookup_update_token self w = (Raised AssertionError, w).
Proof.
  intros Hstore Htk Hpk. unfold SocialLogin.lookup_update_token.
  eapply bind_Returned; [reflexivity |].
  rewrite Hstore, Htk, Hpk. by apply bind_Raised.
Qed.

Lemma token_block_skip (self : SocialLogin.t) (w : World) :
  STORE_TOKENS w = false \/ SocialLogin.token self = None ->
  SocialLogin.lookup_update_token self w = (Returned self, w).
Proof.
  intros Hskip. unfold SocialLogin.lookup_update_token.
  eapply bind_Returned; [reflexivity |].
  destruct Hskip as [-> | ->]; [done |]. by destruct (STORE_TOKENS w).
Qed.

(** A stored token of the carried token's application and of the
    account of the login is updated in its row. *)
Lemma token_block_found (self : SocialLogin.t) (w : World)
    (tk t : SocialToken.t) (tk_app : SocialApp.t) (k : Z) :
  STORE_TOKENS w = true ->
  SocialLogin.token self = Some tk ->
  truthy_pk (SocialToken.pk tk) = false ->
  SocialAccount.pk (SocialLogin.account self) = Some k ->
  fetch (socialapp_table w) (SocialToken.app_id tk) = Returned tk_app ->
  QuerySet_get (socialtoken_table w)
    (by_account_app (SocialLogin.account self) tk_app) = Returned t ->
  let t' := SocialToken.set_expires_at (SocialToken.expires_at tk)
              (if truthy_str (SocialToken.token_secret tk)
               then SocialToken.set_token_secret (SocialToken.token_secret tk)
                      (SocialToken.set_token (SocialToken.token tk) t)
               else SocialToken.set_token (SocialToken.token tk) t) in
  exists j,
    SocialToken.pk t = Some j
    /\ is_Some (socialtoken_table w !! j)
    /\ SocialLogin.lookup_update_token self w
       = (Returned (SocialLogin.set_token (Some t') self),
          emit (SavedToken t')
               (set_socialtoken_table (<[j := t']> (socialtoken_table w)) w)).
Proof.
  intros Hstore Htk Hpk Hk Happ Hget t'.
  destruct (updated_token_fields tk t) as (Fpk & Fapp & Facc & _).
  fold t' in Fpk, Fapp, Facc.
  pose proof Hget as (Hin & Hp & Huniq)%QuerySet_get_Returned.
  pose proof Hget as (j & row & Hl & Ht & Hj & _)%QuerySet_get_row.
  pose proof Happ as (i & _ & Hfk & _ & _ & Hi)%fetch_Returned.
  simpl in Hj, Hi.
  unfold by_account_app in Hp. apply andb_true_iff in Hp as [Hacc Hap].
  apply bool_decide_eq_true in Hacc, Hap.
  exists j. split; [done |]. split; [by rewrite Hl |].
  unfold SocialLogin.lookup_update_token.
  eapply bind_Returned; [reflexivity |].
  rewrite Hstore, Htk, Hpk.
  eapply bind_Returned; [apply assert_true |].
  apply try_except_Returned.
  eapply bind_Returned; [rewrite related_table; f_equal; apply Happ |].
  eapply bind_Returned; [rewrite objects_get_table; f_equal; apply Hget |].
  eapply bind_Returned; [| reflexivity].
  fold t'. clearbody t'.
  assert (Hkey : save_key t' w = j).
  { unfold save_key. change (get_pk t') with (SocialToken.pk t').
    by rewrite Fpk, Hj. }
  assert (Hres : save_result t' w = t').
  { unfold save_result. rewrite Hkey.
    change (with_pk (Some j) (pre_save _ _ t')) with (SocialToken.set_pk (Some j) t').
    rewrite <- Hj, <- Fpk. by destruct t'. }
  rewrite model_save_Returned; rewrite Hres, ?Hkey; [done | |].
  - change (not_null t') with
      (bool_decide (SocialToken.app_id t' <> None)
       && bool_decide (SocialToken.account_id t' <> None)).
    rewrite Fapp, Facc, Hacc, Hap, Hk, Hi. done.
  - intros y Hy Hne.
    change (unique_together t' y) with
      (bool_decide (SocialToken.app_id t' = SocialToken.app_id y)
       && bool_decide (SocialToken.account_id t' = SocialToken.account_id y)).
    rewrite Fapp, Facc.
    destruct (bool_decide (SocialToken.app_id t = SocialToken.app_id y))
      eqn:E1; [| done].
    destruct (bool_decide (SocialToken.account_id t = SocialToken.account_id y))
      eqn:E2; [| done].
    apply bool_decide_eq_true in E1, E2. exfalso. apply Hne.
    rewrite (Huniq y Hy); [done |].
    unfold by_account_app. rewrite <- E1, <- E2, Hacc, Hap.
    by rewrite !bool_decide_eq_true_2.
Qed.

(** Without such a row the carried token is bound to the account and
    inserted. *)
Lemma token_block_absent (self : SocialLogin.t) (w : World)
    (tk : SocialToken.t) (tk_app : SocialApp.t) (k : Z) :
  STORE_TOKENS w = true ->
  SocialLogin.token self = Some tk ->
  truthy_pk (SocialToken.pk tk) = false ->
  SocialAccount.pk (SocialLogin.account self) = Some k ->
  fetch (socialapp_table w) (SocialToken.app_id tk) = Returned tk_app ->
  QuerySet_get (socialtoken_table w)
    (by_account_app (SocialLogin.account self) tk_app)
  = Raised (DoesNotExist MSocialToken) ->
  let tk0 := SocialToken.set_account_id (Some k) tk in
  let j := save_key tk0 w in
  let tk1 := SocialToken.set_pk (Some j) tk0 in
  SocialLogin.lookup_update_token self w
  = (Returned (SocialLogin.set_token (Some tk1) self),
     emit (SavedToken tk1)
          (set_socialtoken_table (<[j := tk1]> (socialtoken_table w)) w)).
Proof.
  intros Hstore Htk Hpk Hk Happ Hget tk0 j tk1.
  pose proof Happ as (i & _ & Hfk & _ & _ & Hi)%fetch_Returned.
  simpl in Hi.
  pose proof (proj1 (QuerySet_get_DoesNotExist (T := SocialToken.t) _ _) Hget)
    as Hnone.
  unfold SocialLogin.lookup_update_token.
  eapply bind_Returned; [reflexivity |].
  rewrite Hstore, Htk, Hpk.
  eapply bind_Returned; [apply assert_true |].
  eapply try_except_Raised.
  { eapply bind_Returned; [rewrite related_table; f_equal; apply Happ |].
    apply bind_Raised. rewrite objects_get_table. f_equal. apply Hget. }
  cbv beta iota. rewrite Hk. fold tk0.
  eapply bind_Returned; [| reflexivity].
  assert (Hres : save_result tk0 w = tk1) by done.
  rewrite model_save_Returned; rewrite Hres; [done | |].
  - subst tk1 tk0. simpl. by rewrite Hfk.
  - intros y Hy _. subst tk1 tk0. simpl.
    specialize (Hnone y Hy). unfold by_account_app in Hnone.
    rewrite Hk, Hi, <- Hfk in Hnone.
    apply andb_false_iff in Hnone as [Hf | Hf];
      apply bool_decide_eq_false in Hf.
    + rewrite (bool_decide_eq_false_2 (Some k = _)) by congruence.
      by rewrite andb_false_r.
    + by rewrite (bool_decide_eq_false_2 (SocialToken.app_id tk = _))
        by congruence.
Qed.

(** C3: when [lookup] finds the account, tokens are stored, the login
    carries a token and a stored token exists for the account and the
    application of the carried token, then [lookup] returns, the row of
    the stored token is rewritten with the access token and the expiry of
    the carried token, its secret is replaced only when the carried
    secret is not empty, and the token of the login is that row. *)
Theorem lookup_updates_stored_token (request : HttpRequest)
    (self : SocialLogin.t) (w : World) (app tk_app : SocialApp.t)
    (a : SocialAccount.t) (u : User.t) (tk t : SocialToken.t) :
  truthy_pk (SocialLogin.is_existing self) = false ->
  STORE_TOKENS w = true ->
  SocialLogin.token self = Some tk ->
  truthy_pk (SocialToken.pk tk) = false ->
  SocialAppManager.get_current
    (SocialAccount.provider (SocialLogin.account self)) request w
  = (Returned app, w) ->
  QuerySet_get (socialaccount_table w)
    (by_app_uid app (SocialAccount.uid (SocialLogin.account self)))
  = Returned a ->
  fetch (user_table w) (SocialAccount.user_id a) = Returned u ->
  fetch (socialapp_table w) (SocialToken.app_id tk) = Returned tk_app ->
  QuerySet_get (socialtoken_table w) (by_account_app a tk_app) = Returned t ->
  exists self' w' j t',
    SocialLogin.lookup request self w = (Returned self', w')
    /\ SocialToken.pk t = Some j
    /\ socialtoken_table w' = <[j := t']> (socialtoken_table w)
    /\ last (journal w') = Some (SavedToken t')
    /\ SocialLogin.token self' = Some t'
    /\ SocialToken.pk t' = Some j
    /\ SocialToken.app_id t' = SocialToken.app_id t
    /\ SocialToken.account_id t' = SocialToken.account_id t
    /\ SocialToken.token t' = SocialToken.token tk
    /\ SocialToken.expires_at t' = SocialToken.expires_at tk
    /\ SocialToken.token_secret t'
       = (if truthy_str (SocialToken.token_secret tk)
          then SocialToken.token_secret tk
          else SocialToken.token_secret t).
Proof.
  intros Hnew Hstore Htk Hpk Happ Hget Hu Htkapp Htget.
  destruct (lookup_found request self w app a u Hnew Happ Hget Hu)
    as (k & Hk & _ & ->).
  edestruct (token_block_found
               (SocialLogin.set_account
                  (SocialAccount.set_last_login (Some (clock w))
                     (SocialAccount.set_extra_data
                        (SocialAccount.extra_data (SocialLogin.account self)) a))
                  (SocialLogin.set_user u self))
               (emit (SavedAccount
                  (SocialAccount.set_last_login (Some (clock w))
                     (SocialAccount.set_extra_data
                        (SocialAccount.extra_data (SocialLogin.account self)) a)))
                  (set_socialaccount_table
                     (<[k := SocialAccount.set_last_login (Some (clock w))
                         (SocialAccount.set_extra_data
                            (SocialAccount.extra_data (SocialLogin.account self))
                            a)]> (socialaccount_table w)) w))
               tk t tk_app k)
    as (j & Hj & _ & Hblock); try done.
  destruct (updated_token_fields tk t) as (Fpk & Fapp & Facc & Ftok & Fexp & Fsec).
  eexists _, _, j, _. split.
  { apply try_except_Returned. apply Hblock. }
  split; [done |]. split; [done |].
  split; [simpl; by rewrite last_snoc |].
  split; [done |].
  rewrite Fpk. auto 10.
Qed.

Lemma lookup_updates_stored_token_witness :
  exists self' w' j t',
    SocialLogin.lookup Sample.request Sample.login Sample.linked
    = (Returned self', w')
    /\ SocialToken.pk (with_pk (Some 3) Sample.stored_token) = Some j
    /\ socialtoken_table w' = <[j := t']> (socialtoken_table Sample.linked)
    /\ last (journal w') = Some (SavedToken t')
    /\ SocialLogin.token self' = Some t'
    /\ SocialToken.pk t' = Some j
    /\ SocialToken.app_id t' = Some 1
    /\ SocialToken.account_id t' = Some 5
    /\ SocialToken.token t' = "new-access"
    /\ SocialToken.expires_at t' = Some 200
    /\ SocialToken.token_secret t' = "refresh".
Proof.
  refine (lookup_updates_stored_token Sample.request Sample.login Sample.linked
            (with_pk (Some 1) Sample.google) (with_pk (Some 1) Sample.google)
            (with_pk (Some 5) Sample.stored_account)
            (with_pk (Some 7) Sample.raymond)
            Sample.token (with_pk (Some 3) Sample.stored_token)
            _ _ _ _ _ _ _ _ _);
    reflexivity.
Defined.

(** C10: when [lookup] finds the account, tokens are stored and the
    login carries a token, a carried token with a primary key makes
    [lookup] raise [AssertionError]; otherwise the stored token is
    searched by the account found and the application the carried token
    itself refers to (the application resolved for the provider plays no
    part): the token the login ends up with belongs to that application
    and that account, and every other row of the token table is as it
    was. *)
Theorem lookup_token_precondition_and_key (request : HttpRequest)
    (self : SocialLogin.t) (w : World) (app : SocialApp.t)
    (a : SocialAccount.t) (u : User.t) (tk : SocialToken.t) :
  truthy_pk (SocialLogin.is_existing self) = false ->
  STORE_TOKENS w = true ->
  SocialLogin.token self = Some tk ->
  SocialAppManager.get_current
    (SocialAccount.provider (SocialLogin.account self)) request w
  = (Returned app, w) ->
  QuerySet_get (socialaccount_table w)
    (by_app_uid app (SocialAccount.uid (SocialLogin.account self)))
  = Returned a ->
  fetch (user_table w) (SocialAccount.user_id a) = Returned u ->
  (truthy_pk (SocialToken.pk tk) = true ->
   exists w', SocialLogin.lookup request self w = (Raised AssertionError, w'))
  /\ (truthy_pk (SocialToken.pk tk) = false ->
      forall tk_app,
        fetch (socialapp_table w) (SocialToken.app_id tk) = Returned tk_app ->
        forall found,
          QuerySet_get (socialtoken_table w) (by_account_app a tk_app) = found ->
          found <> Raised (MultipleObjectsReturned MSocialToken) ->
          exists self' w' t',
            SocialLogin.lookup request self w = (Returned self', w')
            /\ SocialLogin.token self' = Some t'
            /\ (forall t, found = Returned t ->
                          SocialToken.pk t' = SocialToken.pk t)
            /\ SocialToken.app_id t' = SocialToken.app_id tk
            /\ SocialToken.app_id t' = SocialApp.pk tk_app
            /\ SocialToken.account_id t' = SocialAccount.pk a
            /\ forall j row,
                 socialtoken_table w !! j = Some row ->
                 SocialToken.pk t' <> Some j ->
                 socialtoken_table w' !! j = Some row).
Proof.
  intros Hnew Hstore Htk Happ Hget Hu.
  destruct (lookup_found request self w app a u Hnew Happ Hget Hu)
    as (k & Hk & _ & ->).
  set (a1 := SocialAccount.set_last_login _ _).
  set (self1 := SocialLogin.set_account a1 _).
  set (w1 := emit _ _).
  split.
  - intros Hpk. exists w1. eapply try_except_Raised.
    + by apply (token_block_assert self1 w1 tk).
    + done.
  - intros Hpk tk_app Htkapp found Hfound Hmulti.
    pose proof Htkapp as (i & _ & Hfk & _ & _ & Hi)%fetch_Returned.
    simpl in Hi.
    destruct found as [t | e].
    + destruct (token_block_found self1 w1 tk t tk_app k)
        as (j & Hj & _ & Hblock); try done.
      destruct (updated_token_fields tk t)
        as (Fpk & Fapp & Facc & _).
      pose proof Hfound as (_ & _ & _ & _ & _ & Hp)%QuerySet_get_row.
      unfold by_account_app in Hp. apply andb_true_iff in Hp as [Hacc Hap].
      apply bool_decide_eq_true in Hacc, Hap.
      eexists _, _, _. split.
      { apply try_except_Returned. apply Hblock. }
      split; [done |]. split; [by intros t0 [= <-] |].
      rewrite Fapp, Facc, Fpk, Hap, Hacc, Hfk, Hi, Hj.
      repeat split; try done.
      intros j' row Hl Hne. simpl.
      rewrite lookup_insert_ne; [done | intros ->; by apply Hne].
    + assert (e = DoesNotExist MSocialToken) as ->.
      { unfold QuerySet_get in Hfound.
        destruct (List.filter _ _) as [|x [|y l]]; simpl in Hfound;
          [by injection Hfound as <- | done
          | exfalso; apply Hmulti; by rewrite <- Hfound]. }
      pose proof (token_block_absent self1 w1 tk tk_app k Hstore Htk Hpk Hk
                    Htkapp Hfound) as Hblock.
      cbv zeta in Hblock.
      eexists _, _, _. split.
      { apply try_except_Returned. apply Hblock. }
      split; [done |]. split; [done |]. split; [done |].
      split; [simpl; by rewrite Hfk, Hi |]. split; [simpl; by rewrite Hk |].
      intros j' row Hl Hne.
      change (socialtoken_table (emit ?e (set_socialtoken_table ?m ?w0)))
        with m.
      rewrite lookup_insert_ne; [done | intros Heq; apply Hne; by rewrite Heq].
Qed.

Lemma lookup_token_precondition_and_key_witness :
  (exists w',
     SocialLogin.lookup Sample.request Sample.login_saved_token Sample.linked
     = (Raised AssertionError, w'))
  /\ (exists self' w' t',
        SocialLogin.lookup Sample.request Sample.login_twitter_token
          Sample.linked
        = (Returned self', w')
        /\ SocialLogin.token self' = Some t'
        /\ (forall t, Returned (with_pk (Some 4) Sample.stored_twitter_token)
                      = Returned t ->
                      SocialToken.pk t' = SocialToken.pk t)
        /\ SocialToken.app_id t' = Some 2
        /\ SocialToken.app_id t' = Some 2
        /\ SocialToken.account_id t' = Some 5
        /\ forall j row,
             socialtoken_table Sample.linked !! j = Some row ->
             SocialToken.pk t' <> Some j ->
             socialtoken_table w' !! j = Some row).
Proof.
  split.
  - refine (proj1 (lookup_token_precondition_and_key Sample.request
                     Sample.login_saved_token Sample.linked
                     (with_pk (Some 1) Sample.google)
                     (with_pk (Some 5) Sample.stored_account)
                     (with_pk (Some 7) Sample.raymond)
                     (SocialToken.set_pk (Some 3) Sample.token)
                     _ _ _ _ _ _) _); reflexivity.
  - refine (proj2 (lookup_token_precondition_and_key Sample.request
                     Sample.login_twitter_token Sample.linked
                     (with_pk (Some 1) Sample.google)
                     (with_pk (Some 5) Sample.stored_account)
                     (with_pk (Some 7) Sample.raymond)
                     Sample.twitter_token
                     _ _ _ _ _ _) _
                  (with_pk (Some 2) Sample.twitter) _
                  (Returned (with_pk (Some 4) Sample.stored_twitter_token))
                  _ _); try reflexivity.
    discriminate.
Defined.

(** ** [save] *)

(** Queries leave the world alone. *)
Lemma get_current_table provider request w :
  SocialAppManager.get_current provider request w
  = (QuerySet_get (socialapp_table w)
       (by_site_provider (site_id request) provider), w).
Proof. done. Qed.

(** A query fails in one of two ways. *)
Lemma QuerySet_get_cases {T} `{DbModel T} (tbl : gmap Z T) p :
  (exists x, QuerySet_get tbl p = Returned x)
  \/ QuerySet_get tbl p = Raised (DoesNotExist model)
  \/ QuerySet_get tbl p = Raised (MultipleObjectsReturned model).
Proof.
  unfold QuerySet_get.
  destruct (List.filter p (instances tbl)) as [|x [|y l]]; eauto.
Qed.

(** [user.save()]: the user is written under its key, or another row
    has its username and nothing is written. *)
Lemma user_save_cases (u : User.t) (w : World) :
  let k := save_key u w in
  let u1 := User.set_pk (Some k) u in
  (model_save u w
   = (Returned u1,
      emit (SavedUser u1) (set_user_table (<[k := u1]> (user_table w)) w))
   /\ forall k' row, user_table w !! k' = Some row ->
                     User.pk u <> Some k' ->
                     User.username row <> User.username u)
  \/ (model_save u w = (Raised (IntegrityError MUser), w)
      /\ exists k' row, user_table w !! k' = Some row
                        /\ User.pk u <> Some k'
                        /\ User.username row = User.username u).
Proof.
  intros k u1. unfold model_save. cbn [not_null User_save negb].
  fold k. change (save_result u w) with u1.
  destruct (existsb (unique_together u1) (instances (delete k (table w))))
    eqn:Hex.
  - right. split; [done |].
    apply existsb_exists in Hex as (y & Hin & Hy).
    apply list_elem_of_In, elem_of_instances_delete in Hin as [Hin Hne].
    apply elem_of_instances in Hin as (k' & row & Hl & ->).
    rewrite get_with_pk in Hne.
    exists k', row. split; [done |]. split.
    + intros Hpk. apply Hne. f_equal. unfold k, save_key.
      change (get_pk u) with (User.pk u). by rewrite Hpk.
    + apply bool_decide_eq_true in Hy. by destruct row.
  - left. split; [done |]. intros k' row Hl Hpk Hname.
    pose proof (proj1 (existsb_false_iff _ _) Hex (with_pk (Some k') row))
      as Hno.
    assert (Hin : with_pk (Some k') row ∈ instances (delete k (table w))).
    { apply elem_of_instances_delete. split; [apply elem_of_instances; eauto |].
      rewrite get_with_pk. intros [= ->]. unfold k, save_key in Hl.
      change (get_pk u) with (User.pk u) in Hl.
      destruct (User.pk u) as [k0 |] eqn:Hk0.
      { apply Hpk. unfold k, save_key. change (get_pk u) with (User.pk u).
        by rewrite Hk0. }
      change (table w) with (user_table w) in Hl.
      by rewrite fresh_pk_unused in Hl. }
    apply Hno in Hin. apply bool_decide_eq_false in Hin. apply Hin.
    destruct row, u. simpl in *. congruence.
Qed.

(** A user whose username no other row has is written. *)
Lemma user_save_Returned (u : User.t) (w : World) :
  (forall k' row, user_table w !! k' = Some row ->
                  User.pk u <> Some k' ->
                  User.username row <> User.username u) ->
  let k := save_key u w in
  let u1 := User.set_pk (Some k) u in
  model_save u w
  = (Returned u1,
     emit (SavedUser u1) (set_user_table (<[k := u1]> (user_table w)) w)).
Proof.
  intros Hfree k u1.
  destruct (user_save_cases u w) as [[Hs _] | [_ (k' & row & Hl & Hpk & Hn)]];
    [done |].
  by destruct (Hfree k' row Hl Hpk).
Qed.

Ltac login_simpl :=
  cbn [SocialLogin.account SocialLogin.user SocialLogin.token
       SocialLogin.email_addresses SocialLogin.state SocialLogin.request
       SocialLogin.set_account SocialLogin.set_user SocialLogin.set_request
       SocialLogin.set_token User.pk User.set_pk] in *.

(** A saved instance carries the key of its row. *)
Lemma save_result_pk {T} `{DbModelLaws T} `{!DbSave T} (x : T) (w : World) :
  get_pk (save_result x w) = Some (save_key x w).
Proof. unfold save_result. by rewrite get_with_pk. Qed.

Lemma account_save_result_fields (a : SocialAccount.t) (w : World) :
  SocialAccount.user_id (save_result a w) = SocialAccount.user_id a
  /\ SocialAccount.app_id (save_result a w) = SocialAccount.app_id a
  /\ SocialAccount.provider (save_result a w) = SocialAccount.provider a
  /\ SocialAccount.uid (save_result a w) = SocialAccount.uid a
  /\ SocialAccount.extra_data (save_result a w) = SocialAccount.extra_data a.
Proof.
  unfold save_result. simpl.
  by destruct (bool_decide (socialaccount_table w !! save_key a w = None)).
Qed.

Lemma save_tail (request : HttpRequest) (connect : bool)
    (self : SocialLogin.t) (w : World) :
  (if connect then ret self
   else let* _ := setup_user_email request (SocialLogin.user self)
                    (SocialLogin.email_addresses self) in
        ret self) w
  = (Returned self,
     if connect then w
     else emit (SetupUserEmail (SocialLogin.user self)
                  (SocialLogin.email_addresses self)) w).
Proof. by destruct connect. Qed.

(** C6: [save] on a login whose account has no primary key.  The
    application is resolved before anything is written: when that fails,
    the exception is the one of the resolution and the world is as
    before.  Afterwards the writes happen in a fixed order, which the
    journal records: the user; then the account, with [user] and [app]
    bound to the saved user and the resolved application; then, when
    tokens are stored and the login carries one, the token with
    [account] bound to the saved account; at last, unless [connect], the
    call of [setup_user_email] with the e-mail addresses of the login.
    An [IntegrityError] stops the sequence where it is: that of the
    user (another row has its username) before anything is written, that
    of the account after the user, that of the token after the user and
    the account. *)
Theorem save_new_sequence (request : HttpRequest) (connect : bool)
    (self : SocialLogin.t) (w : World) (o : Outcome SocialLogin.t) (w' : World) :
  truthy_pk (SocialLogin.is_existing self) = false ->
  SocialLogin.save request connect self w = (o, w') ->
  (exists e,
     SocialAppManager.get_current
       (SocialAccount.provider (SocialLogin.account self)) request w
     = (Raised e, w)
     /\ o = Raised e /\ w' = w)
  \/ exists app,
       SocialAppManager.get_current
         (SocialAccount.provider (SocialLogin.account self)) request w
       = (Returned app, w)
       /\ ((o = Raised (IntegrityError MUser) /\ w' = w
            /\ exists k row,
                 user_table w !! k = Some row
                 /\ User.pk (SocialLogin.user self) <> Some k
                 /\ User.username row
                    = User.username (SocialLogin.user self))
           \/ exists u' ku,
                u' = User.set_pk (Some ku) (SocialLogin.user self)
                /\ (forall k row,
                      user_table w !! k = Some row ->
                      User.pk (SocialLogin.user self) <> Some k ->
                      User.username row <> User.username (SocialLogin.user self))
                /\ user_table w' !! ku = Some u'
                /\ ((o = Raised (IntegrityError MSocialAccount)
                     /\ journal w' = (journal w ++ [SavedUser u'])%list)
                    \/ exists a' ka,
                         SocialAccount.pk a' = Some ka
                         /\ socialaccount_table w' !! ka = Some a'
                         /\ SocialAccount.user_id a' = Some ku
                         /\ SocialAccount.app_id a' = SocialApp.pk app
                         /\ SocialAccount.provider a'
                            = SocialAccount.provider (SocialLogin.account self)
                         /\ SocialAccount.uid a'
                            = SocialAccount.uid (SocialLogin.account self)
                         /\ SocialAccount.extra_data a'
                            = SocialAccount.extra_data (SocialLogin.account self)
                         /\ ((o = Raised (IntegrityError MSocialToken)
                              /\ STORE_TOKENS w = true
                              /\ is_Some (SocialLogin.token self)
                              /\ journal w'
                                 = (journal w ++ [SavedUser u'; SavedAccount a'])%list)
                             \/ exists self' tokens_saved,
                                  o = Returned self'
                                  /\ SocialLogin.user self' = u'
                                  /\ SocialLogin.account self' = a'
                                  /\ SocialLogin.email_addresses self'
                                     = SocialLogin.email_addresses self
                                  /\ SocialLogin.state self' = SocialLogin.state self
                                  /\ match STORE_TOKENS w, SocialLogin.token self with
                                     | true, Some tk =>
                                         exists t' kt,
                                           SocialLogin.token self' = Some t'
                                           /\ t' = SocialToken.set_pk (Some kt)
                                                     (SocialToken.set_account_id
                                                        (Some ka) tk)
                                           /\ socialtoken_table w' !! kt = Some t'
                                           /\ tokens_saved = [SavedToken t']
                                     | _, _ =>
                                         SocialLogin.token self' = SocialLogin.token self
                                         /\ socialtoken_table w' = socialtoken_table w
                                         /\ tokens_saved = []
                                     end
                                  /\ journal w'
                                     = (journal w
                                        ++ [SavedUser u'; SavedAccount a']
                                        ++ tokens_saved
                                        ++ (if connect then []
                                            else [SetupUserEmail u'
                                                    (SocialLogin.email_addresses self)]))%list))).
Proof.
  intros Hnew Hsave. unfold SocialLogin.save in Hsave. rewrite Hnew in Hsave.
  rewrite (bind_Returned _ _ _ _ _ _ (assert_true w) eq_refl) in Hsave.
  destruct (QuerySet_get_cases (socialapp_table w)
              (by_site_provider (site_id request)
                 (SocialAccount.provider (SocialLogin.account self))))
    as [[app Happ] | Happ].
  2:{ left.
      assert (exists e,
                SocialAppManager.get_current
                  (SocialAccount.provider (SocialLogin.account self)) request w
                = (Raised e, w)) as [e He].
      { rewrite get_current_table. destruct Happ as [-> | ->]; eauto. }
      rewrite (bind_Raised _ _ _ _ _ He) in Hsave. injection Hsave as <- <-.
      eauto. }
  right.
  assert (Happ' : SocialAppManager.get_current
                    (SocialAccount.provider (SocialLogin.account self)) request w
                  = (Returned app, w))
    by (by rewrite get_current_table, Happ).
  rewrite (bind_Returned _ _ _ _ _ _ Happ' eq_refl) in Hsave.
  exists app. split; [done |].
  destruct (user_save_cases (SocialLogin.user self) w)
    as [[Hu Hfree] | [Hu Hclash]].
  2:{ left. rewrite (bind_Raised _ _ _ _ _ Hu) in Hsave.
      by injection Hsave as <- <-. }
  right.
  rewrite (bind_Returned _ _ _ _ _ _ Hu eq_refl) in Hsave. clear Hu.
  login_simpl.
  set (ku := save_key (SocialLogin.user self) w) in *.
  set (u1 := User.set_pk (Some ku) (SocialLogin.user self)) in *.
  set (w1 := emit (SavedUser u1) _) in *.
  set (a0 := SocialAccount.set_app_id _ _) in *.
  exists u1, ku. split; [done |]. split; [done |].
  destruct (model_save_cases a0 w1) as [Ha | Ha].
  2:{ rewrite (bind_Raised _ _ _ _ _ Ha) in Hsave. injection Hsave as <- <-.
      split; [apply lookup_insert_eq |]. by left. }
  rewrite (bind_Returned _ _ _ _ _ _ Ha eq_refl) in Hsave.
  set (ka := save_key a0 w1) in *.
  destruct (account_save_result_fields a0 w1) as (Fu & Fa & Fp & Fuid & Fx).
  pose proof (save_result_pk a0 w1) as Fpk.
  set (a1 := save_result a0 w1) in *.
  set (w2 := emit (saved a1) _) in *.
  assert (Hu2 : user_table w2 !! ku = Some u1) by apply lookup_insert_eq.
  assert (Ha2 : socialaccount_table w2 !! ka = Some a1) by apply lookup_insert_eq.
  assert (Hj2 : journal w2 = (journal w ++ [SavedUser u1; SavedAccount a1])%list).
  { simpl. by rewrite <- app_assoc. }
  rewrite (bind_Returned _ _ _ _ _ _
             (eq_refl : get_world w2 = (Returned w2, w2)) eq_refl) in Hsave.
  login_simpl.
  change (STORE_TOKENS w2) with (STORE_TOKENS w) in Hsave.
  assert (Hdone : forall self1 w3 tokens_saved,
            SocialLogin.user self1 = u1 ->
            SocialLogin.email_addresses self1 = SocialLogin.email_addresses self ->
            journal w3 = (journal w2 ++ tokens_saved)%list ->
            (if connect then ret self1
             else let* _ := setup_user_email request (SocialLogin.user self1)
                              (SocialLogin.email_addresses self1) in
                  ret self1) w3 = (o, w') ->
            o = Returned self1
            /\ user_table w' = user_table w3
            /\ socialaccount_table w' = socialaccount_table w3
            /\ socialtoken_table w' = socialtoken_table w3
            /\ journal w'
               = (journal w ++ [SavedUser u1; SavedAccount a1] ++ tokens_saved
                  ++ (if connect then []
                      else [SetupUserEmail u1
                              (SocialLogin.email_addresses self)]))%list).
  { intros self1 w3 tokens_saved E1 E3 Hj3 Hrun.
    rewrite save_tail in Hrun. injection Hrun as <- <-. rewrite E1, E3.
    split; [done |]. split; [by destruct connect |].
    split; [by destruct connect |]. split; [by destruct connect |].
    destruct connect; cbn [journal emit]; rewrite Hj3, Hj2, <- ?app_assoc;
      [by rewrite app_nil_r | done]. }
  assert (Hskip : (STORE_TOKENS w = false \/ SocialLogin.token self = None) ->
            (let* self :=
               ret (SocialLogin.set_account a1
                      (SocialLogin.set_account a0
                         (SocialLogin.set_account
                            (SocialAccount.set_user_id (Some ku)
                               (SocialLogin.account self))
                            (SocialLogin.set_user u1
                               (SocialLogin.set_request (Some request) self))))) in
             if connect then ret self
             else let* _ := setup_user_email request (SocialLogin.user self)
                              (SocialLogin.email_addresses self) in
                  ret self) w2 = (o, w') ->
            user_table w' !! ku = Some u1
            /\ exists self' tokens_saved,
                 o = Returned self'
                 /\ socialaccount_table w' !! ka = Some a1
                 /\ SocialLogin.user self' = u1
                 /\ SocialLogin.account self' = a1
                 /\ SocialLogin.email_addresses self'
                    = SocialLogin.email_addresses self
                 /\ SocialLogin.state self' = SocialLogin.state self
                 /\ (SocialLogin.token self' = SocialLogin.token self
                     /\ socialtoken_table w' = socialtoken_table w
                     /\ tokens_saved = [])
                 /\ journal w'
                    = (journal w ++ [SavedUser u1; SavedAccount a1]
                       ++ tokens_saved
                       ++ (if connect then []
                           else [SetupUserEmail u1
                                   (SocialLogin.email_addresses self)]))%list).
  { intros _ Hrun.
    erewrite bind_Returned in Hrun; [| reflexivity | reflexivity].
    apply (Hdone _ _ []) in Hrun as (-> & Eu & Ea & Et & Ej);
      [| done | done | by rewrite app_nil_r].
    rewrite Eu, Ea, Et. split; [done |]. eexists _, []. by repeat split. }
  destruct (STORE_TOKENS w) eqn:Hstore;
    [destruct (SocialLogin.token self) as [tk |] eqn:Htk |].
  - set (tk0 := SocialToken.set_account_id (SocialAccount.pk a1) tk) in *.
    destruct (model_save_cases tk0 w2) as [Ht | Ht].
    + erewrite bind_Returned in Hsave;
        [| eapply bind_Returned; [apply Ht | reflexivity] | reflexivity].
      pose proof (save_result_pk tk0 w2) as Ftpk.
      set (kt := save_key tk0 w2) in *.
      assert (Ht1 : save_result tk0 w2
                    = SocialToken.set_pk (Some kt)
                        (SocialToken.set_account_id (Some ka) tk)).
      { change (SocialAccount.pk a1 = Some ka) in Fpk.
        change (save_result tk0 w2) with (SocialToken.set_pk (Some kt) tk0).
        unfold tk0. by rewrite Fpk. }
      set (t1 := save_result tk0 w2) in *.
      apply (Hdone _ _ [SavedToken t1]) in Hsave as (-> & Eu & Ea & Et & Ej);
        [| done | done | done].
      rewrite Eu, Ea, Et. split; [done |]. right.
      exists a1, ka. rewrite Fu, Fa, Fp, Fuid, Fx.
      do 7 (split; [done |]). right.
      eexists _, [SavedToken t1]. do 5 (split; [done |]).
      split; [| done].
      exists t1, kt. split; [done |]. split; [done |].
      split; [apply lookup_insert_eq | done].
    + erewrite bind_Raised in Hsave by (apply bind_Raised, Ht).
      injection Hsave as <- <-. split; [done |]. right.
      exists a1, ka. rewrite Fu, Fa, Fp, Fuid, Fx.
      do 7 (split; [done |]). left.
      split; [done |]. split; [done |]. split; [by eexists | done].
  - apply Hskip in Hsave as (Hu & self' & ts & -> & Ha' & E1 & E2 & E3 & E4 & E5 & E6);
      [| by right].
    split; [done |]. right. exists a1, ka. rewrite Fu, Fa, Fp, Fuid, Fx.
    do 7 (split; [done |]). right. by exists self', ts.
  - apply Hskip in Hsave as (Hu & self' & ts & -> & Ha' & E1 & E2 & E3 & E4 & E5 & E6);
      [| by left].
    split; [done |]. right. exists a1, ka. rewrite Fu, Fa, Fp, Fuid, Fx.
    do 7 (split; [done |]). right. by exists self', ts.
Qed.

Lemma save_new_sequence_witness :
  truthy_pk (SocialLogin.is_existing Sample.login) = false
  /\ exists self' w' u' a' t',
       SocialLogin.save Sample.request false Sample.login Sample.first_time
       = (Returned self', w')
       /\ SocialAccount.user_id a' = User.pk u'
       /\ SocialToken.account_id t' = SocialAccount.pk a'
       /\ journal w'
          = [SavedUser u'; SavedAccount a'; SavedToken t';
             SetupUserEmail u' [Sample.email_address]].
Proof.
  split; [reflexivity |].
  destruct (SocialLogin.save Sample.request false Sample.login Sample.first_time)
    as [o w'] eqn:Hsave.
  destruct (save_new_sequence Sample.request false Sample.login
              Sample.first_time o w' eq_refl Hsave)
    as [(e & He & _)
       | (app & _
          & [(Ho & _)
            | (u' & ku & Hu' & _ & _
               & [[Ho _]
                 | (a' & ka & Hpk & _ & Hfk & _ & _ & _ & _
                    & [(Ho & _)
                      | (self' & ts & Ho & _ & _ & _ & _ & Htok & Hj)])])])].
  - vm_compute in He. discriminate.
  - vm_compute in Hsave. rewrite Ho in Hsave. discriminate.
  - vm_compute in Hsave. rewrite Ho in Hsave. discriminate.
  - vm_compute in Hsave. rewrite Ho in Hsave. discriminate.
  - cbn [STORE_TOKENS Sample.first_time SocialLogin.token Sample.login] in Htok.
    destruct Htok as (t' & kt & _ & Ht' & _ & ->).
    exists self', w', u', a', t'. rewrite Ho. split; [done |].
    split; [by rewrite Hfk, Hu' |]. split; [by rewrite Ht', Hpk |]. done.
Defined.

(** ** [serialize] and [deserialize] *)

Lemma SocialAccount_codec_roundtrip (x : SocialAccount.t) :
  deserialize_instance (SI := gmap string JsonVal) (serialize_instance x)
  = Returned x.
Proof. destruct x as [[?|] [?|] ? ? [?|] [?|] ? [?|]]; reflexivity. Qed.

Lemma User_codec_roundtrip (x : User.t) :
  deserialize_instance (SI := gmap string JsonVal) (serialize_instance x)
  = Returned x.
Proof. destruct x as [[?|] ? ?]; reflexivity. Qed.

Lemma SocialToken_codec_roundtrip (x : SocialToken.t) :
  deserialize_instance (SI := gmap string JsonVal) (serialize_instance x)
  = Returned x.
Proof. destruct x as [[?|] [?|] [?|] ? ? [?|]]; reflexivity. Qed.

Lemma EmailAddress_codec_roundtrip (x : EmailAddress.t) :
  deserialize_instance (SI := gmap string JsonVal) (serialize_instance x)
  = Returned x.
Proof. destruct x; reflexivity. Qed.

Section SerializationFacts.
Context {SI : Type}.
Context `{!InstanceCodec SI SocialAccount.t, !InstanceCodec SI User.t,
          !InstanceCodec SI SocialToken.t, !InstanceCodec SI EmailAddress.t}.

(** What the spec asks of the transport of one instance. *)
Hypothesis account_roundtrip : forall x : SocialAccount.t,
  deserialize_instance (SI := SI) (serialize_instance x) = Returned x.
Hypothesis user_roundtrip : forall x : User.t,
  deserialize_instance (SI := SI) (serialize_instance x) = Returned x.
Hypothesis token_roundtrip : forall x : SocialToken.t,
  deserialize_instance (SI := SI) (serialize_instance x) = Returned x.
Hypothesis email_roundtrip : forall x : EmailAddress.t,
  deserialize_instance (SI := SI) (serialize_instance x) = Returned x.

Lemma deserialize_email_addresses_roundtrip (l : list EmailAddress.t) :
  SocialLogin.deserialize_email_addresses (SI := SI) (serialize_instance <$> l)
  = Returned l.
Proof.
  induction l as [|ea l IH]; [done |].
  rewrite fmap_cons. cbn [SocialLogin.deserialize_email_addresses].
  rewrite email_roundtrip. cbn [Outcome_bind]. by rewrite IH.
Qed.

(** C5: when the transport of single instances round-trips,
    [deserialize (serialize x)] returns a login with the account, the
    user, the token (none when [x] has none), the e-mail addresses and
    the state of [x]; it is [x] itself up to the [request] attribute,
    which [save] sets and [serialize] does not carry.  Each part is
    rebuilt by [deserialize_instance] at its own model class. *)
Theorem deserialize_serialize (x : SocialLogin.t) :
  SocialLogin.deserialize (SocialLogin.serialize (SI := SI) x)
  = Returned (SocialLogin.set_request None x)
  /\ exists y,
       SocialLogin.deserialize (SocialLogin.serialize (SI := SI) x) = Returned y
       /\ SocialLogin.account y = SocialLogin.account x
       /\ SocialLogin.user y = SocialLogin.user x
       /\ SocialLogin.token y = SocialLogin.token x
       /\ SocialLogin.email_addresses y = SocialLogin.email_addresses x
       /\ SocialLogin.state y = SocialLogin.state x
       /\ (SocialLogin.request x = None -> y = x).
Proof.
  assert (Hmain : SocialLogin.deserialize (SocialLogin.serialize (SI := SI) x)
                  = Returned (SocialLogin.set_request None x)).
  { unfold SocialLogin.deserialize, SocialLogin.serialize.
    unfold item_instance, item_list, item_state.
    destruct (SocialLogin.token x) as [tk |] eqn:Htk; simplify_map_eq;
      rewrite account_roundtrip; simpl; rewrite user_roundtrip; simpl;
      rewrite ?token_roundtrip; simpl;
      rewrite deserialize_email_addresses_roundtrip; simpl;
      unfold SocialLogin.set_request; by rewrite Htk. }
  split; [done |].
  exists (SocialLogin.set_request None x). split; [done |].
  repeat split; try done.
  intros Hreq. destruct x; simpl in *. by subst.
Qed.
End SerializationFacts.

Lemma deserialize_serialize_witness :
  SocialLogin.deserialize
    (SocialLogin.serialize (SI := gmap string JsonVal) Sample.login)
  = Returned (SocialLogin.set_request None Sample.login)
  /\ exists y,
       SocialLogin.deserialize
         (SocialLogin.serialize (SI := gmap string JsonVal) Sample.login)
       = Returned y
       /\ SocialLogin.account y = SocialLogin.account Sample.login
       /\ SocialLogin.user y = SocialLogin.user Sample.login
       /\ SocialLogin.token y = SocialLogin.token Sample.login
       /\ SocialLogin.email_addresses y
          = SocialLogin.email_addresses Sample.login
       /\ SocialLogin.state y = SocialLogin.state Sample.login
       /\ (SocialLogin.request Sample.login = None -> y = Sample.login).
Proof.
  apply (deserialize_serialize (SI := gmap string JsonVal)
           SocialAccount_codec_roundtrip User_codec_roundtrip
           SocialToken_codec_roundtrip EmailAddress_codec_roundtrip
           Sample.login).
Defined.

(** ** [lookup], twice *)

Section QueryAfterWrite.
Context {T : Type} `{DbModelLaws T}.
Implicit Types (tbl : gmap Z T) (p : T -> bool) (x : T).

(** Rewriting the row that a query found, so that it still passes the
    filter, makes the query find the new row. *)
Lemma QuerySet_get_insert_same tbl p x x' k :
  QuerySet_get tbl p = Returned x ->
  get_pk x = Some k ->
  p (with_pk (Some k) x') = true ->
  QuerySet_get (<[k := x']> tbl) p = Returned (with_pk (Some k) x').
Proof.
  intros (Hin & Hp & Huniq)%QuerySet_get_Returned Hk Hp'.
  apply QuerySet_get_Returned. split; [| split; [done |]].
  - apply elem_of_instances_insert. by left.
  - intros y [-> | [Hy Hne]]%elem_of_instances_insert Hpy; [done |].
    rewrite (Huniq y Hy Hpy) in Hne. done.
Qed.

(** Writing a row that passes a filter nothing passed so far makes the
    query find that row. *)
Lemma QuerySet_get_insert_new tbl p x' k :
  QuerySet_get tbl p = Raised (DoesNotExist model) ->
  p (with_pk (Some k) x') = true ->
  QuerySet_get (<[k := x']> tbl) p = Returned (with_pk (Some k) x').
Proof.
  intros Hget Hp'.
  pose proof (proj1 (QuerySet_get_DoesNotExist tbl p) Hget) as Hnone.
  apply QuerySet_get_Returned. split; [| split; [done |]].
  - apply elem_of_instances_insert. by left.
  - intros y [-> | [Hy Hne]]%elem_of_instances_insert Hpy; [done |].
    rewrite (Hnone y Hy) in Hpy. done.
Qed.

Lemma fetch_cases tbl fk :
  (exists x, fetch tbl fk = Returned x)
  \/ fetch tbl fk = Raised (DoesNotExist model).
Proof.
  unfold fetch. destruct fk as [k |]; [| by right].
  destruct (tbl !! k); eauto.
Qed.
End QueryAfterWrite.

(** What the token block can do: return in one of three ways, or raise
    something other than [SocialAccount.DoesNotExist]. *)
Lemma token_block_inv (self : SocialLogin.t) (w : World) (k : Z)
    (o : Outcome SocialLogin.t) (w' : World) :
  SocialAccount.pk (SocialLogin.account self) = Some k ->
  SocialLogin.lookup_update_token self w = (o, w') ->
  match o with
  | Raised e => e <> DoesNotExist MSocialAccount
  | Returned self1 =>
      (self1 = self /\ w' = w
       /\ (STORE_TOKENS w = false \/ SocialLogin.token self = None))
      \/ exists tk tk_app,
           STORE_TOKENS w = true
           /\ SocialLogin.token self = Some tk
           /\ truthy_pk (SocialToken.pk tk) = false
           /\ fetch (socialapp_table w) (SocialToken.app_id tk) = Returned tk_app
           /\ ((exists t,
                  QuerySet_get (socialtoken_table w)
                    (by_account_app (SocialLogin.account self) tk_app)
                  = Returned t)
               \/ QuerySet_get (socialtoken_table w)
                    (by_account_app (SocialLogin.account self) tk_app)
                  = Raised (DoesNotExist MSocialToken))
  end.
Proof.
  intros Hk Hrun.
  destruct (STORE_TOKENS w) eqn:Hstore;
    [destruct (SocialLogin.token self) as [tk |] eqn:Htk |].
  - destruct (truthy_pk (SocialToken.pk tk)) eqn:Hpk.
    { rewrite (token_block_assert self w tk Hstore Htk Hpk) in Hrun.
      by injection Hrun as <- <-. }
    destruct (fetch_cases (socialapp_table w) (SocialToken.app_id tk))
      as [[tk_app Happ] | Happ].
    + destruct (QuerySet_get_cases (socialtoken_table w)
                  (by_account_app (SocialLogin.account self) tk_app))
        as [[t Ht] | [Ht | Ht]].
      * destruct (token_block_found self w tk t tk_app k Hstore Htk Hpk Hk
                    Happ Ht) as (j & _ & _ & Hblock).
        rewrite Hblock in Hrun. injection Hrun as <- <-.
        right. exists tk, tk_app. eauto 10.
      * pose proof (token_block_absent self w tk tk_app k Hstore Htk Hpk Hk
                      Happ Ht) as Hblock.
        cbv zeta in Hblock. rewrite Hblock in Hrun. injection Hrun as <- <-.
        right. exists tk, tk_app. eauto 10.
      * assert (Hblock : SocialLogin.lookup_update_token self w
                         = (Raised (MultipleObjectsReturned MSocialToken), w)).
        { unfold SocialLogin.lookup_update_token.
          eapply bind_Returned; [reflexivity |]. rewrite Hstore, Htk, Hpk.
          eapply bind_Returned; [apply assert_true |].
          eapply try_except_Raised.
          - eapply bind_Returned;
              [rewrite related_table; f_equal; apply Happ |].
            apply bind_Raised. rewrite objects_get_table. f_equal. apply Ht.
          - reflexivity. }
        rewrite Hblock in Hrun. by injection Hrun as <- <-.
    + assert (Hblock : SocialLogin.lookup_update_token self w
                       = (Raised (DoesNotExist MSocialApp), w)).
      { unfold SocialLogin.lookup_update_token.
        eapply bind_Returned; [reflexivity |]. rewrite Hstore, Htk, Hpk.
        eapply bind_Returned; [apply assert_true |].
        eapply try_except_Raised.
        - apply bind_Raised. rewrite related_table. f_equal. apply Happ.
        - reflexivity. }
      rewrite Hblock in Hrun. by injection Hrun as <- <-.
  - rewrite token_block_skip in Hrun by auto. injection Hrun as <- <-. auto.
  - rewrite token_block_skip in Hrun by auto. injection Hrun as <- <-. auto.
Qed.

Lemma lookup_except_raises (self : SocialLogin.t) (e : Exception) (w : World) :
  e <> DoesNotExist MSocialAccount ->
  exists e', SocialLogin.lookup_except self e w = (Raised e', w).
Proof.
  intros Hne. destruct e as [| | [] | | | | |]; try done; try (by eexists).
  all: unfold SocialLogin.lookup_except, logger_debug;
    rewrite load_name_logger; by eexists.
Qed.

(** How [lookup] can return: the account is absent and nothing happens,
    or it is found and the token block returns. *)
Lemma lookup_Returned_inv (request : HttpRequest) (self self1 : SocialLogin.t)
    (w w1 : World) :
  SocialLogin.lookup request self w = (Returned self1, w1) ->
  truthy_pk (SocialLogin.is_existing self) = false
  /\ exists app,
       SocialAppManager.get_current
         (SocialAccount.provider (SocialLogin.account self)) request w
       = (Returned app, w)
       /\ ((QuerySet_get (socialaccount_table w)
              (by_app_uid app (SocialAccount.uid (SocialLogin.account self)))
            = Raised (DoesNotExist MSocialAccount)
            /\ self1 = self /\ w1 = w)
           \/ exists a u k,
                QuerySet_get (socialaccount_table w)
                  (by_app_uid app (SocialAccount.uid (SocialLogin.account self)))
                = Returned a
                /\ fetch (user_table w) (SocialAccount.user_id a) = Returned u
                /\ SocialAccount.pk a = Some k
                /\ let a1 := SocialAccount.set_last_login (Some (clock w))
                               (SocialAccount.set_extra_data
                                  (SocialAccount.extra_data
                                     (SocialLogin.account self)) a) in
                   SocialLogin.lookup_update_token
                     (SocialLogin.set_account a1 (SocialLogin.set_user u self))
                     (emit (SavedAccount a1)
                        (set_socialaccount_table
                           (<[k := a1]> (socialaccount_table w)) w))
                   = (Returned self1, w1)).
Proof.
  intros Hrun.
  destruct (truthy_pk (SocialLogin.is_existing self)) eqn:Hnew.
  { unfold SocialLogin.lookup in Hrun. rewrite Hnew in Hrun.
    erewrite bind_Raised in Hrun by apply assert_false. discriminate. }
  split; [done |].
  destruct (QuerySet_get_cases (socialapp_table w)
              (by_site_provider (site_id request)
                 (SocialAccount.provider (SocialLogin.account self))))
    as [[app Happ] | Happ].
  2:{ exfalso. unfold SocialLogin.lookup in Hrun. rewrite Hnew in Hrun.
      erewrite bind_Returned in Hrun; [| apply assert_true | reflexivity].
      assert (exists e, e <> DoesNotExist MSocialAccount
                /\ SocialAppManager.get_current
                     (SocialAccount.provider (SocialLogin.account self))
                     request w = (Raised e, w)) as (e & Hne & He).
      { rewrite get_current_table.
        destruct Happ as [-> | ->]; eexists; (split; [| reflexivity]); done. }
      erewrite try_except_Raised in Hrun;
        [| apply bind_Raised, He | reflexivity].
      destruct (lookup_except_raises self e w Hne) as [e' He'].
      rewrite He' in Hrun. discriminate. }
  assert (Happ' : SocialAppManager.get_current
                    (SocialAccount.provider (SocialLogin.account self)) request w
                  = (Returned app, w))
    by (by rewrite get_current_table, Happ).
  exists app. split; [done |].
  destruct (QuerySet_get_cases (socialaccount_table w)
              (by_app_uid app (SocialAccount.uid (SocialLogin.account self))))
    as [[a Ha] | [Ha | Ha]].
  - destruct (fetch_cases (user_table w) (SocialAccount.user_id a))
      as [[u Hu] | Hu].
    + destruct (lookup_found request self w app a u Hnew Happ' Ha Hu)
        as (k & Hk & _ & Heq).
      right. exists a, u, k. do 3 (split; [done |]). cbv zeta.
      rewrite Heq in Hrun. clear Heq.
      match type of Hrun with
      | try_except (SocialLogin.lookup_update_token ?s) _ ?w0 = _ =>
          destruct (SocialLogin.lookup_update_token s w0) as [[r | e] w2]
            eqn:Hblock
      end.
      * erewrite try_except_Returned in Hrun by apply Hblock.
        by injection Hrun as <- <-.
      * exfalso.
        pose proof (fun Hpk => token_block_inv _ _ k _ _ Hpk Hblock) as Hne.
        specialize (Hne Hk). cbv beta iota in Hne.
        erewrite try_except_Raised in Hrun; [| apply Hblock | reflexivity].
        destruct (lookup_except_raises self e w2 Hne) as [e' He'].
        rewrite He' in Hrun. discriminate.
    + exfalso. unfold SocialLogin.lookup in Hrun. rewrite Hnew in Hrun.
      erewrite bind_Returned in Hrun; [| apply assert_true | reflexivity].
      erewrite try_except_Raised in Hrun; [| | reflexivity].
      2:{ eapply bind_Returned; [apply Happ' |].
          eapply bind_Returned; [rewrite objects_get_table; f_equal; apply Ha |].
          apply bind_Raised. rewrite related_table. f_equal. apply Hu. }
      discriminate.
  - left. split; [done |].
    unfold SocialLogin.lookup in Hrun. rewrite Hnew in Hrun.
    erewrite bind_Returned in Hrun; [| apply assert_true | reflexivity].
    erewrite try_except_Raised in Hrun; [| | reflexivity].
    2:{ eapply bind_Returned; [apply Happ' |].
        apply bind_Raised. rewrite objects_get_table. f_equal. apply Ha. }
    by injection Hrun as <- <-.
  - exfalso. unfold SocialLogin.lookup in Hrun. rewrite Hnew in Hrun.
    erewrite bind_Returned in Hrun; [| apply assert_true | reflexivity].
    erewrite try_except_Raised in Hrun; [| | reflexivity].
    2:{ eapply bind_Returned; [apply Happ' |].
        apply bind_Raised. rewrite objects_get_table. f_equal. apply Ha. }
    discriminate.
Qed.

Lemma lookup_account_absent (request : HttpRequest) (self : SocialLogin.t)
    (w : World) (app : SocialApp.t) :
  truthy_pk (SocialLogin.is_existing self) = false ->
  QuerySet_get (socialapp_table w)
    (by_site_provider (site_id request)
       (SocialAccount.provider (SocialLogin.account self)))
  = Returned app ->
  QuerySet_get (socialaccount_table w)
    (by_app_uid app (SocialAccount.uid (SocialLogin.account self)))
  = Raised (DoesNotExist MSocialAccount) ->
  SocialLogin.lookup request self w = (Returned self, w).
Proof.
  intros Hnew Happ Ha. unfold SocialLogin.lookup. rewrite Hnew.
  eapply bind_Returned; [apply assert_true |].
  eapply try_except_Raised.
  - eapply bind_Returned; [by rewrite get_current_table, Happ |].
    apply bind_Raised. rewrite objects_get_table. f_equal. apply Ha.
  - done.
Qed.

Lemma account_with_pk_same (a : SocialAccount.t) (k : Z) :
  SocialAccount.pk a = Some k -> with_pk (Some k) a = a.
Proof. destruct a; simpl. by intros ->. Qed.

Lemma token_with_pk_same (t : SocialToken.t) (k : Z) :
  SocialToken.pk t = Some k -> with_pk (Some k) t = t.
Proof. destruct t; simpl. by intros ->. Qed.

(** Updating a stored token from the same carried token a second time
    changes nothing. *)
Lemma updated_token_idem (tk t : SocialToken.t) :
  let upd := fun t0 =>
    SocialToken.set_expires_at (SocialToken.expires_at tk)
      (if truthy_str (SocialToken.token_secret tk)
       then SocialToken.set_token_secret (SocialToken.token_secret tk)
              (SocialToken.set_token (SocialToken.token tk) t0)
       else SocialToken.set_token (SocialToken.token tk) t0) in
  upd (upd t) = upd t.
Proof. simpl. by destruct (truthy_str (SocialToken.token_secret tk)). Qed.

(** A carried token that was just inserted is what an update from it
    would write. *)
Lemma updated_token_inserted (tk : SocialToken.t) (k j : Z) :
  let tk1 := SocialToken.set_pk (Some j)
               (SocialToken.set_account_id (Some k) tk) in
  SocialToken.set_expires_at (SocialToken.expires_at tk)
    (if truthy_str (SocialToken.token_secret tk)
     then SocialToken.set_token_secret (SocialToken.token_secret tk)
            (SocialToken.set_token (SocialToken.token tk) tk1)
     else SocialToken.set_token (SocialToken.token tk) tk1)
  = tk1.
Proof.
  destruct tk. simpl. by destruct (truthy_str _).
Qed.

(** The second [lookup] reaches the token block like the first one, with
    the account as the first one left it. *)
Lemma lookup_found_again (request : HttpRequest) (self : SocialLogin.t)
    (w wB : World) (app : SocialApp.t) (a : SocialAccount.t) (u : User.t)
    (k : Z) :
  truthy_pk (SocialLogin.is_existing self) = false ->
  QuerySet_get (socialapp_table w)
    (by_site_provider (site_id request)
       (SocialAccount.provider (SocialLogin.account self)))
  = Returned app ->
  QuerySet_get (socialaccount_table w)
    (by_app_uid app (SocialAccount.uid (SocialLogin.account self)))
  = Returned a ->
  fetch (user_table w) (SocialAccount.user_id a) = Returned u ->
  SocialAccount.pk a = Some k ->
  let extra := SocialAccount.extra_data (SocialLogin.account self) in
  let a1 := SocialAccount.set_last_login (Some (clock w))
              (SocialAccount.set_extra_data extra a) in
  let a2 := SocialAccount.set_last_login (Some (clock wB))
              (SocialAccount.set_extra_data extra a) in
  socialapp_table wB = socialapp_table w ->
  user_table wB = user_table w ->
  socialaccount_table wB = <[k := a1]> (socialaccount_table w) ->
  SocialLogin.lookup request self wB
  = try_except
      (SocialLogin.lookup_update_token
         (SocialLogin.set_account a2 (SocialLogin.set_user u self)))
      (SocialLogin.lookup_except self)
      (emit (SavedAccount a2)
         (set_socialaccount_table (<[k := a2]> (socialaccount_table w)) wB)).
Proof.
  intros Hnew Happ Ha Hu Hk extra a1 a2 Eapp Euser Eacc.
  pose proof Ha as (_ & _ & _ & _ & _ & Hp)%QuerySet_get_row.
  assert (Hk1 : SocialAccount.pk a1 = Some k) by done.
  assert (Ha' : QuerySet_get (socialaccount_table wB)
                  (by_app_uid app (SocialAccount.uid (SocialLogin.account self)))
                = Returned a1).
  { rewrite Eacc.
    rewrite (QuerySet_get_insert_same _ _ a a1 k Ha Hk);
      [by rewrite account_with_pk_same | by rewrite by_app_uid_with_pk]. }
  destruct (lookup_found request self wB app a1 u Hnew) as (k' & Hk' & _ & ->).
  - by rewrite get_current_table, Eapp, Happ.
  - done.
  - by rewrite Euser.
  - rewrite Hk1 in Hk'. injection Hk' as <-.
    rewrite Eacc, insert_insert_eq. done.
Qed.

(** A token block that returns has changed the token of the login at
    most, and has written one token row at most. *)
Lemma token_block_frame (self self1 : SocialLogin.t) (w w1 : World) (k : Z) :
  SocialAccount.pk (SocialLogin.account self) = Some k ->
  SocialLogin.lookup_update_token self w = (Returned self1, w1) ->
  (self1 = self /\ w1 = w
   /\ (STORE_TOKENS w = false \/ SocialLogin.token self = None))
  \/ exists t j,
       STORE_TOKENS w = true
       /\ self1 = SocialLogin.set_token (Some t) self
       /\ SocialToken.pk t = Some j
       /\ SocialToken.account_id t = Some k
       /\ w1 = emit (SavedToken t)
                 (set_socialtoken_table (<[j := t]> (socialtoken_table w)) w).
Proof.
  intros Hk Hrun.
  pose proof (token_block_inv self w k _ _ Hk Hrun) as Hinv.
  cbv beta iota in Hinv.
  destruct Hinv as [(-> & -> & Hskip)
                   | (tk & tk_app & Hstore & Htk & Hpk & Happ & [[t Ht] | Ht])].
  - by left.
  - right.
    destruct (token_block_found self w tk t tk_app k Hstore Htk Hpk Hk Happ Ht)
      as (j & Hj & _ & Heq).
    rewrite Heq in Hrun. injection Hrun as <- <-.
    destruct (updated_token_fields tk t) as (Fpk & _ & Facc & _).
    pose proof Ht as (_ & _ & _ & _ & _ & Hp)%QuerySet_get_row.
    unfold by_account_app in Hp. apply andb_true_iff in Hp as [Hacc _].
    apply bool_decide_eq_true in Hacc.
    eexists _, j. split; [done |]. split; [done |].
    split; [by rewrite Fpk |]. split; [by rewrite Facc, Hacc, Hk | done].
  - right.
    pose proof (token_block_absent self w tk tk_app k Hstore Htk Hpk Hk Happ Ht)
      as Heq.
    cbv zeta in Heq. rewrite Heq in Hrun. injection Hrun as <- <-.
    eexists _, _. split; [done |]. split; [done |]. by repeat split.
Qed.

(** The row a query returns is the row that passes the filter. *)
Lemma QuerySet_get_Returned_row {T} `{DbModelLaws T} (tbl : gmap Z T)
    (p : T -> bool) (x : T) (k : Z) (row : T) :
  QuerySet_get tbl p = Returned x ->
  tbl !! k = Some row ->
  p (with_pk (Some k) row) = true ->
  x = with_pk (Some k) row.
Proof.
  intros (_ & _ & Huniq)%QuerySet_get_Returned Hl Hp.
  symmetry. apply Huniq; [| done]. apply elem_of_instances. eauto.
Qed.

(** After the token block has returned for a carried token, one row and
    no other has the account of the login and the application of the
    token: the row of the token the login carries afterwards. *)
Lemma token_block_one_row (self self1 : SocialLogin.t) (w w1 : World) (k : Z)
    (tk : SocialToken.t) :
  SocialAccount.pk (SocialLogin.account self) = Some k ->
  STORE_TOKENS w = true ->
  SocialLogin.token self = Some tk ->
  SocialLogin.lookup_update_token self w = (Returned self1, w1) ->
  exists j t,
    SocialLogin.token self1 = Some t
    /\ SocialToken.pk t = Some j
    /\ socialtoken_table w1 !! j = Some t
    /\ SocialToken.account_id t = Some k
    /\ SocialToken.app_id t = SocialToken.app_id tk
    /\ forall j' row',
         socialtoken_table w1 !! j' = Some row' ->
         SocialToken.account_id row' = Some k ->
         SocialToken.app_id row' = SocialToken.app_id tk ->
         j' = j.
Proof.
  intros Hk Hstore Htk Hrun.
  pose proof (token_block_inv self w k _ _ Hk Hrun) as Hinv.
  cbv beta iota in Hinv.
  destruct Hinv as [(_ & _ & [Hskip | Hskip])
                   | (tk' & tk_app & _ & Htk' & Hpk & Happ & Hcases)];
    [congruence | congruence |].
  rewrite Htk in Htk'. injection Htk' as <-.
  pose proof Happ as (i & _ & Hfk & _ & _ & Hi)%fetch_Returned.
  simpl in Hi.
  assert (Hpass : forall j' row',
            SocialToken.account_id row' = Some k ->
            SocialToken.app_id row' = SocialToken.app_id tk ->
            by_account_app (SocialLogin.account self) tk_app
              (with_pk (Some j') row') = true).
  { intros j' row' Hacc Hap. rewrite by_account_app_with_pk.
    unfold by_account_app. rewrite Hacc, Hk, Hap, Hfk, Hi.
    by rewrite !bool_decide_eq_true_2. }
  destruct Hcases as [[t Ht] | Ht].
  - destruct (token_block_found self w tk t tk_app k Hstore Htk Hpk Hk Happ Ht)
      as (j & Hj & _ & Heq).
    rewrite Heq in Hrun. injection Hrun as <- <-. clear Heq.
    destruct (updated_token_fields tk t) as (Fpk & Fapp & Facc & _).
    pose proof Ht as (_ & _ & _ & _ & _ & Hp)%QuerySet_get_row.
    unfold by_account_app in Hp. apply andb_true_iff in Hp as [Hacc Hap].
    apply bool_decide_eq_true in Hacc, Hap.
    eexists j, _. split; [done |]. split; [by rewrite Fpk |].
    split; [apply lookup_insert_eq |].
    split; [by rewrite Facc, Hacc, Hk |].
    split; [by rewrite Fapp, Hap, Hfk, Hi |].
    intros j' row' Hl Hacc' Hap'.
    destruct (decide (j' = j)) as [-> | Hne]; [done |].
    cbn [socialtoken_table emit set_socialtoken_table] in Hl.
    rewrite lookup_insert_ne in Hl by done.
    pose proof (QuerySet_get_Returned_row _ _ _ j' row' Ht Hl
                  (Hpass j' row' Hacc' Hap')) as Heq.
    apply (f_equal get_pk) in Heq. rewrite get_with_pk in Heq.
    change (get_pk t) with (SocialToken.pk t) in Heq. congruence.
  - pose proof (token_block_absent self w tk tk_app k Hstore Htk Hpk Hk
                  Happ Ht) as Heq.
    cbv zeta in Heq. rewrite Heq in Hrun. injection Hrun as <- <-. clear Heq.
    pose proof (proj1 (QuerySet_get_DoesNotExist (T := SocialToken.t) _ _) Ht)
      as Hnone.
    eexists _, _. split; [done |]. split; [done |].
    split; [apply lookup_insert_eq |]. split; [done |]. split; [done |].
    intros j' row' Hl Hacc' Hap'.
    match goal with |- _ = ?j => destruct (decide (j' = j)) as [-> | Hne] end;
      [done |].
    cbn [socialtoken_table emit set_socialtoken_table] in Hl.
    rewrite lookup_insert_ne in Hl by done.
    specialize (Hpass j' row' Hacc' Hap').
    rewrite (Hnone (with_pk (Some j') row')) in Hpass; [done |].
    apply elem_of_instances. eauto.
Qed.

(** A [lookup] that returns where a row has the application and the uid
    has bound the login to that row, as written, and to its user; of the
    tables it has changed that row and at most one token row. *)
Lemma lookup_Returned_bound (request : HttpRequest)
    (self self1 : SocialLogin.t) (w w1 : World) (app : SocialApp.t) (k : Z)
    (row : SocialAccount.t) :
  SocialLogin.lookup request self w = (Returned self1, w1) ->
  SocialAppManager.get_current
    (SocialAccount.provider (SocialLogin.account self)) request w
  = (Returned app, w) ->
  socialaccount_table w !! k = Some row ->
  SocialAccount.app_id row = SocialApp.pk app ->
  SocialAccount.uid row = SocialAccount.uid (SocialLogin.account self) ->
  SocialAccount.pk (SocialLogin.account self1) = Some k
  /\ socialaccount_table w1 !! k = Some (SocialLogin.account self1)
  /\ SocialAccount.app_id (SocialLogin.account self1) = SocialApp.pk app
  /\ SocialAccount.uid (SocialLogin.account self1)
     = SocialAccount.uid (SocialLogin.account self)
  /\ SocialAccount.user_id (SocialLogin.account self1)
     = SocialAccount.user_id row
  /\ fetch (user_table w) (SocialAccount.user_id row)
     = Returned (SocialLogin.user self1)
  /\ STORE_TOKENS w1 = STORE_TOKENS w
  /\ socialapp_table w1 = socialapp_table w
  /\ user_table w1 = user_table w
  /\ (STORE_TOKENS w = true ->
      forall tk, SocialLogin.token self = Some tk ->
        exists j t,
          SocialLogin.token self1 = Some t
          /\ SocialToken.pk t = Some j
          /\ socialtoken_table w1 !! j = Some t
          /\ SocialToken.account_id t = Some k
          /\ SocialToken.app_id t = SocialToken.app_id tk
          /\ forall j' row',
               socialtoken_table w1 !! j' = Some row' ->
               SocialToken.account_id row' = Some k ->
               SocialToken.app_id row' = SocialToken.app_id tk ->
               j' = j).
Proof.
  intros Hrun Happ Hrow Hra Hru.
  assert (Hp : by_app_uid app (SocialAccount.uid (SocialLogin.account self))
                 (with_pk (Some k) row) = true).
  { rewrite by_app_uid_with_pk. unfold by_app_uid. rewrite Hra, Hru.
    by rewrite !bool_decide_eq_true_2. }
  apply lookup_Returned_inv in Hrun
    as (Hnew & app' & Happ'
        & [(Ha & _ & _) | (a & u & k0 & Ha & Hu & Hk0 & Hblock)]).
  { exfalso. rewrite Happ in Happ'. injection Happ' as <-.
    pose proof (proj1 (QuerySet_get_DoesNotExist (T := SocialAccount.t) _ _) Ha
                  (with_pk (Some k) row)) as Hnone.
    rewrite Hnone in Hp; [done |]. apply elem_of_instances. eauto. }
  rewrite Happ in Happ'. injection Happ' as <-.
  pose proof (QuerySet_get_Returned_row _ _ _ k row Ha Hrow Hp) as ->.
  assert (k0 = k) as -> by (destruct row; simpl in Hk0; congruence).
  cbv zeta in Hblock.
  set (a1 := SocialAccount.set_last_login (Some (clock w)) _) in *.
  set (selfA := SocialLogin.set_account a1 (SocialLogin.set_user u self)) in *.
  set (wA := emit (SavedAccount a1) _) in *.
  assert (HkA : SocialAccount.pk (SocialLogin.account selfA) = Some k)
    by (by destruct row).
  assert (Hacc : SocialLogin.account self1 = a1
                 /\ SocialLogin.user self1 = u
                 /\ socialaccount_table w1 = <[k := a1]> (socialaccount_table w)
                 /\ STORE_TOKENS w1 = STORE_TOKENS w
                 /\ socialapp_table w1 = socialapp_table w
                 /\ user_table w1 = user_table w).
  { destruct (token_block_frame selfA self1 wA w1 k HkA Hblock)
      as [(-> & -> & _) | (t & j & _ & -> & _ & _ & ->)]; by repeat split. }
  destruct Hacc as (-> & -> & Htbl & Hst & Hat & Hut).
  rewrite Htbl.
  split; [by destruct row |]. split; [apply lookup_insert_eq |].
  split; [by destruct row |]. split; [by destruct row |].
  split; [by destruct row |].
  split; [by destruct row |].
  do 3 (split; [done |]).
  intros Hstore tk Htk.
  apply (token_block_one_row selfA self1 wA w1 k tk); done.
Qed.

(** C9: a [lookup] that returned can be repeated, at any later time,
    on a login with the same data: the second call returns too and binds
    the login to the same account row (the same primary key, the same
    fields but for the [last_login] stamp), to the same user and to the
    same token; it adds no row to the token table, which is exactly as
    the first call left it, and no row to the account table.  Where a
    row has the resolved application and the uid of the login, both
    calls bind the login to that very row: the account of the login has
    the key of the row and is what the row holds after the call, with
    the application and the uid asked for, and the user is the user of
    the row.  When tokens are stored and the login carries one, the
    token of the login after the second call is a row of that account
    and of the application of the token, and the only such row. *)
Theorem lookup_twice_idempotent (request : HttpRequest)
    (self self1 : SocialLogin.t) (w w1 : World) (c : Z) :
  SocialLogin.lookup request self w = (Returned self1, w1) ->
  exists self2 w2,
    SocialLogin.lookup request self (set_clock c w1) = (Returned self2, w2)
    /\ SocialAccount.pk (SocialLogin.account self2)
       = SocialAccount.pk (SocialLogin.account self1)
    /\ SocialAccount.set_last_login None (SocialLogin.account self2)
       = SocialAccount.set_last_login None (SocialLogin.account self1)
    /\ SocialLogin.user self2 = SocialLogin.user self1
    /\ SocialLogin.token self2 = SocialLogin.token self1
    /\ socialtoken_table w2 = socialtoken_table w1
    /\ user_table w2 = user_table w1
    /\ dom (socialaccount_table w2) = dom (socialaccount_table w1)
    /\ forall app k row,
         SocialAppManager.get_current
           (SocialAccount.provider (SocialLogin.account self)) request w
         = (Returned app, w) ->
         socialaccount_table w !! k = Some row ->
         SocialAccount.app_id row = SocialApp.pk app ->
         SocialAccount.uid row = SocialAccount.uid (SocialLogin.account self) ->
         SocialAccount.pk (SocialLogin.account self1) = Some k
         /\ socialaccount_table w1 !! k = Some (SocialLogin.account self1)
         /\ SocialAccount.pk (SocialLogin.account self2) = Some k
         /\ socialaccount_table w2 !! k = Some (SocialLogin.account self2)
         /\ SocialAccount.app_id (SocialLogin.account self2)
            = SocialApp.pk app
         /\ SocialAccount.uid (SocialLogin.account self2)
            = SocialAccount.uid (SocialLogin.account self)
         /\ fetch (user_table w) (SocialAccount.user_id row)
            = Returned (SocialLogin.user self2)
         /\ (STORE_TOKENS w = true ->
             forall tk, SocialLogin.token self = Some tk ->
               exists j t,
                 SocialLogin.token self2 = Some t
                 /\ SocialToken.pk t = Some j
                 /\ socialtoken_table w2 !! j = Some t
                 /\ SocialToken.account_id t = Some k
                 /\ SocialToken.app_id t = SocialToken.app_id tk
                 /\ forall j' row',
                      socialtoken_table w2 !! j' = Some row' ->
                      SocialToken.account_id row' = Some k ->
                      SocialToken.app_id row' = SocialToken.app_id tk ->
                      j' = j).
Proof.
  intros Hrun0.
  assert (Hold : exists self2 w2,
            SocialLogin.lookup request self (set_clock c w1)
            = (Returned self2, w2)
            /\ SocialAccount.pk (SocialLogin.account self2)
               = SocialAccount.pk (SocialLogin.account self1)
            /\ SocialAccount.set_last_login None (SocialLogin.account self2)
               = SocialAccount.set_last_login None (SocialLogin.account self1)
            /\ SocialLogin.user self2 = SocialLogin.user self1
            /\ SocialLogin.token self2 = SocialLogin.token self1
            /\ socialtoken_table w2 = socialtoken_table w1
            /\ user_table w2 = user_table w1
            /\ dom (socialaccount_table w2) = dom (socialaccount_table w1)).
  2:{ destruct Hold as (self2 & w2 & Hrun2 & O1 & O2 & O3 & O4 & O5 & O6 & O7).
      exists self2, w2. do 8 (split; [done |]).
      intros app k row Happ Hrow Hra Hru.
      destruct (lookup_Returned_bound request self self1 w w1 app k row
                  Hrun0 Happ Hrow Hra Hru)
        as (B1 & B2 & B3 & B4 & B5 & B6 & B7 & B8 & B9 & _).
      assert (Happ2 : SocialAppManager.get_current
                        (SocialAccount.provider (SocialLogin.account self))
                        request (set_clock c w1)
                      = (Returned app, set_clock c w1)).
      { rewrite get_current_table in Happ |- *. injection Happ as Happ.
        cbn [socialapp_table set_clock]. by rewrite B8, Happ. }
      destruct (lookup_Returned_bound request self self2 (set_clock c w1) w2
                  app k (SocialLogin.account self1) Hrun2 Happ2 B2 B3 B4)
        as (C1 & C2 & C3 & C4 & _ & C6 & _ & _ & _ & Ctok).
      cbn [user_table set_clock] in C6. rewrite B9, B5 in C6.
      do 7 (split; [done |]).
      intros Hstore tk Htk. apply Ctok; [| done].
      cbn [STORE_TOKENS set_clock]. by rewrite B7. }
  pose proof Hrun0 as Hrun.
  apply lookup_Returned_inv in Hrun
    as (Hnew & app & Happ
        & [(Ha & -> & ->) | (a & u & k & Ha & Hu & Hk & Hblock)]).
  { exists self, (set_clock c w). split; [| done].
    apply (lookup_account_absent request self (set_clock c w) app);
      [done | | done].
    rewrite get_current_table in Happ. by injection Happ. }
  rewrite get_current_table in Happ. injection Happ as Happ.
  cbv zeta in Hblock.
  set (extra := SocialAccount.extra_data (SocialLogin.account self)) in *.
  set (a1 := SocialAccount.set_last_login (Some (clock w))
               (SocialAccount.set_extra_data extra a)) in *.
  set (selfA := SocialLogin.set_account a1 (SocialLogin.set_user u self)) in *.
  set (wA := emit (SavedAccount a1) _) in *.
  set (a2 := SocialAccount.set_last_login (Some c)
               (SocialAccount.set_extra_data extra a)).
  set (selfB := SocialLogin.set_account a2 (SocialLogin.set_user u self)).
  assert (Hagain : forall wB,
            socialapp_table wB = socialapp_table w ->
            user_table wB = user_table w ->
            socialaccount_table wB = <[k := a1]> (socialaccount_table w) ->
            clock wB = c ->
            SocialLogin.lookup request self wB
            = try_except (SocialLogin.lookup_update_token selfB)
                (SocialLogin.lookup_except self)
                (emit (SavedAccount a2)
                   (set_socialaccount_table
                      (<[k := a2]> (socialaccount_table w)) wB))).
  { intros wB E1 E2 E3 E4.
    rewrite (lookup_found_again request self w wB app a u k); try done.
    cbv zeta. fold extra. by rewrite E4. }
  assert (HkA : SocialAccount.pk (SocialLogin.account selfA) = Some k) by done.
  assert (HkB : SocialAccount.pk (SocialLogin.account selfB) = Some k) by done.
  pose proof (token_block_inv selfA wA k _ _ HkA Hblock) as Hinv.
  cbv beta iota in Hinv.
  destruct Hinv as [(-> & -> & Hskip)
                   | (tk & tk_app & Hstore & Htk & Hpk & Htkapp & Hcases)].
  - (* no token to store *)
    eexists _, _. split.
    { rewrite (Hagain (set_clock c wA)); try done.
      apply try_except_Returned. by apply token_block_skip. }
    do 6 (split; [done |]).
    cbn [socialaccount_table emit set_socialaccount_table set_clock wA].
    by rewrite !dom_insert_L.
  - destruct Hcases as [[t Ht] | Ht].
    + (* the stored token is updated, twice *)
      destruct (token_block_found selfA wA tk t tk_app k Hstore Htk Hpk HkA
                  Htkapp Ht) as (j & Hj & _ & Heq).
      rewrite Heq in Hblock. injection Hblock as <- <-. clear Heq.
      destruct (updated_token_fields tk t) as (Fpk & Fapp & Facc & _).
      pose proof (updated_token_idem tk t) as Hidem. cbv zeta beta in Hidem.
      set (t1 := SocialToken.set_expires_at _ _) in *.
      pose proof Ht as (_ & _ & _ & _ & _ & Hp)%QuerySet_get_row.
      set (wB := set_clock c _).
      set (wB2 := emit (SavedAccount a2)
                    (set_socialaccount_table
                       (<[k := a2]> (socialaccount_table w)) wB)).
      assert (Ht2 : QuerySet_get (socialtoken_table wB2)
                      (by_account_app (SocialLogin.account selfB) tk_app)
                    = Returned t1).
      { change (socialtoken_table wB2)
          with (<[j := t1]> (socialtoken_table w)).
        rewrite (QuerySet_get_insert_same _ _ t t1 j); [| exact Ht | done |].
        - rewrite token_with_pk_same; [done | by rewrite Fpk].
        - rewrite by_account_app_with_pk.
          unfold by_account_app in *. by rewrite Fapp, Facc. }
      destruct (token_block_found selfB wB2 tk t1 tk_app k Hstore Htk Hpk HkB
                  Htkapp Ht2) as (j2 & Hj2 & _ & Heq2).
      rewrite Hidem in Heq2.
      assert (j2 = j) as -> by (rewrite Fpk, Hj in Hj2; by injection Hj2).
      eexists _, _. split.
      { rewrite (Hagain wB); try done.
        apply try_except_Returned. apply Heq2. }
      do 4 (split; [done |]).
      split.
      { cbn [socialtoken_table emit set_socialtoken_table
             set_socialaccount_table set_clock wB2 wB wA].
        by rewrite insert_insert_eq. }
      split; [done |].
      cbn [socialaccount_table emit set_socialtoken_table
           set_socialaccount_table set_clock wB2 wB wA].
      by rewrite !dom_insert_L.
    + (* the carried token is inserted, then found and left as it is *)
      pose proof (token_block_absent selfA wA tk tk_app k Hstore Htk Hpk HkA
                    Htkapp Ht) as Heq.
      cbv zeta in Heq. rewrite Heq in Hblock. injection Hblock as <- <-.
      clear Heq.
      pose proof Htkapp as (i & _ & Hfk & _ & _ & Hi)%fetch_Returned.
      simpl in Hi.
      set (tk0 := SocialToken.set_account_id (Some k) tk) in *.
      set (j := save_key tk0 wA) in *.
      pose proof (updated_token_inserted tk k j) as Hidem. cbv zeta in Hidem.
      fold tk0 in Hidem.
      set (tk1 := SocialToken.set_pk (Some j) tk0) in *.
      set (wB := set_clock c _).
      set (wB2 := emit (SavedAccount a2)
                    (set_socialaccount_table
                       (<[k := a2]> (socialaccount_table w)) wB)).
      assert (Ht2 : QuerySet_get (socialtoken_table wB2)
                      (by_account_app (SocialLogin.account selfB) tk_app)
                    = Returned tk1).
      { change (socialtoken_table wB2)
          with (<[j := tk1]> (socialtoken_table w)).
        rewrite (QuerySet_get_insert_new _ _ tk1 j); [| exact Ht |].
        - by rewrite token_with_pk_same.
        - rewrite by_account_app_with_pk. unfold by_account_app. simpl.
          rewrite Hfk, Hi. by rewrite !bool_decide_eq_true_2. }
      destruct (token_block_found selfB wB2 tk tk1 tk_app k Hstore Htk Hpk HkB
                  Htkapp Ht2) as (j2 & Hj2 & _ & Heq2).
      rewrite Hidem in Heq2.
      assert (j2 = j) as -> by (by injection Hj2).
      eexists _, _. split.
      { rewrite (Hagain wB); try done.
        apply try_except_Returned. apply Heq2. }
      do 4 (split; [done |]).
      split.
      { cbn [socialtoken_table emit set_socialtoken_table
             set_socialaccount_table set_clock wB2 wB wA].
        by rewrite insert_insert_eq. }
      split; [done |].
      cbn [socialaccount_table emit set_socialtoken_table
           set_socialaccount_table set_clock wB2 wB wA].
      by rewrite !dom_insert_L.
Qed.

Lemma lookup_twice_idempotent_witness :
  exists self1 w1 self2 w2,
    SocialLogin.lookup Sample.request Sample.login Sample.linked_no_token
    = (Returned self1, w1)
    /\ SocialLogin.lookup Sample.request Sample.login (set_clock 200 w1)
       = (Returned self2, w2)
    /\ SocialAccount.pk (SocialLogin.account self2)
       = SocialAccount.pk (SocialLogin.account self1)
    /\ SocialLogin.token self2 = SocialLogin.token self1
    /\ socialtoken_table w2 = socialtoken_table w1
    /\ SocialAccount.pk (SocialLogin.account self1) = Some 5
    /\ SocialAccount.pk (SocialLogin.account self2) = Some 5
    /\ socialaccount_table w2 !! 5 = Some (SocialLogin.account self2)
    /\ exists j t,
         SocialLogin.token self2 = Some t
         /\ socialtoken_table w2 !! j = Some t
         /\ SocialToken.account_id t = Some 5
         /\ forall j' row',
              socialtoken_table w2 !! j' = Some row' ->
              SocialToken.account_id row' = Some 5 ->
              SocialToken.app_id row' = Some 1 ->
              j' = j.
Proof.
  destruct (SocialLogin.lookup Sample.request Sample.login
              Sample.linked_no_token) as [[self1 | e] w1] eqn:H1;
    [| vm_compute in H1; discriminate].
  destruct (lookup_twice_idempotent Sample.request Sample.login self1
              Sample.linked_no_token w1 200 H1)
    as (self2 & w2 & H2 & Hpk & _ & _ & Htok & Htbl & _ & _ & Hbound).
  assert (Happ : SocialAppManager.get_current
                   (SocialAccount.provider (SocialLogin.account Sample.login))
                   Sample.request Sample.linked_no_token
                 = (Returned (with_pk (Some 1) Sample.google),
                    Sample.linked_no_token)) by reflexivity.
  destruct (Hbound (with_pk (Some 1) Sample.google) 5 Sample.stored_account
              Happ eq_refl eq_refl eq_refl)
    as (Hk1 & _ & Hk2 & Hrow2 & _ & _ & _ & Htk).
  destruct (Htk eq_refl Sample.token eq_refl)
    as (j & t & Ht & _ & Hj & Hacc & _ & Huniq).
  exists self1, w1, self2, w2. do 8 (split; [done |]).
  exists j, t. auto.
Defined.


(** * Further properties *)

(** ** The stash, from [stash_state] to [unstash_state] *)

(** X1: the verifier [stash_state] hands out verifies: the state
    returned is [state_from_request] of the request that was stashed,
    and the session is the one before the stash, without the entry. *)
Theorem stash_then_verify (random_string : string) (request : HttpRequest) :
  let verifier := fst (SocialLogin.stash_state random_string request) in
  let request' := snd (SocialLogin.stash_state random_string request) in
  SocialLogin.verify_and_unstash_state request' verifier
  = (Returned (SocialLogin.state_from_request request),
     set_session (delete "socialaccount_state" (session request)) request).
Proof.
  unfold SocialLogin.stash_state, SocialLogin.verify_and_unstash_state.
  cbn [fst snd session set_session site_id next_redirect_url params].
  rewrite lookup_insert_eq, delete_insert_eq.
  by rewrite bool_decide_eq_false_2 by auto.
Qed.

(** X2: a wrong verifier uses the stash up: the call raises
    [PermissionDenied], the entry is gone, the rest of the session is as
    it was, and the right verifier is refused afterwards. *)
Theorem verify_mismatch_consumes (request : HttpRequest)
    (state : gmap string PyVal) (verifier verifier2 : string) :
  session request !! "socialaccount_state" = Some (state, verifier2) ->
  verifier <> verifier2 ->
  let request' :=
    snd (SocialLogin.verify_and_unstash_state request verifier) in
  fst (SocialLogin.verify_and_unstash_state request verifier)
  = Raised PermissionDenied
  /\ session request' = delete "socialaccount_state" (session request)
  /\ SocialLogin.verify_and_unstash_state request' verifier2
     = (Raised PermissionDenied, request').
Proof.
  intros Hl Hne. cbv zeta.
  assert (E : SocialLogin.verify_and_unstash_state request verifier
              = (Raised PermissionDenied,
                 set_session (delete "socialaccount_state" (session request))
                             request)).
  { unfold SocialLogin.verify_and_unstash_state.
    by rewrite Hl, bool_decide_eq_true_2. }
  rewrite E. cbn [fst snd]. split; [done |]. split; [done |].
  unfold SocialLogin.verify_and_unstash_state.
  cbn [session set_session]. by rewrite lookup_delete_eq.
Qed.

Lemma verify_mismatch_consumes_witness :
  fst (SocialLogin.verify_and_unstash_state Sample.stashed_request "guess")
  = Raised PermissionDenied
  /\ session (snd (SocialLogin.verify_and_unstash_state
                     Sample.stashed_request "guess"))
     = delete "socialaccount_state" (session Sample.stashed_request)
  /\ SocialLogin.verify_and_unstash_state
       (snd (SocialLogin.verify_and_unstash_state
               Sample.stashed_request "guess")) "k3Jq0wPzX1aB"
     = (Raised PermissionDenied,
        snd (SocialLogin.verify_and_unstash_state
               Sample.stashed_request "guess")).
Proof.
  refine (verify_mismatch_consumes Sample.stashed_request
            (SocialLogin.state_from_request Sample.request)
            "guess" "k3Jq0wPzX1aB" _ _); [reflexivity | discriminate].
Defined.

(** X3: [unstash_state] asks for no verifier: it raises
    [PermissionDenied] on a session without stash and leaves the request
    alone; otherwise it returns the stashed state and removes the entry,
    so that a second [unstash_state] and any [verify_and_unstash_state]
    raise. *)
Theorem unstash_state_spec (request : HttpRequest) :
  (session request !! "socialaccount_state" = None ->
   SocialLogin.unstash_state request = (Raised PermissionDenied, request))
  /\ (forall state verifier,
        session request !! "socialaccount_state" = Some (state, verifier) ->
        let request' := snd (SocialLogin.unstash_state request) in
        SocialLogin.unstash_state request
        = (Returned state,
           set_session (delete "socialaccount_state" (session request))
                       request)
        /\ SocialLogin.unstash_state request'
           = (Raised PermissionDenied, request')
        /\ forall verifier',
             SocialLogin.verify_and_unstash_state request' verifier'
             = (Raised PermissionDenied, request')).
Proof.
  split.
  - unfold SocialLogin.unstash_state. by intros ->.
  - intros state verifier Hl. cbv zeta.
    assert (E : SocialLogin.unstash_state request
                = (Returned state,
                   set_session (delete "socialaccount_state" (session request))
                               request)).
    { unfold SocialLogin.unstash_state. by rewrite Hl. }
    rewrite E. cbn [snd]. split; [done |].
    unfold SocialLogin.unstash_state, SocialLogin.verify_and_unstash_state.
    cbn [session set_session]. by rewrite lookup_delete_eq.
Qed.

Lemma unstash_state_spec_witness :
  SocialLogin.unstash_state Sample.request
  = (Raised PermissionDenied, Sample.request)
  /\ SocialLogin.unstash_state Sample.stashed_request
     = (Returned (SocialLogin.state_from_request Sample.request),
        set_session (delete "socialaccount_state"
                       (session Sample.stashed_request))
                    Sample.stashed_request).
Proof.
  split.
  - apply (proj1 (unstash_state_spec Sample.request)). reflexivity.
  - refine (proj1 (proj2 (unstash_state_spec Sample.stashed_request)
                     (SocialLogin.state_from_request Sample.request)
                     "k3Jq0wPzX1aB" _)).
    reflexivity.
Defined.

(** X4: a second [stash_state] replaces the first: the session holds
    one stash, the verifier of the first call is refused (and uses the
    stash up) unless it is the very string drawn again, that of the
    second call is accepted. *)
Theorem stash_twice (r1 r2 : string) (request : HttpRequest) :
  let request1 := snd (SocialLogin.stash_state r1 request) in
  let request2 := snd (SocialLogin.stash_state r2 request1) in
  session request2
  = <["socialaccount_state" := (SocialLogin.state_from_request request, r2)]>
      (session request)
  /\ (r1 <> r2 ->
      fst (SocialLogin.verify_and_unstash_state request2 r1)
      = Raised PermissionDenied)
  /\ fst (SocialLogin.verify_and_unstash_state request2 r2)
     = Returned (SocialLogin.state_from_request request).
Proof.
  unfold SocialLogin.stash_state, SocialLogin.verify_and_unstash_state.
  cbn [fst snd session set_session].
  rewrite insert_insert_eq, lookup_insert_eq.
  split; [done |]. split.
  - intros Hne. by rewrite bool_decide_eq_true_2.
  - by rewrite bool_decide_eq_false_2 by auto.
Qed.

Lemma stash_twice_witness :
  fst (SocialLogin.verify_and_unstash_state
         (snd (SocialLogin.stash_state "second"
                 (snd (SocialLogin.stash_state "first" Sample.request))))
         "first")
  = Raised PermissionDenied.
Proof.
  apply (proj1 (proj2 (stash_twice "first" "second" Sample.request))).
  discriminate.
Defined.

(** X5: the redirect target survives the handshake.  The state comes
    back on a later request, the callback, which shares the session with
    the request that stashed it and may differ in everything else.
    Verifying there with the verifier handed out returns the state of
    the request that stashed: a login given that state redirects to the
    target of that request, when it has one that is not empty, and has
    no redirect target otherwise; the target, the site and the
    parameters of the callback play no part. *)
Theorem redirect_url_after_handshake (random_string : string)
    (request callback : HttpRequest) :
  session callback
  = session (snd (SocialLogin.stash_state random_string request)) ->
  let verifier := fst (SocialLogin.stash_state random_string request) in
  exists state,
    SocialLogin.verify_and_unstash_state callback verifier
    = (Returned state, set_session (delete "socialaccount_state"
                                      (session request)) callback)
    /\ state !! "site" = Some (PyInt (site_id request))
    /\ forall (self : SocialLogin.t) (r : HttpRequest),
         SocialLogin.state self = state ->
         SocialLogin.get_redirect_url r self
         = match next_redirect_url request with
           | Some next_url =>
               if truthy_str next_url then Some (PyStr next_url) else None
           | None => None
           end.
Proof.
  intros Hsession verifier.
  exists (SocialLogin.state_from_request request). split; [| split].
  - unfold SocialLogin.verify_and_unstash_state. rewrite Hsession.
    unfold verifier, SocialLogin.stash_state. cbn [fst snd session set_session].
    rewrite lookup_insert_eq, delete_insert_eq.
    by rewrite bool_decide_eq_false_2 by auto.
  - unfold SocialLogin.state_from_request, get_current_site.
    by simplify_map_eq.
  - intros self r Hstate. unfold SocialLogin.get_redirect_url.
    rewrite Hstate. unfold SocialLogin.state_from_request.
    destruct (next_redirect_url request) as [next_url |];
      [destruct (truthy_str next_url) |]; by simplify_map_eq.
Qed.

Lemma redirect_url_after_handshake_witness :
  exists state,
    SocialLogin.verify_and_unstash_state
      (mkRequest 2 (Some "/elsewhere/") {[ "process" := "connect" ]}
         (session Sample.stashed_request))
      "k3Jq0wPzX1aB"
    = (Returned state,
       mkRequest 2 (Some "/elsewhere/") {[ "process" := "connect" ]} ∅)
    /\ SocialLogin.get_redirect_url Sample.request
         (SocialLogin.mk None Sample.user Sample.account [] state None)
       = Some (PyStr "/profile/").
Proof.
  destruct (redirect_url_after_handshake "k3Jq0wPzX1aB" Sample.request
              (mkRequest 2 (Some "/elsewhere/") {[ "process" := "connect" ]}
                 (session Sample.stashed_request)) eq_refl)
    as (state & Hv & _ & Hurl).
  exists state. split; [exact Hv |].
  exact (Hurl (SocialLogin.mk None Sample.user Sample.account [] state None)
           Sample.request eq_refl).
Defined.


(** ** The current application, and the uniqueness of rows *)

(** X6: [get_current] returns an application exactly when one row, and
    no other, has the provider and is linked to the current site; the
    application returned is that row under its key.  In particular an
    application that is linked to no site is never the current one. *)
Theorem get_current_Returned_iff (provider : string) (request : HttpRequest)
    (w w' : World) (app : SocialApp.t) :
  SocialAppManager.get_current provider request w = (Returned app, w')
  <-> w' = w
      /\ exists k row,
           socialapp_table w !! k = Some row
           /\ app = SocialApp.set_pk (Some k) row
           /\ site_id request ∈ SocialApp.sites row
           /\ SocialApp.provider row = provider
           /\ forall k' row',
                socialapp_table w !! k' = Some row' ->
                site_id request ∈ SocialApp.sites row' ->
                SocialApp.provider row' = provider ->
                k' = k.
Proof.
  rewrite get_current_table. split.
  - intros [= Hq <-]. split; [done |].
    pose proof Hq as (_ & _ & Huniq)%QuerySet_get_Returned.
    apply QuerySet_get_row in Hq as (k & row & Hl & -> & _ & Hp).
    rewrite by_site_provider_with_pk in Hp.
    apply andb_true_iff in Hp as [Hs Hp]. apply bool_decide_eq_true in Hs, Hp.
    exists k, row. do 4 (split; [done |]).
    intros k' row' Hl' Hs' Hp'.
    assert (Heq : with_pk (Some k') row' = with_pk (Some k) row).
    { apply Huniq; [apply elem_of_instances; eauto |].
      rewrite by_site_provider_with_pk. unfold by_site_provider.
      by rewrite !bool_decide_eq_true_2. }
    apply (f_equal get_pk) in Heq. rewrite !get_with_pk in Heq. congruence.
  - intros (-> & k & row & Hl & -> & Hs & Hp & Huniq). f_equal.
    apply (QuerySet_get_Returned (T := SocialApp.t)). split; [| split].
    + apply elem_of_instances; eauto.
    + change (SocialApp.set_pk (Some k) row) with (with_pk (Some k) row).
      rewrite by_site_provider_with_pk. unfold by_site_provider.
      by rewrite !bool_decide_eq_true_2.
    + intros y (k' & row' & Hl' & ->)%elem_of_instances Hy.
      rewrite by_site_provider_with_pk in Hy.
      apply andb_true_iff in Hy as [Hs' Hp'].
      apply bool_decide_eq_true in Hs', Hp'.
      assert (k' = k) as -> by eauto.
      rewrite Hl in Hl'. by injection Hl' as <-.
Qed.

Lemma get_current_Returned_iff_witness :
  SocialAppManager.get_current "google" Sample.request Sample.first_time
  = (Returned (SocialApp.set_pk (Some 1) Sample.google), Sample.first_time).
Proof.
  apply (proj2 (get_current_Returned_iff "google" Sample.request
                  Sample.first_time Sample.first_time
                  (SocialApp.set_pk (Some 1) Sample.google))).
  split; [reflexivity |]. exists 1, Sample.google.
  split; [reflexivity |]. split; [reflexivity |].
  split; [by vm_compute |]. split; [reflexivity |].
  intros k' row' Hl Hs Hp.
  destruct (decide (k' = 1)) as [-> | Hne1]; [done |].
  destruct (decide (k' = 2)) as [-> | Hne2].
  - vm_compute in Hl. injection Hl as <-. discriminate.
  - exfalso. change (socialapp_table Sample.first_time)
      with (<[1 := Sample.google]> (<[2 := Sample.twitter]> (∅ : gmap Z SocialApp.t)))
      in Hl.
    by rewrite !lookup_insert_ne, lookup_empty in Hl.
Defined.

(** A second account row with the same application and uid. *)
Lemma model_save_account_conflict (x : SocialAccount.t) (w : World) (k : Z)
    (row : SocialAccount.t) :
  socialaccount_table w !! k = Some row ->
  SocialAccount.app_id row = SocialAccount.app_id x ->
  SocialAccount.uid row = SocialAccount.uid x ->
  SocialAccount.pk x <> Some k ->
  model_save x w = (Raised (IntegrityError MSocialAccount), w).
Proof.
  intros Hl Happ Huid Hpk. unfold model_save.
  destruct (not_null (save_result x w)); [| done]. cbn [negb].
  assert (Hkey : save_key x w <> k).
  { unfold save_key. change (get_pk x) with (SocialAccount.pk x).
    destruct (SocialAccount.pk x) as [k0 |]; [congruence |].
    intros Heq. pose proof (fresh_pk_unused (socialaccount_table w)) as Hf.
    change (table w) with (socialaccount_table w) in Heq.
    rewrite Heq, Hl in Hf. done. }
  replace (existsb _ _) with true; [done |].
  symmetry. apply existsb_exists. exists (with_pk (Some k) row). split.
  - apply list_elem_of_In, elem_of_instances_delete. split.
    + apply elem_of_instances. eauto.
    + rewrite get_with_pk. congruence.
  - destruct (account_save_result_fields x w) as (_ & Fa & _ & Fu & _).
    change (unique_together (save_result x w) (with_pk (Some k) row))
      with (bool_decide (SocialAccount.app_id (save_result x w)
                         = SocialAccount.app_id (with_pk (Some k) row))
            && bool_decide (SocialAccount.uid (save_result x w)
                            = SocialAccount.uid (with_pk (Some k) row))).
    rewrite Fa, Fu. destruct row; simpl in *.
    by rewrite !bool_decide_eq_true_2.
Qed.


(** X7: [unique_together = ('app', 'uid')].  Once an account is saved,
    inserting another one with the same application and uid raises
    [IntegrityError] and writes nothing. *)
Theorem account_unique_together (x x1 x2 : SocialAccount.t) (w w1 : World) :
  model_save x w = (Returned x1, w1) ->
  SocialAccount.pk x2 = None ->
  SocialAccount.app_id x2 = SocialAccount.app_id x ->
  SocialAccount.uid x2 = SocialAccount.uid x ->
  model_save x2 w1 = (Raised (IntegrityError MSocialAccount), w1).
Proof.
  intros Hsave Hpk Happ Huid.
  destruct (model_save_cases x w) as [Heq | Heq];
    rewrite Heq in Hsave; [| discriminate].
  injection Hsave as <- <-.
  destruct (account_save_result_fields x w) as (_ & Fa & _ & Fu & _).
  apply (model_save_account_conflict x2 _ (save_key x w) (save_result x w)).
  - apply lookup_insert_eq.
  - by rewrite Fa, Happ.
  - by rewrite Fu, Huid.
  - by rewrite Hpk.
Qed.

Lemma account_unique_together_witness :
  exists x1 w1,
    model_save
      (SocialAccount.set_app_id (Some 1)
         (SocialAccount.set_user_id (Some 7) Sample.account))
      Sample.first_time
    = (Returned x1, w1)
    /\ model_save
         (SocialAccount.set_app_id (Some 1)
            (SocialAccount.set_user_id (Some 9) Sample.account))
         w1
       = (Raised (IntegrityError MSocialAccount), w1).
Proof.
  eexists _, _. split; [reflexivity |].
  refine (account_unique_together
            (SocialAccount.set_app_id (Some 1)
               (SocialAccount.set_user_id (Some 7) Sample.account))
            _ _ Sample.first_time _ _ _ _ _); reflexivity.
Defined.

(** A second token row with the same application and account. *)
Lemma model_save_token_conflict (x : SocialToken.t) (w : World) (k : Z)
    (row : SocialToken.t) :
  socialtoken_table w !! k = Some row ->
  SocialToken.app_id row = SocialToken.app_id x ->
  SocialToken.account_id row = SocialToken.account_id x ->
  SocialToken.pk x <> Some k ->
  model_save x w = (Raised (IntegrityError MSocialToken), w).
Proof.
  intros Hl Happ Hacc Hpk. unfold model_save.
  destruct (not_null (save_result x w)); [| done]. cbn [negb].
  assert (Hkey : save_key x w <> k).
  { unfold save_key. change (get_pk x) with (SocialToken.pk x).
    destruct (SocialToken.pk x) as [k0 |]; [congruence |].
    intros Heq. pose proof (fresh_pk_unused (socialtoken_table w)) as Hf.
    change (table w) with (socialtoken_table w) in Heq.
    rewrite Heq, Hl in Hf. done. }
  replace (existsb _ _) with true; [done |].
  symmetry. apply existsb_exists. exists (with_pk (Some k) row). split.
  - apply list_elem_of_In, elem_of_instances_delete. split.
    + apply elem_of_instances. eauto.
    + rewrite get_with_pk. congruence.
  - unfold save_result. destruct row, x; simpl in *. subst.
    by rewrite !bool_decide_eq_true_2.
Qed.

(** X8: [unique_together = ('app', 'account')].  Once a token is saved,
    inserting another one for the same application and account raises
    [IntegrityError] and writes nothing. *)
Theorem token_unique_together (x x1 x2 : SocialToken.t) (w w1 : World) :
  model_save x w = (Returned x1, w1) ->
  SocialToken.pk x2 = None ->
  SocialToken.app_id x2 = SocialToken.app_id x ->
  SocialToken.account_id x2 = SocialToken.account_id x ->
  model_save x2 w1 = (Raised (IntegrityError MSocialToken), w1).
Proof.
  intros Hsave Hpk Happ Hacc.
  destruct (model_save_cases x w) as [Heq | Heq];
    rewrite Heq in Hsave; [| discriminate].
  injection Hsave as <- <-.
  apply (model_save_token_conflict x2 _ (save_key x w) (save_result x w)).
  - apply lookup_insert_eq.
  - unfold save_result. by destruct x.
  - unfold save_result. by destruct x.
  - by rewrite Hpk.
Qed.

Lemma token_unique_together_witness :
  exists x1 w1,
    model_save (SocialToken.set_account_id (Some 5) Sample.token)
      Sample.linked_no_token
    = (Returned x1, w1)
    /\ model_save
         (SocialToken.set_token "other"
            (SocialToken.set_account_id (Some 5) Sample.token)) w1
       = (Raised (IntegrityError MSocialToken), w1).
Proof.
  eexists _, _. split; [reflexivity |].
  refine (token_unique_together
            (SocialToken.set_account_id (Some 5) Sample.token)
            _ _ Sample.linked_no_token _ _ _ _ _); reflexivity.
Defined.


(** ** More on [lookup] *)

(** X9: a [lookup] that returns after finding an account row has
    written the [extra_data] of the login, and the time, into that row
    and nothing else into the account table; the login is bound to the
    row as written and to the user the row refers to; its e-mail
    addresses and state are as before. *)
Theorem lookup_found_rebinds (request : HttpRequest)
    (self self' : SocialLogin.t) (w w' : World) (app : SocialApp.t) (k : Z)
    (row : SocialAccount.t) :
  SocialLogin.lookup request self w = (Returned self', w') ->
  SocialAppManager.get_current
    (SocialAccount.provider (SocialLogin.account self)) request w
  = (Returned app, w) ->
  socialaccount_table w !! k = Some row ->
  SocialAccount.app_id row = SocialApp.pk app ->
  SocialAccount.uid row = SocialAccount.uid (SocialLogin.account self) ->
  let a' := SocialAccount.mk (Some k) (SocialAccount.user_id row)
              (SocialAccount.provider row) (SocialAccount.uid row)
              (Some (clock w)) (SocialAccount.date_joined row)
              (SocialAccount.extra_data (SocialLogin.account self))
              (SocialAccount.app_id row) in
  SocialLogin.account self' = a'
  /\ socialaccount_table w' = <[k := a']> (socialaccount_table w)
  /\ fetch (user_table w) (SocialAccount.user_id row)
     = Returned (SocialLogin.user self')
  /\ SocialLogin.email_addresses self' = SocialLogin.email_addresses self
  /\ SocialLogin.state self' = SocialLogin.state self.
Proof.
  intros Hrun Happ Hl Hrapp Hruid a'.
  apply lookup_Returned_inv in Hrun
    as (Hnew & app0 & Happ0
        & [(Ha & _) | (a & u & k0 & Ha & Hu & Hk0 & Hblock)]).
  { exfalso. rewrite Happ in Happ0. injection Happ0 as <-.
    pose proof (proj1 (QuerySet_get_DoesNotExist (T := SocialAccount.t) _ _) Ha
                  (with_pk (Some k) row)) as Hnone.
    rewrite by_app_uid_with_pk in Hnone. unfold by_app_uid in Hnone.
    rewrite Hrapp, Hruid, !bool_decide_eq_true_2 in Hnone by done.
    discriminate Hnone. apply elem_of_instances. eauto. }
  rewrite Happ in Happ0. injection Happ0 as <-.
  assert (a = with_pk (Some k) row) as ->.
  { pose proof Ha as (_ & _ & Huniq)%QuerySet_get_Returned.
    symmetry. apply Huniq; [apply elem_of_instances; eauto |].
    rewrite by_app_uid_with_pk. unfold by_app_uid.
    by rewrite Hrapp, Hruid, !bool_decide_eq_true_2. }
  assert (k0 = k) as -> by (destruct row; simpl in Hk0; congruence).
  cbv zeta in Hblock.
  assert (Ea : SocialAccount.set_last_login (Some (clock w))
                 (SocialAccount.set_extra_data
                    (SocialAccount.extra_data (SocialLogin.account self))
                    (with_pk (Some k) row)) = a') by (by destruct row).
  rewrite Ea in Hblock.
  assert (Hu' : fetch (user_table w) (SocialAccount.user_id row) = Returned u)
    by (by destruct row).
  apply (token_block_frame _ _ _ _ k) in Hblock
    as [(-> & -> & _) | (t & j & _ & -> & _ & _ & ->)]; done.
Qed.

Lemma lookup_found_rebinds_witness :
  exists self' w',
    SocialLogin.lookup Sample.request Sample.login Sample.linked
    = (Returned self', w')
    /\ SocialAccount.pk (SocialLogin.account self') = Some 5
    /\ SocialAccount.extra_data (SocialLogin.account self')
       = "{'name': 'Raymond Penners'}"
    /\ socialaccount_table w' !! 5 = Some (SocialLogin.account self')
    /\ SocialLogin.user self' = User.set_pk (Some 7) Sample.raymond.
Proof.
  destruct (SocialLogin.lookup Sample.request Sample.login Sample.linked)
    as [[self' | e] w'] eqn:Hrun; [| vm_compute in Hrun; discriminate].
  destruct (lookup_found_rebinds Sample.request Sample.login self'
              Sample.linked w' (SocialApp.set_pk (Some 1) Sample.google) 5
              Sample.stored_account Hrun eq_refl eq_refl eq_refl eq_refl)
    as (Ha & Ht & Hu & _).
  exists self', w'. split; [done |]. rewrite Ha, Ht.
  split; [done |]. split; [done |]. split; [apply lookup_insert_eq |].
  assert (Hf : fetch (user_table Sample.linked)
                  (SocialAccount.user_id Sample.stored_account)
                = Returned (User.set_pk (Some 7) Sample.raymond))
    by reflexivity.
  rewrite Hf in Hu. by injection Hu.
Defined.

(** X10: when [lookup] finds the account, tokens are stored and no
    stored token has the account and the application of the carried
    token, the carried token (without primary key) is inserted under a
    key that was not in use, bound to the account found, with its own
    values; the rows that were there stay, and the login carries the
    token as saved. *)
Theorem lookup_inserts_new_token (request : HttpRequest)
    (self : SocialLogin.t) (w : World) (app tk_app : SocialApp.t)
    (a : SocialAccount.t) (u : User.t) (tk : SocialToken.t) :
  truthy_pk (SocialLogin.is_existing self) = false ->
  STORE_TOKENS w = true ->
  SocialLogin.token self = Some tk ->
  SocialToken.pk tk = None ->
  SocialAppManager.get_current
    (SocialAccount.provider (SocialLogin.account self)) request w
  = (Returned app, w) ->
  QuerySet_get (socialaccount_table w)
    (by_app_uid app (SocialAccount.uid (SocialLogin.account self)))
  = Returned a ->
  fetch (user_table w) (SocialAccount.user_id a) = Returned u ->
  fetch (socialapp_table w) (SocialToken.app_id tk) = Returned tk_app ->
  QuerySet_get (socialtoken_table w) (by_account_app a tk_app)
  = Raised (DoesNotExist MSocialToken) ->
  exists self' w' k j,
    SocialLogin.lookup request self w = (Returned self', w')
    /\ SocialAccount.pk a = Some k
    /\ socialtoken_table w !! j = None
    /\ 0 < j
    /\ let t' := SocialToken.mk (Some j) (SocialToken.app_id tk) (Some k)
                   (SocialToken.token tk) (SocialToken.token_secret tk)
                   (SocialToken.expires_at tk) in
       SocialLogin.token self' = Some t'
       /\ socialtoken_table w' = <[j := t']> (socialtoken_table w)
       /\ last (journal w') = Some (SavedToken t').
Proof.
  intros Hnew Hstore Htk Hpk Happ Hget Hu Htkapp Htget.
  destruct (lookup_found request self w app a u Hnew Happ Hget Hu)
    as (k & Hk & _ & ->).
  set (a1 := SocialAccount.set_last_login _ _).
  set (selfA := SocialLogin.set_account a1 _).
  set (wA := emit _ _).
  pose proof (token_block_absent selfA wA tk tk_app k Hstore Htk) as Hblock.
  rewrite Hpk in Hblock. specialize (Hblock eq_refl Hk Htkapp Htget).
  cbv zeta in Hblock.
  assert (Hj : save_key (SocialToken.set_account_id (Some k) tk) wA
               = fresh_pk (socialtoken_table w)).
  { unfold save_key. change (get_pk (SocialToken.set_account_id (Some k) tk))
      with (SocialToken.pk tk). by rewrite Hpk. }
  rewrite Hj in Hblock.
  eexists _, _, k, (fresh_pk (socialtoken_table w)). split.
  { apply try_except_Returned. apply Hblock. }
  split; [done |]. split; [apply fresh_pk_unused |].
  split; [apply fresh_pk_pos |]. cbv zeta.
  assert (Et : SocialToken.set_pk (Some (fresh_pk (socialtoken_table w)))
                 (SocialToken.set_account_id (Some k) tk)
               = SocialToken.mk (Some (fresh_pk (socialtoken_table w)))
                   (SocialToken.app_id tk) (Some k) (SocialToken.token tk)
                   (SocialToken.token_secret tk) (SocialToken.expires_at tk))
    by done.
  rewrite Et. split; [done |]. split; [done |].
  cbn [journal emit]. by rewrite last_snoc.
Qed.

Lemma lookup_inserts_new_token_witness :
  exists self' w' k j,
    SocialLogin.lookup Sample.request Sample.login Sample.linked_no_token
    = (Returned self', w')
    /\ SocialAccount.pk (with_pk (Some 5) Sample.stored_account) = Some k
    /\ socialtoken_table Sample.linked_no_token !! j = None
    /\ 0 < j
    /\ let t' := SocialToken.mk (Some j) (Some 1) (Some k) "new-access" ""
                   (Some 200) in
       SocialLogin.token self' = Some t'
       /\ socialtoken_table w'
          = <[j := t']> (socialtoken_table Sample.linked_no_token)
       /\ last (journal w') = Some (SavedToken t').
Proof.
  refine (lookup_inserts_new_token Sample.request Sample.login
            Sample.linked_no_token
            (with_pk (Some 1) Sample.google) (with_pk (Some 1) Sample.google)
            (with_pk (Some 5) Sample.stored_account)
            (with_pk (Some 7) Sample.raymond) Sample.token
            _ _ _ _ _ _ _ _ _); reflexivity.
Defined.

(** X11: a [lookup] that returns has written no user and no
    application, has called no collaborator and logged nothing: what it
    adds to the journal is nothing, the account, or the account and then
    one token.  The e-mail addresses and the state of the login are
    untouched. *)
Theorem lookup_writes_account_then_token (request : HttpRequest)
    (self self' : SocialLogin.t) (w w' : World) :
  SocialLogin.lookup request self w = (Returned self', w') ->
  user_table w' = user_table w
  /\ socialapp_table w' = socialapp_table w
  /\ SocialLogin.email_addresses self' = SocialLogin.email_addresses self
  /\ SocialLogin.state self' = SocialLogin.state self
  /\ ((self' = self /\ w' = w)
      \/ (exists a, journal w' = (journal w ++ [SavedAccount a])%list
                    /\ SocialLogin.account self' = a
                    /\ SocialLogin.token self' = SocialLogin.token self)
      \/ exists a t, journal w'
                     = (journal w ++ [SavedAccount a; SavedToken t])%list
                     /\ SocialLogin.account self' = a
                     /\ SocialLogin.token self' = Some t).
Proof.
  intros Hrun.
  apply lookup_Returned_inv in Hrun
    as (Hnew & app & Happ
        & [(Ha & -> & ->) | (a & u & k & Ha & Hu & Hk & Hblock)]).
  { do 4 (split; [done |]). by left. }
  cbv zeta in Hblock.
  apply (token_block_frame _ _ _ _ k) in Hblock
    as [(-> & -> & _) | (t & j & _ & -> & _ & _ & ->)]; [| | done].
  - do 4 (split; [done |]). right. left. by eexists.
  - do 4 (split; [done |]). right. right. eexists _, t.
    split; [| done]. cbn [journal emit set_socialtoken_table].
    by rewrite <- app_assoc.
Qed.

Lemma lookup_writes_account_then_token_witness :
  exists self' w',
    SocialLogin.lookup Sample.request Sample.login Sample.linked
    = (Returned self', w')
    /\ user_table w' = user_table Sample.linked
    /\ socialapp_table w' = socialapp_table Sample.linked.
Proof.
  destruct (SocialLogin.lookup Sample.request Sample.login Sample.linked)
    as [[self' | e] w'] eqn:Hrun; [| vm_compute in Hrun; discriminate].
  destruct (lookup_writes_account_then_token Sample.request Sample.login
              self' Sample.linked w' Hrun) as (Hu & Happ & _).
  by exists self', w'.
Defined.

(** X12: with [STORE_TOKENS] off, [lookup] on a found account returns
    whatever token the login carries, saved or not: the token block is
    skipped, the login keeps its token and the token table is as it
    was. *)
Theorem lookup_without_token_storage (request : HttpRequest)
    (self : SocialLogin.t) (w : World) (app : SocialApp.t)
    (a : SocialAccount.t) (u : User.t) :
  truthy_pk (SocialLogin.is_existing self) = false ->
  STORE_TOKENS w = false ->
  SocialAppManager.get_current
    (SocialAccount.provider (SocialLogin.account self)) request w
  = (Returned app, w) ->
  QuerySet_get (socialaccount_table w)
    (by_app_uid app (SocialAccount.uid (SocialLogin.account self)))
  = Returned a ->
  fetch (user_table w) (SocialAccount.user_id a) = Returned u ->
  exists self' w',
    SocialLogin.lookup request self w = (Returned self', w')
    /\ SocialLogin.token self' = SocialLogin.token self
    /\ SocialAccount.pk (SocialLogin.account self') = SocialAccount.pk a
    /\ socialtoken_table w' = socialtoken_table w.
Proof.
  intros Hnew Hstore Happ Hget Hu.
  destruct (lookup_found request self w app a u Hnew Happ Hget Hu)
    as (k & Hk & _ & ->).
  eexists _, _. split.
  { apply try_except_Returned. apply token_block_skip. by left. }
  done.
Qed.

Lemma lookup_without_token_storage_witness :
  exists self' w',
    SocialLogin.lookup Sample.request Sample.login_saved_token
      (mkWorld false (socialapp_table Sample.linked)
         (user_table Sample.linked) (socialaccount_table Sample.linked)
         (socialtoken_table Sample.linked) 100 [])
    = (Returned self', w')
    /\ SocialLogin.token self' = SocialLogin.token Sample.login_saved_token
    /\ SocialAccount.pk (SocialLogin.account self')
       = SocialAccount.pk (with_pk (Some 5) Sample.stored_account)
    /\ socialtoken_table w' = socialtoken_table Sample.linked.
Proof.
  refine (lookup_without_token_storage Sample.request
            Sample.login_saved_token _
            (with_pk (Some 1) Sample.google)
            (with_pk (Some 5) Sample.stored_account)
            (with_pk (Some 7) Sample.raymond) _ _ _ _ _); reflexivity.
Defined.

(** X13: with two applications for the provider and the site, [lookup]
    raises [SocialApp.MultipleObjectsReturned]: the handler of
    [SocialApp.DoesNotExist] does not catch it, nothing is written. *)
Theorem lookup_ambiguous_application (request : HttpRequest)
    (self : SocialLogin.t) (w : World) (k1 k2 : Z) (app1 app2 : SocialApp.t) :
  truthy_pk (SocialLogin.is_existing self) = false ->
  k1 <> k2 ->
  socialapp_table w !! k1 = Some app1 ->
  socialapp_table w !! k2 = Some app2 ->
  by_site_provider (site_id request)
    (SocialAccount.provider (SocialLogin.account self)) app1 = true ->
  by_site_provider (site_id request)
    (SocialAccount.provider (SocialLogin.account self)) app2 = true ->
  SocialLogin.lookup request self w
  = (Raised (MultipleObjectsReturned MSocialApp), w).
Proof.
  intros Hnew Hne H1 H2 Hp1 Hp2. unfold SocialLogin.lookup. rewrite Hnew.
  eapply bind_Returned; [apply assert_true |].
  eapply try_except_Raised.
  - apply bind_Raised. rewrite get_current_table. f_equal.
    refine (QuerySet_get_Multiple (T := SocialApp.t) _ _
              (with_pk (Some k1) app1) (with_pk (Some k2) app2) _ _ _ _ _).
    + apply elem_of_instances; eauto.
    + apply elem_of_instances; eauto.
    + intros Heq. apply (f_equal get_pk) in Heq.
      rewrite !get_with_pk in Heq. congruence.
    + by rewrite by_site_provider_with_pk.
    + by rewrite by_site_provider_with_pk.
  - done.
Qed.

Lemma lookup_ambiguous_application_witness :
  SocialLogin.lookup Sample.request Sample.login Sample.ambiguous
  = (Raised (MultipleObjectsReturned MSocialApp), Sample.ambiguous).
Proof.
  refine (lookup_ambiguous_application Sample.request Sample.login
            Sample.ambiguous 1 2 Sample.google Sample.google_bis
            _ _ _ _ _ _); [reflexivity | lia | reflexivity | reflexivity
                          | reflexivity | reflexivity].
Defined.


(** ** More on [save] and [connect] *)

Ltac save_prefix Hnew Happ Hu :=
  unfold SocialLogin.save; rewrite Hnew;
  (eapply bind_Returned; [apply assert_true |]);
  (eapply bind_Returned; [apply Happ |]);
  (eapply bind_Returned; [apply Hu |]).

(** Every way [save] can run on a login without account key, with the
    world it leaves behind. *)
Lemma save_cases (request : HttpRequest) (connect : bool)
    (self : SocialLogin.t) (w : World) :
  truthy_pk (SocialLogin.is_existing self) = false ->
  let ku := save_key (SocialLogin.user self) w in
  let u1 := User.set_pk (Some ku) (SocialLogin.user self) in
  let w1 := emit (SavedUser u1)
              (set_user_table (<[ku := u1]> (user_table w)) w) in
  let tail := fun (w0 : World) =>
    if connect then w0
    else emit (SetupUserEmail u1 (SocialLogin.email_addresses self)) w0 in
  (exists e,
     SocialAppManager.get_current
       (SocialAccount.provider (SocialLogin.account self)) request w
     = (Raised e, w)
     /\ SocialLogin.save request connect self w = (Raised e, w))
  \/ exists app,
       SocialAppManager.get_current
         (SocialAccount.provider (SocialLogin.account self)) request w
       = (Returned app, w)
       /\ ((model_save (SocialLogin.user self) w
            = (Raised (IntegrityError MUser), w)
            /\ SocialLogin.save request connect self w
               = (Raised (IntegrityError MUser), w))
           \/ model_save (SocialLogin.user self) w = (Returned u1, w1)
       /\ let a0 := SocialAccount.set_app_id (SocialApp.pk app)
                      (SocialAccount.set_user_id (Some ku)
                         (SocialLogin.account self)) in
          (model_save a0 w1 = (Raised (IntegrityError MSocialAccount), w1)
           /\ SocialLogin.save request connect self w
              = (Raised (IntegrityError MSocialAccount), w1))
          \/ let ka := save_key a0 w1 in
             let a1 := save_result a0 w1 in
             let w2 := emit (SavedAccount a1)
                         (set_socialaccount_table
                            (<[ka := a1]> (socialaccount_table w)) w1) in
             let self2 := SocialLogin.mk (SocialLogin.token self) u1 a1
                            (SocialLogin.email_addresses self)
                            (SocialLogin.state self) (Some request) in
             model_save a0 w1 = (Returned a1, w2)
             /\ (((STORE_TOKENS w = false \/ SocialLogin.token self = None)
                  /\ SocialLogin.save request connect self w
                     = (Returned self2, tail w2))
                 \/ exists tk,
                      STORE_TOKENS w = true
                      /\ SocialLogin.token self = Some tk
                      /\ let tk0 := SocialToken.set_account_id (Some ka) tk in
                         (model_save tk0 w2
                          = (Raised (IntegrityError MSocialToken), w2)
                          /\ SocialLogin.save request connect self w
                             = (Raised (IntegrityError MSocialToken), w2))
                         \/ let kt := save_key tk0 w2 in
                            let t1 := SocialToken.set_pk (Some kt) tk0 in
                            let w3 := emit (SavedToken t1)
                                        (set_socialtoken_table
                                           (<[kt := t1]> (socialtoken_table w))
                                           w2) in
                            model_save tk0 w2 = (Returned t1, w3)
                            /\ SocialLogin.save request connect self w
                               = (Returned
                                    (SocialLogin.set_token (Some t1) self2),
                                  tail w3))).
Proof.
  intros Hnew ku u1 w1 tail.
  destruct (QuerySet_get_cases (socialapp_table w)
              (by_site_provider (site_id request)
                 (SocialAccount.provider (SocialLogin.account self))))
    as [[app Happ] | Happ].
  2:{ left.
      assert (exists e,
                SocialAppManager.get_current
                  (SocialAccount.provider (SocialLogin.account self)) request w
                = (Raised e, w)) as [e He].
      { rewrite get_current_table. destruct Happ as [-> | ->]; eauto. }
      exists e. split; [done |].
      unfold SocialLogin.save. rewrite Hnew.
      eapply bind_Returned; [apply assert_true |]. by apply bind_Raised. }
  right. exists app.
  assert (Happ' : SocialAppManager.get_current
                    (SocialAccount.provider (SocialLogin.account self)) request w
                  = (Returned app, w))
    by (by rewrite get_current_table, Happ).
  split; [done |].
  destruct (user_save_cases (SocialLogin.user self) w) as [[Hu _] | [Hu _]].
  2:{ left. split; [done |]. unfold SocialLogin.save. rewrite Hnew.
      eapply bind_Returned; [apply assert_true |].
      eapply bind_Returned; [apply Happ' |]. by apply bind_Raised. }
  right. split; [done |]. intros a0.
  destruct (model_save_cases a0 w1) as [Ha | Ha].
  2:{ left. split; [done |]. save_prefix Hnew Happ' Hu. by apply bind_Raised. }
  right. intros ka a1 w2 self2. split; [done |].
  assert (Hpk : SocialAccount.pk (save_result a0 w1) = Some (save_key a0 w1))
    by exact (save_result_pk a0 w1).
  destruct (STORE_TOKENS w) eqn:Hstore;
    [destruct (SocialLogin.token self) as [tk |] eqn:Htk |].
  - right. exists tk. split; [done |]. split; [done |]. intros tk0.
    destruct (model_save_cases tk0 w2) as [Ht | Ht].
    + right. intros kt t1 w3. split; [done |]. save_prefix Hnew Happ' Hu.
      eapply bind_Returned; [apply Ha |].
      eapply bind_Returned; [reflexivity |].
      change (STORE_TOKENS _) with (STORE_TOKENS w). rewrite Hstore.
      cbn [SocialLogin.token SocialLogin.set_account SocialLogin.set_user
           SocialLogin.set_request SocialLogin.account].
      rewrite Htk, Hpk.
      eapply bind_Returned;
        [eapply bind_Returned; [apply Ht | reflexivity] |].
      by destruct connect.
    + left. split; [done |]. save_prefix Hnew Happ' Hu.
      eapply bind_Returned; [apply Ha |].
      eapply bind_Returned; [reflexivity |].
      change (STORE_TOKENS _) with (STORE_TOKENS w). rewrite Hstore.
      cbn [SocialLogin.token SocialLogin.set_account SocialLogin.set_user
           SocialLogin.set_request SocialLogin.account].
      rewrite Htk, Hpk.
      apply bind_Raised. by apply bind_Raised.
  - left. split; [by right |]. save_prefix Hnew Happ' Hu.
    eapply bind_Returned; [apply Ha |].
    eapply bind_Returned; [reflexivity |].
    change (STORE_TOKENS _) with (STORE_TOKENS w). rewrite Hstore.
    cbn [SocialLogin.token SocialLogin.set_account SocialLogin.set_user
         SocialLogin.set_request SocialLogin.account].
    rewrite Htk.
    eapply bind_Returned; [reflexivity |].
    destruct connect; unfold bind, ret, setup_user_email, modify;
      unfold SocialLogin.set_account, SocialLogin.set_user,
        SocialLogin.set_request;
      cbn [SocialLogin.token SocialLogin.user SocialLogin.account
           SocialLogin.email_addresses SocialLogin.state SocialLogin.request];
      by rewrite Htk.
  - left. split; [by left |]. save_prefix Hnew Happ' Hu.
    eapply bind_Returned; [apply Ha |].
    eapply bind_Returned; [reflexivity |].
    change (STORE_TOKENS _) with (STORE_TOKENS w). rewrite Hstore.
    eapply bind_Returned; [reflexivity |]. by destruct connect.
Qed.


(** What a successful [model_save] has checked. *)
Lemma model_save_Returned_inv {T} `{DbModelLaws T} `{!DbSave T}
    (x r : T) (w w' : World) :
  model_save x w = (Returned r, w') ->
  r = save_result x w
  /\ w' = emit (saved r) (set_table (<[save_key x w := r]> (table w)) w)
  /\ not_null r = true
  /\ forall y, y ∈ instances (table w) -> get_pk y <> Some (save_key x w) ->
               unique_together r y = false.
Proof.
  unfold model_save.
  destruct (not_null (save_result x w)) eqn:Hnn; [| done]. cbn [negb].
  destruct (existsb _ _) eqn:Hex; [done |].
  intros [= <- <-]. do 3 (split; [done |]).
  intros y Hy Hne. apply (proj1 (existsb_false_iff _ _) Hex).
  by apply elem_of_instances_delete.
Qed.

(** X14: [save] is not atomic.  When the application resolves, the
    user table accepts the user (no other row has its username) and an
    account row of that application already has the uid, [save] raises
    [IntegrityError] for the account, and the user is written all the
    same: its row is in the table and the journal ends with it. *)
Theorem save_conflict_keeps_user (request : HttpRequest) (connect : bool)
    (self : SocialLogin.t) (w : World) (app : SocialApp.t) (k : Z)
    (row : SocialAccount.t) :
  truthy_pk (SocialLogin.is_existing self) = false ->
  SocialAppManager.get_current
    (SocialAccount.provider (SocialLogin.account self)) request w
  = (Returned app, w) ->
  (forall k' row',
     user_table w !! k' = Some row' ->
     User.pk (SocialLogin.user self) <> Some k' ->
     User.username row' <> User.username (SocialLogin.user self)) ->
  socialaccount_table w !! k = Some row ->
  SocialAccount.app_id row = SocialApp.pk app ->
  SocialAccount.uid row = SocialAccount.uid (SocialLogin.account self) ->
  SocialAccount.pk (SocialLogin.account self) <> Some k ->
  exists w' ku,
    SocialLogin.save request connect self w
    = (Raised (IntegrityError MSocialAccount), w')
    /\ user_table w' !! ku
       = Some (User.set_pk (Some ku) (SocialLogin.user self))
    /\ journal w'
       = (journal w
          ++ [SavedUser (User.set_pk (Some ku) (SocialLogin.user self))])%list
    /\ socialaccount_table w' = socialaccount_table w
    /\ socialtoken_table w' = socialtoken_table w.
Proof.
  intros Hnew Happ Hfree Hl Hrapp Hruid Hpk.
  pose proof (save_cases request connect self w Hnew) as Hcases.
  cbv zeta in Hcases.
  destruct Hcases as [(e & He & _) | (app0 & Happ0 & Hrest)];
    [rewrite Happ in He; discriminate |].
  rewrite Happ in Happ0. injection Happ0 as <-.
  pose proof (user_save_Returned (SocialLogin.user self) w Hfree) as Hu.
  cbv zeta in Hu.
  set (ku := save_key (SocialLogin.user self) w) in *.
  set (u1 := User.set_pk (Some ku) (SocialLogin.user self)) in *.
  set (w1 := emit (SavedUser u1) _) in *.
  destruct Hrest as [[Hu' _] | [_ Hrest]];
    [rewrite Hu in Hu'; discriminate |].
  set (a0 := SocialAccount.set_app_id _ _) in *.
  assert (Hconf : model_save a0 w1 = (Raised (IntegrityError MSocialAccount), w1)).
  { apply (model_save_account_conflict a0 w1 k row); done. }
  destruct Hrest as [[_ Hsave] | [Ha _]]; [| rewrite Hconf in Ha; discriminate].
  exists w1, ku. split; [done |]. split; [apply lookup_insert_eq | done].
Qed.

Lemma save_conflict_keeps_user_witness :
  exists w' ku,
    SocialLogin.save Sample.request false Sample.login_newcomer Sample.linked
    = (Raised (IntegrityError MSocialAccount), w')
    /\ user_table w' !! ku
       = Some (User.set_pk (Some ku) Sample.newcomer)
    /\ journal w'
       = (journal Sample.linked
          ++ [SavedUser (User.set_pk (Some ku) Sample.newcomer)])%list
    /\ socialaccount_table w' = socialaccount_table Sample.linked
    /\ socialtoken_table w' = socialtoken_table Sample.linked.
Proof.
  refine (save_conflict_keeps_user Sample.request false Sample.login_newcomer
            Sample.linked (with_pk (Some 1) Sample.google) 5
            Sample.stored_account _ _ _ _ _ _ _);
    [reflexivity | reflexivity | | reflexivity | reflexivity | reflexivity
    | discriminate].
  intros k' row' Hl _.
  change (user_table Sample.linked) with ({[ 7 := Sample.raymond ]} : gmap Z User.t)
    in Hl.
  apply lookup_singleton_Some in Hl as [_ <-]. discriminate.
Defined.

(** X15: a [save] that returns on a login whose account had no primary
    key has put the account under a key that was not in use; the login
    is now existing, so that [save] and [lookup] on it raise
    [AssertionError] and write nothing. *)
Theorem save_makes_existing (request : HttpRequest) (connect : bool)
    (self self' : SocialLogin.t) (w w' : World) :
  SocialAccount.pk (SocialLogin.account self) = None ->
  SocialLogin.save request connect self w = (Returned self', w') ->
  exists ka,
    SocialAccount.pk (SocialLogin.account self') = Some ka
    /\ 0 < ka
    /\ socialaccount_table w !! ka = None
    /\ socialaccount_table w' = <[ka := SocialLogin.account self']>
                                  (socialaccount_table w)
    /\ truthy_pk (SocialLogin.is_existing self') = true
    /\ (forall request2 connect2 w2,
          SocialLogin.save request2 connect2 self' w2
          = (Raised AssertionError, w2))
    /\ forall request2 w2,
         SocialLogin.lookup request2 self' w2 = (Raised AssertionError, w2).
Proof.
  intros Hpk Hsave.
  assert (Hnew : truthy_pk (SocialLogin.is_existing self) = false)
    by (unfold SocialLogin.is_existing; by rewrite Hpk).
  pose proof (save_cases request connect self w Hnew) as Hcases.
  cbv zeta in Hcases.
  destruct Hcases as [(e & _ & He) | (app & _ & Hrest)];
    [rewrite He in Hsave; discriminate |].
  set (ku := save_key (SocialLogin.user self) w) in *.
  set (u1 := User.set_pk (Some ku) (SocialLogin.user self)) in *.
  set (w1 := emit (SavedUser u1) _) in *.
  destruct Hrest as [[_ He] | [_ Hrest]];
    [rewrite He in Hsave; discriminate |].
  set (a0 := SocialAccount.set_app_id _ _) in *.
  destruct Hrest as [[_ He] | [Ha Hrest]];
    [rewrite He in Hsave; discriminate |].
  assert (Hka : save_key a0 w1 = fresh_pk (socialaccount_table w)).
  { unfold save_key. change (get_pk a0)
      with (SocialAccount.pk (SocialLogin.account self)). by rewrite Hpk. }
  pose proof (save_result_pk a0 w1) as Hpk1.
  change (get_pk (save_result a0 w1))
    with (SocialAccount.pk (save_result a0 w1)) in Hpk1.
  rewrite Hka in *.
  set (ka := fresh_pk (socialaccount_table w)) in *.
  set (a1 := save_result a0 w1) in *.
  assert (Hacc : SocialLogin.account self' = a1
                 /\ socialaccount_table w' = <[ka := a1]> (socialaccount_table w)).
  { destruct Hrest as [[_ He] | (tk & _ & _ & [[_ He] | [_ He]])];
      rewrite He in Hsave; try discriminate;
      injection Hsave as <- <-; by destruct connect. }
  destruct Hacc as [Hacc Htbl]. rewrite Hacc, Htbl.
  assert (Hex : truthy_pk (SocialLogin.is_existing self') = true).
  { unfold SocialLogin.is_existing. rewrite Hacc, Hpk1. simpl.
    pose proof (fresh_pk_pos (socialaccount_table w)) as Hpos. fold ka in Hpos.
    apply negb_true_iff, Z.eqb_neq. lia. }
  exists ka. split; [done |]. split; [apply fresh_pk_pos |].
  split; [apply fresh_pk_unused |]. split; [done |]. split; [done |].
  split.
  - intros request2 connect2 w2. unfold SocialLogin.save. rewrite Hex.
    by apply bind_Raised.
  - intros request2 w2. unfold SocialLogin.lookup. rewrite Hex.
    by apply bind_Raised.
Qed.

Lemma save_makes_existing_witness :
  exists self' w' ka,
    SocialLogin.save Sample.request false Sample.login Sample.first_time
    = (Returned self', w')
    /\ SocialAccount.pk (SocialLogin.account self') = Some ka
    /\ 0 < ka
    /\ SocialLogin.lookup Sample.request self' w'
       = (Raised AssertionError, w').
Proof.
  destruct (SocialLogin.save Sample.request false Sample.login
              Sample.first_time) as [[self' | e] w'] eqn:Hsave;
    [| vm_compute in Hsave; discriminate].
  destruct (save_makes_existing Sample.request false Sample.login self'
              Sample.first_time w' eq_refl Hsave)
    as (ka & Hpk & Hpos & _ & _ & _ & _ & Hlookup).
  exists self', w', ka. auto.
Defined.


(** A row written under [k] that passes a filter which no row under
    another key passes is what the query finds. *)
Lemma QuerySet_get_insert_unique {T} `{DbModelLaws T} (tbl : gmap Z T)
    (p : T -> bool) (x : T) (k : Z) :
  (forall y, y ∈ instances tbl -> get_pk y <> Some k -> p y = false) ->
  p (with_pk (Some k) x) = true ->
  QuerySet_get (<[k := x]> tbl) p = Returned (with_pk (Some k) x).
Proof.
  intros Hothers Hp.
  apply QuerySet_get_Returned. split; [| split; [done |]].
  - apply elem_of_instances_insert. by left.
  - intros y [-> | [Hy Hne]]%elem_of_instances_insert Hpy; [done |].
    rewrite (Hothers y Hy Hne) in Hpy. done.
Qed.

Lemma user_with_pk_same (u : User.t) (k : Z) :
  User.pk u = Some k -> with_pk (Some k) u = u.
Proof. destruct u; simpl. by intros ->. Qed.

(** X16: [save], then [lookup].  After a [save] that returned, a
    [lookup] at any later time on a login with the data of the one that
    was saved (its token, if tokens are stored, being unsaved and
    referring to an application that exists) finds what [save] wrote: it
    returns, bound to the saved account, user and token, and adds no row
    to any table. *)
Theorem save_then_lookup (request : HttpRequest) (connect : bool)
    (self self1 : SocialLogin.t) (w w1 : World) (c : Z) :
  truthy_pk (SocialLogin.is_existing self) = false ->
  SocialLogin.save request connect self w = (Returned self1, w1) ->
  (STORE_TOKENS w = true ->
   forall tk, SocialLogin.token self = Some tk ->
     truthy_pk (SocialToken.pk tk) = false
     /\ exists tk_app,
          fetch (socialapp_table w) (SocialToken.app_id tk) = Returned tk_app) ->
  exists self2 w2,
    SocialLogin.lookup request self (set_clock c w1) = (Returned self2, w2)
    /\ SocialAccount.pk (SocialLogin.account self2)
       = SocialAccount.pk (SocialLogin.account self1)
    /\ SocialLogin.user self2 = SocialLogin.user self1
    /\ SocialLogin.token self2 = SocialLogin.token self1
    /\ user_table w2 = user_table w1
    /\ socialtoken_table w2 = socialtoken_table w1
    /\ dom (socialaccount_table w2) = dom (socialaccount_table w1).
Proof.
  intros Hnew Hsave Htoken.
  pose proof (save_cases request connect self w Hnew) as Hcases.
  cbv zeta in Hcases.
  destruct Hcases as [(e & _ & He) | (app & Happ & Hrest)];
    [rewrite He in Hsave; discriminate |].
  set (ku := save_key (SocialLogin.user self) w) in *.
  set (u1 := User.set_pk (Some ku) (SocialLogin.user self)) in *.
  set (w1' := emit (SavedUser u1) _) in *.
  destruct Hrest as [[_ He] | [_ Hrest]];
    [rewrite He in Hsave; discriminate |].
  set (a0 := SocialAccount.set_app_id _ _) in *.
  destruct Hrest as [[_ He] | [Ha Hrest]];
    [rewrite He in Hsave; discriminate |].
  pose proof (model_save_Returned_inv _ _ _ _ Ha) as (_ & _ & _ & Huniq).
  destruct (account_save_result_fields a0 w1') as (Fu & Fa & _ & Fuid & Fx).
  pose proof (save_result_pk a0 w1') as Fpk.
  change (get_pk (save_result a0 w1'))
    with (SocialAccount.pk (save_result a0 w1')) in Fpk.
  set (ka := save_key a0 w1') in *.
  set (a1 := save_result a0 w1') in *.
  set (w2' := emit (SavedAccount a1) _) in *.
  change (SocialAccount.user_id a0) with (Some ku) in Fu.
  change (SocialAccount.app_id a0) with (SocialApp.pk app) in Fa.
  change (SocialAccount.uid a0)
    with (SocialAccount.uid (SocialLogin.account self)) in Fuid.
  change (SocialAccount.extra_data a0)
    with (SocialAccount.extra_data (SocialLogin.account self)) in Fx.
  (* the account query after the save *)
  assert (Hq : QuerySet_get (<[ka := a1]> (socialaccount_table w))
                 (by_app_uid app (SocialAccount.uid (SocialLogin.account self)))
               = Returned a1).
  { rewrite <- (account_with_pk_same a1 ka Fpk) at 2.
    apply QuerySet_get_insert_unique.
    - intros y Hy Hne. specialize (Huniq y Hy Hne).
      change (unique_together a1 y)
        with (bool_decide (SocialAccount.app_id a1 = SocialAccount.app_id y)
              && bool_decide (SocialAccount.uid a1 = SocialAccount.uid y))
        in Huniq.
      rewrite Fa, Fuid in Huniq. unfold by_app_uid.
      apply andb_false_iff in Huniq as [Hf | Hf];
        apply bool_decide_eq_false in Hf.
      + by rewrite (bool_decide_eq_false_2 (SocialAccount.app_id y = _))
          by congruence.
      + rewrite (bool_decide_eq_false_2 (SocialAccount.uid y = _))
          by congruence.
        by rewrite andb_false_r.
    - rewrite by_app_uid_with_pk. unfold by_app_uid.
      by rewrite Fa, Fuid, !bool_decide_eq_true_2. }
  assert (Hfu : fetch (<[ku := u1]> (user_table w)) (SocialAccount.user_id a1)
                = Returned u1).
  { rewrite Fu. unfold fetch. rewrite lookup_insert_eq.
    by rewrite user_with_pk_same. }
  rewrite get_current_table in Happ. injection Happ as Happ.
  set (extra := SocialAccount.extra_data (SocialLogin.account self)) in *.
  set (aB := SocialAccount.set_last_login (Some c)
               (SocialAccount.set_extra_data extra a1)).
  set (selfB := SocialLogin.set_account aB (SocialLogin.set_user u1 self)).
  assert (Hagain : forall wS,
            socialapp_table wS = socialapp_table w ->
            user_table wS = <[ku := u1]> (user_table w) ->
            socialaccount_table wS = <[ka := a1]> (socialaccount_table w) ->
            SocialLogin.lookup request self (set_clock c wS)
            = try_except (SocialLogin.lookup_update_token selfB)
                (SocialLogin.lookup_except self)
                (emit (SavedAccount aB)
                   (set_socialaccount_table
                      (<[ka := aB]> (socialaccount_table wS))
                      (set_clock c wS)))).
  { intros wS E1 E2 E3.
    destruct (lookup_found request self (set_clock c wS) app a1 u1 Hnew)
      as (k' & Hk' & _ & ->).
    - rewrite get_current_table.
      change (socialapp_table (set_clock c wS)) with (socialapp_table wS).
      by rewrite E1, Happ.
    - change (socialaccount_table (set_clock c wS))
        with (socialaccount_table wS). by rewrite E3.
    - change (user_table (set_clock c wS)) with (user_table wS).
      by rewrite E2.
    - rewrite Fpk in Hk'. injection Hk' as <-. done. }
  assert (HkB : SocialAccount.pk (SocialLogin.account selfB) = Some ka)
    by exact Fpk.
  destruct Hrest as [[Hskip He] | (tk & Hstore & Htk & [[_ He] | [Ht He]])];
    rewrite He in Hsave; try discriminate; injection Hsave as <- <-.
  - (* no token was saved *)
    set (wS := if connect then w2' else _).
    assert (E : socialapp_table wS = socialapp_table w
                /\ user_table wS = <[ku := u1]> (user_table w)
                /\ socialaccount_table wS = <[ka := a1]> (socialaccount_table w)
                /\ socialtoken_table wS = socialtoken_table w
                /\ STORE_TOKENS wS = STORE_TOKENS w)
      by (subst wS; by destruct connect).
    destruct E as (E1 & E2 & E3 & E4 & E5).
    eexists _, _. split.
    { rewrite (Hagain wS E1 E2 E3). apply try_except_Returned.
      apply token_block_skip.
      change (STORE_TOKENS (emit _ (set_socialaccount_table _ (set_clock c wS))))
        with (STORE_TOKENS wS).
      rewrite E5. exact Hskip. }
    cbn [SocialLogin.account SocialLogin.user SocialLogin.token
         SocialLogin.set_account SocialLogin.set_user selfB aB
         user_table socialtoken_table socialaccount_table emit
         set_socialaccount_table set_clock].
    do 5 (split; [reflexivity |]). rewrite E3. by rewrite insert_insert_eq, !dom_insert_L.
  - (* the token was saved, and is found again *)
    pose proof (model_save_Returned_inv _ _ _ _ Ht) as (_ & _ & Hnn & Htuniq).
    destruct (Htoken Hstore tk Htk) as (Hpk & tk_app & Htkapp).
    pose proof Htkapp as (i & _ & Hfk & _ & _ & Hi)%fetch_Returned.
    simpl in Hi.
    set (tk0 := SocialToken.set_account_id (Some ka) tk) in *.
    set (kt := save_key tk0 w2') in *.
    pose proof (updated_token_inserted tk ka kt) as Hidem. cbv zeta in Hidem.
    fold tk0 in Hidem.
    set (t1 := SocialToken.set_pk (Some kt) tk0) in *.
    set (w3 := emit (SavedToken t1) _) in *.
    set (wS := if connect then w3 else _).
    assert (E : socialapp_table wS = socialapp_table w
                /\ user_table wS = <[ku := u1]> (user_table w)
                /\ socialaccount_table wS = <[ka := a1]> (socialaccount_table w)
                /\ socialtoken_table wS = <[kt := t1]> (socialtoken_table w)
                /\ STORE_TOKENS wS = STORE_TOKENS w)
      by (subst wS; by destruct connect).
    destruct E as (E1 & E2 & E3 & E4 & E5).
    set (wB2 := emit (SavedAccount aB)
                  (set_socialaccount_table
                     (<[ka := aB]> (socialaccount_table wS)) (set_clock c wS))).
    assert (Ht2 : QuerySet_get (socialtoken_table wB2)
                    (by_account_app (SocialLogin.account selfB) tk_app)
                  = Returned t1).
    { change (socialtoken_table wB2) with (socialtoken_table wS). rewrite E4.
      rewrite <- (token_with_pk_same t1 kt eq_refl) at 2.
      apply QuerySet_get_insert_unique.
      - intros y Hy Hne. specialize (Htuniq y Hy Hne).
        change (unique_together t1 y)
          with (bool_decide (SocialToken.app_id tk = SocialToken.app_id y)
                && bool_decide (Some ka = SocialToken.account_id y))
          in Htuniq.
        unfold by_account_app. rewrite HkB, Hi, <- Hfk.
        apply andb_false_iff in Htuniq as [Hf | Hf];
          apply bool_decide_eq_false in Hf.
        + rewrite (bool_decide_eq_false_2 (SocialToken.app_id y = _))
            by congruence.
          by rewrite andb_false_r.
        + by rewrite (bool_decide_eq_false_2 (SocialToken.account_id y = _))
            by congruence.
      - rewrite by_account_app_with_pk. unfold by_account_app.
        rewrite HkB, Hi, <- Hfk. by rewrite !bool_decide_eq_true_2. }
    assert (Hstore2 : STORE_TOKENS wB2 = true) by (by rewrite <- Hstore, <- E5).
    assert (Htkapp2 : fetch (socialapp_table wB2) (SocialToken.app_id tk)
                      = Returned tk_app).
    { change (socialapp_table wB2) with (socialapp_table wS). by rewrite E1. }
    destruct (token_block_found selfB wB2 tk t1 tk_app ka Hstore2 Htk Hpk HkB
                Htkapp2 Ht2) as (j2 & Hj2 & _ & Heq2).
    rewrite Hidem in Heq2. injection Hj2 as <-.
    eexists _, _. split.
    { rewrite (Hagain wS E1 E2 E3). apply try_except_Returned. apply Heq2. }
    cbn [SocialLogin.account SocialLogin.user SocialLogin.token
         SocialLogin.set_account SocialLogin.set_user SocialLogin.set_token
         selfB aB wB2
         user_table socialtoken_table socialaccount_table emit
         set_socialaccount_table set_socialtoken_table set_clock].
    do 4 (split; [reflexivity |]).
    split; [by rewrite E4, insert_insert_eq |].
    rewrite E3. by rewrite insert_insert_eq, !dom_insert_L.
Qed.


Lemma save_then_lookup_witness :
  exists self1 w1 self2 w2,
    SocialLogin.save Sample.request false Sample.login Sample.first_time
    = (Returned self1, w1)
    /\ SocialLogin.lookup Sample.request Sample.login (set_clock 300 w1)
       = (Returned self2, w2)
    /\ SocialAccount.pk (SocialLogin.account self2)
       = SocialAccount.pk (SocialLogin.account self1)
    /\ SocialLogin.user self2 = SocialLogin.user self1
    /\ SocialLogin.token self2 = SocialLogin.token self1
    /\ socialtoken_table w2 = socialtoken_table w1.
Proof.
  destruct (SocialLogin.save Sample.request false Sample.login
              Sample.first_time) as [[self1 | e] w1] eqn:Hsave;
    [| vm_compute in Hsave; discriminate].
  destruct (save_then_lookup Sample.request false Sample.login self1
              Sample.first_time w1 300 eq_refl Hsave)
    as (self2 & w2 & Hrun & Hpk & Hu & Htk & _ & Htbl & _).
  - intros _ tk [= <-]. split; [reflexivity |].
    exists (with_pk (Some 1) Sample.google). reflexivity.
  - exists self1, w1, self2, w2. auto 10.
Defined.

Ltac not_in_journal :=
  let Hin := fresh "Hin" in
  intros; unfold not; intros Hin;
  repeat (apply elem_of_cons in Hin as [Hin | Hin]; [discriminate Hin |]);
  by apply elem_of_nil in Hin.

(** X17: [connect] saves the login for the user given and never calls
    [setup_user_email]: whatever the outcome, what it adds to the journal
    holds no such call.  When it returns, the login and its account are
    bound to that user as saved; a user that was already a row keeps its
    key, and no user row is added. *)
Theorem connect_binds_user (request : HttpRequest) (u : User.t)
    (self : SocialLogin.t) (w : World) (o : Outcome SocialLogin.t)
    (w' : World) :
  truthy_pk (SocialLogin.is_existing self) = false ->
  SocialLogin.connect request u self w = (o, w') ->
  let ku := save_key u w in
  (exists l, journal w' = (journal w ++ l)%list
             /\ forall u' addresses, SetupUserEmail u' addresses ∉ l)
  /\ (forall self',
        o = Returned self' ->
        SocialLogin.user self' = User.set_pk (Some ku) u
        /\ SocialAccount.user_id (SocialLogin.account self') = Some ku
        /\ user_table w' !! ku = Some (SocialLogin.user self'))
  /\ (forall k, User.pk u = Some k -> is_Some (user_table w !! k) ->
                ku = k /\ dom (user_table w') = dom (user_table w)).
Proof.
  intros Hnew Hrun ku. unfold SocialLogin.connect in Hrun.
  assert (Hdom : forall k, User.pk u = Some k -> is_Some (user_table w !! k) ->
                 ku = k
                 /\ dom (<[ku := User.set_pk (Some ku) u]> (user_table w))
                    = dom (user_table w)).
  { intros k Hk Hin. assert (ku = k) as ->.
    { unfold ku, save_key. change (get_pk u) with (User.pk u). by rewrite Hk. }
    split; [done |]. rewrite dom_insert_L.
    apply subseteq_union_1_L, singleton_subseteq_l, elem_of_dom, Hin. }
  pose proof (save_cases request true (SocialLogin.set_user u self) w Hnew)
    as Hcases.
  cbv zeta in Hcases.
  cbn [SocialLogin.user SocialLogin.account SocialLogin.token
       SocialLogin.email_addresses SocialLogin.state SocialLogin.set_user]
    in Hcases.
  fold ku in Hcases.
  set (u1 := User.set_pk (Some ku) u) in *.
  set (w1 := emit (SavedUser u1) _) in *.
  destruct Hcases as [(e & _ & He) | (app & _ & Hrest)].
  { rewrite He in Hrun. injection Hrun as <- <-. split; [| split].
    - exists []. split; [by rewrite app_nil_r | not_in_journal].
    - done.
    - intros k Hk Hin. split; [by apply (Hdom k) | done]. }
  destruct Hrest as [[_ He] | [_ Hrest]].
  { rewrite He in Hrun. injection Hrun as <- <-. split; [| split].
    - exists []. split; [by rewrite app_nil_r | not_in_journal].
    - done.
    - intros k Hk Hin. split; [by apply (Hdom k) | done]. }
  set (a0 := SocialAccount.set_app_id _ _) in *.
  destruct Hrest as [[_ He] | [Ha Hrest]].
  { rewrite He in Hrun. injection Hrun as <- <-. split; [| split].
    - exists [SavedUser u1]. split; [done | not_in_journal].
    - done.
    - intros k Hk Hin. by apply (Hdom k). }
  destruct (account_save_result_fields a0 w1) as (Fu & _).
  change (SocialAccount.user_id a0) with (Some ku) in Fu.
  set (a1 := save_result a0 w1) in *.
  set (w2 := emit (SavedAccount a1) _) in *.
  destruct Hrest as [[_ He] | (tk & _ & _ & [[_ He] | [_ He]])];
    rewrite He in Hrun; injection Hrun as <- <-.
  - split; [| split].
    + exists [SavedUser u1; SavedAccount a1].
      split; [unfold w2, w1; cbn [journal emit set_user_table set_socialaccount_table
                   set_socialtoken_table]; by rewrite <- ?app_assoc
             | not_in_journal].
    + intros self' [= <-]. split; [done |]. split; [done |].
      apply lookup_insert_eq.
    + intros k Hk Hin. by apply (Hdom k).
  - split; [| split].
    + exists [SavedUser u1; SavedAccount a1].
      split; [unfold w2, w1; cbn [journal emit set_user_table set_socialaccount_table
                   set_socialtoken_table]; by rewrite <- ?app_assoc
             | not_in_journal].
    + done.
    + intros k Hk Hin. by apply (Hdom k).
  - split; [| split].
    + eexists [SavedUser u1; SavedAccount a1; SavedToken _].
      split; [unfold w2, w1; cbn [journal emit set_user_table set_socialaccount_table
                   set_socialtoken_table]; by rewrite <- ?app_assoc
             | not_in_journal].
    + intros self' [= <-]. split; [done |]. split; [done |].
      apply lookup_insert_eq.
    + intros k Hk Hin. by apply (Hdom k).
Qed.

Lemma connect_binds_user_witness :
  exists self' w',
    SocialLogin.connect Sample.request (User.set_pk (Some 7) Sample.raymond)
      Sample.login Sample.linked_no_token
    = (Raised (IntegrityError MSocialAccount), w')
    /\ dom (user_table w') = dom (user_table Sample.linked_no_token)
    /\ SocialLogin.connect Sample.request Sample.raymond Sample.login
         Sample.first_time
       = (Returned self', snd (SocialLogin.connect Sample.request
                                 Sample.raymond Sample.login
                                 Sample.first_time))
    /\ SocialAccount.user_id (SocialLogin.account self')
       = User.pk (SocialLogin.user self').
Proof.
  destruct (SocialLogin.connect Sample.request
              (User.set_pk (Some 7) Sample.raymond) Sample.login
              Sample.linked_no_token) as [o1 w1] eqn:H1.
  destruct (connect_binds_user Sample.request
              (User.set_pk (Some 7) Sample.raymond) Sample.login
              Sample.linked_no_token o1 w1 eq_refl H1) as (_ & _ & Hdom).
  destruct (Hdom 7 eq_refl) as [_ Hd]; [by eexists |].
  destruct (SocialLogin.connect Sample.request Sample.raymond Sample.login
              Sample.first_time) as [[self2 | e2] w2] eqn:H2;
    [| vm_compute in H2; discriminate].
  destruct (connect_binds_user Sample.request Sample.raymond Sample.login
              Sample.first_time _ w2 eq_refl H2) as (_ & Hret & _).
  destruct (Hret self2 eq_refl) as (Hu & Hfk & _).
  exists self2, w1. split.
  { vm_compute in H1. injection H1 as <- <-. reflexivity. }
  split; [done |]. split; [done |]. by rewrite Hfk, Hu.
Defined.

(** X18: with [STORE_TOKENS] off, or without token, [save] writes no
    token: whatever the outcome the token table is as before, and a login
    that is returned carries the token it came with. *)
Theorem save_without_token_storage (request : HttpRequest) (connect : bool)
    (self : SocialLogin.t) (w : World) (o : Outcome SocialLogin.t)
    (w' : World) :
  truthy_pk (SocialLogin.is_existing self) = false ->
  STORE_TOKENS w = false \/ SocialLogin.token self = None ->
  SocialLogin.save request connect self w = (o, w') ->
  socialtoken_table w' = socialtoken_table w
  /\ (forall t, SavedToken t ∉ drop (length (journal w)) (journal w'))
  /\ forall self', o = Returned self' ->
                   SocialLogin.token self' = SocialLogin.token self.
Proof.
  intros Hnew Hoff Hrun.
  pose proof (save_cases request connect self w Hnew) as Hcases.
  cbv zeta in Hcases.
  destruct Hcases as [(e & _ & He) | (app & _ & Hrest)].
  { rewrite He in Hrun. injection Hrun as <- <-.
    split; [done |]. split; [| done].
    intros t. rewrite drop_all. apply not_elem_of_nil. }
  set (ku := save_key (SocialLogin.user self) w) in *.
  set (u1 := User.set_pk (Some ku) (SocialLogin.user self)) in *.
  set (w1 := emit (SavedUser u1) _) in *.
  destruct Hrest as [[_ He] | [_ Hrest]].
  { rewrite He in Hrun. injection Hrun as <- <-.
    split; [done |]. split; [| done].
    intros t. rewrite drop_all. apply not_elem_of_nil. }
  set (a0 := SocialAccount.set_app_id _ _) in *.
  destruct Hrest as [[_ He] | [_ Hrest]].
  { rewrite He in Hrun. injection Hrun as <- <-.
    split; [done |]. split; [| done].
    intros t. unfold w1. cbn [journal emit]. rewrite drop_app_length.
    not_in_journal. }
  destruct Hrest as [[_ He] | (tk & Hstore & Htk & _)].
  - rewrite He in Hrun. injection Hrun as <- <-.
    split; [by destruct connect |]. split; [| by intros self' [= <-]].
    intros t. destruct connect; unfold w1;
      cbn [journal emit set_user_table set_socialaccount_table];
      rewrite <- ?app_assoc, drop_app_length; not_in_journal.
  - exfalso. destruct Hoff as [Hoff | Hoff]; congruence.
Qed.

Lemma save_without_token_storage_witness :
  exists self' w',
    SocialLogin.save Sample.request false
      (SocialLogin.set_token None Sample.login) Sample.first_time
    = (Returned self', w')
    /\ socialtoken_table w' = socialtoken_table Sample.first_time
    /\ SocialLogin.token self' = None.
Proof.
  destruct (SocialLogin.save Sample.request false
              (SocialLogin.set_token None Sample.login) Sample.first_time)
    as [[self' | e] w'] eqn:Hrun; [| vm_compute in Hrun; discriminate].
  destruct (save_without_token_storage Sample.request false
              (SocialLogin.set_token None Sample.login) Sample.first_time
              _ w' eq_refl (or_intror eq_refl) Hrun) as (Ht & _ & Htok).
  exists self', w'. split; [done |]. split; [done |]. by apply Htok.
Defined.

(** X19: [save] fails early without writing.  When [save] raises
    anything but an [IntegrityError], the world is the one before the
    call, and the exception is [AssertionError], for a login whose
    account has a key, or the exception of [get_current], for an
    application that is missing or ambiguous.  Unlike [lookup], [save]
    has no handler in the way, so a missing application shows as
    [DoesNotExist]. *)
Theorem save_early_failure (request : HttpRequest) (connect : bool)
    (self : SocialLogin.t) (w w' : World) (e : Exception) :
  SocialLogin.save request connect self w = (Raised e, w') ->
  (forall m, e <> IntegrityError m) ->
  w' = w
  /\ ((truthy_pk (SocialLogin.is_existing self) = true
       /\ e = AssertionError)
      \/ (truthy_pk (SocialLogin.is_existing self) = false
          /\ SocialAppManager.get_current
               (SocialAccount.provider (SocialLogin.account self)) request w
             = (Raised e, w)
          /\ (e = DoesNotExist MSocialApp
              \/ e = MultipleObjectsReturned MSocialApp))).
Proof.
  intros Hsave Hne.
  destruct (truthy_pk (SocialLogin.is_existing self)) eqn:Hex.
  - assert (E : SocialLogin.save request connect self w
                = (Raised AssertionError, w)).
    { unfold SocialLogin.save. rewrite Hex. apply bind_Raised, assert_false. }
    rewrite E in Hsave. injection Hsave as <- <-. split; [done |]. by left.
  - pose proof (save_cases request connect self w Hex) as Hcases.
    cbv zeta in Hcases.
    destruct Hcases as [(e0 & He0 & Hs) | (app & _ & Hrest)].
    + rewrite Hs in Hsave. injection Hsave as <- <-. split; [done |].
      right. split; [done |]. split; [done |].
      rewrite get_current_table in He0.
      destruct (QuerySet_get_cases (socialapp_table w)
                  (by_site_provider (site_id request)
                     (SocialAccount.provider (SocialLogin.account self))))
        as [[x Hx] | [Hx | Hx]]; rewrite Hx in He0;
        [discriminate | injection He0 as <- | injection He0 as <-]; auto.
    + exfalso.
      destruct Hrest
        as [[_ Hs]
           | [_ [[_ Hs]
                | [_ [[_ Hs] | (tk & _ & _ & [[_ Hs] | [_ Hs]])]]]]];
        rewrite Hs in Hsave; try discriminate;
        injection Hsave as <- _; by eapply Hne.
Qed.

Lemma save_early_failure_witness :
  exists w',
    SocialLogin.save Sample.request false Sample.login Sample.unconfigured
    = (Raised (DoesNotExist MSocialApp), w')
    /\ w' = Sample.unconfigured.
Proof.
  destruct (SocialLogin.save Sample.request false Sample.login
              Sample.unconfigured) as [[x | e] w'] eqn:Hs;
    [vm_compute in Hs; discriminate |].
  assert (He : e = DoesNotExist MSocialApp)
    by (vm_compute in Hs; by injection Hs as <- _).
  subst e. exists w'. split; [done |].
  refine (proj1 (save_early_failure Sample.request false Sample.login
                   Sample.unconfigured w' _ Hs _)).
  discriminate.
Defined.

(** ** [serialize] and [deserialize], apart from the round trip *)

Section SerializationMore.
Context {SI : Type}.
Context `{!InstanceCodec SI SocialAccount.t, !InstanceCodec SI User.t,
          !InstanceCodec SI SocialToken.t, !InstanceCodec SI EmailAddress.t}.

Lemma deserialize_email_addresses_Returned (l : list SI)
    (eas : list EmailAddress.t) :
  SocialLogin.deserialize_email_addresses l = Returned eas ->
  Forall2 (fun ea e => deserialize_instance ea = Returned e) l eas.
Proof.
  revert eas. induction l as [| ea l IH]; intros eas Heas.
  - cbn in Heas. injection Heas as <-. constructor.
  - cbn [SocialLogin.deserialize_email_addresses] in Heas.
    destruct (deserialize_instance ea) as [e |] eqn:He; [| discriminate].
    cbn [Outcome_bind] in Heas.
    destruct (SocialLogin.deserialize_email_addresses l) as [es |] eqn:Hes;
      [| discriminate].
    cbn [Outcome_bind] in Heas. injection Heas as <-.
    constructor; [done | by apply IH].
Qed.

(** X20: what [deserialize] needs.  Take data whose entries under the
    five keys, where there are any, have the shape [serialize] writes:
    an instance under [account], [user] and [token], a sequence of
    instances under [email_addresses], a state under [state].  When
    [deserialize] returns a login, the data had the keys [account],
    [user], [email_addresses] and [state]; each part of the login is
    [deserialize_instance] of its entry (the state is the entry itself);
    the login has a token exactly when the data has the key [token]; and
    the login has no request.  (The hypotheses on the shape delimit the
    data on which the embedding follows the source, which checks no
    entry.) *)
Theorem deserialize_Returned_inv (data : gmap string (PyData SI))
    (y : SocialLogin.t) :
  (forall key v, key ∈ ["account"; "user"; "token"] ->
                 data !! key = Some v -> exists i, v = DInstance i) ->
  (forall v, data !! "email_addresses" = Some v -> exists l, v = DList l) ->
  (forall v, data !! "state" = Some v -> exists s, v = DState s) ->
  SocialLogin.deserialize data = Returned y ->
  exists account_data user_data eas,
    data !! "account" = Some (DInstance account_data)
    /\ deserialize_instance account_data = Returned (SocialLogin.account y)
    /\ data !! "user" = Some (DInstance user_data)
    /\ deserialize_instance user_data = Returned (SocialLogin.user y)
    /\ data !! "email_addresses" = Some (DList eas)
    /\ Forall2 (fun ea e => deserialize_instance ea = Returned e)
               eas (SocialLogin.email_addresses y)
    /\ data !! "state" = Some (DState (SocialLogin.state y))
    /\ match SocialLogin.token y with
       | Some tk =>
           exists token_data,
             data !! "token" = Some (DInstance token_data)
             /\ deserialize_instance token_data = Returned tk
       | None => data !! "token" = None
       end
    /\ SocialLogin.request y = None.
Proof.
  unfold SocialLogin.deserialize, item_instance, item_list, item_state.
  intros _ Hlist _ Hd.
  destruct (data !! "account") as [[ai | |] |] eqn:Ha; try discriminate.
  cbn [Outcome_bind] in Hd.
  destruct (deserialize_instance ai) as [a |] eqn:Hai; [| discriminate].
  cbn [Outcome_bind] in Hd.
  destruct (data !! "user") as [[ui | |] |] eqn:Hu; try discriminate.
  cbn [Outcome_bind] in Hd.
  destruct (deserialize_instance ui) as [u |] eqn:Hui; [| discriminate].
  cbn [Outcome_bind] in Hd.
  assert (Htok : exists tko,
            match data !! "token" with
            | Some _ =>
                let? token_data :=
                  match data !! "token" with
                  | Some (DInstance i) => Returned i
                  | Some _ => Raised TypeError
                  | None => Raised (KeyError "token")
                  end in
                let? token := deserialize_instance token_data in
                Returned (Some token)
            | None => Returned None
            end = Returned tko
            /\ match tko with
               | Some tk =>
                   exists token_data,
                     data !! "token" = Some (DInstance token_data)
                     /\ deserialize_instance (T := SocialToken.t) token_data
                        = Returned tk
               | None => data !! "token" = None
               end).
  { destruct (data !! "token") as [[ti | |] |] eqn:Ht;
      cbn [Outcome_bind] in Hd |- *; try discriminate.
    - destruct (deserialize_instance (T := SocialToken.t) ti) as [tk |] eqn:Hti;
        [| discriminate].
      exists (Some tk). split; [done |]. by exists ti.
    - by exists None. }
  destruct Htok as (tko & Etok & Htok). rewrite Etok in Hd.
  cbn [Outcome_bind] in Hd.
  destruct (data !! "email_addresses") as [[| eal | s] |] eqn:He;
    try discriminate.
  2:{ by destruct (Hlist _ eq_refl). }
  cbn [Outcome_bind] in Hd.
  destruct (SocialLogin.deserialize_email_addresses eal) as [es |] eqn:Hes;
    [| discriminate].
  cbn [Outcome_bind] in Hd.
  destruct (data !! "state") as [[| | st] |] eqn:Hs; try discriminate.
  cbn [Outcome_bind] in Hd. injection Hd as <-.
  exists ai, ui, eal. cbn [SocialLogin.account SocialLogin.user
    SocialLogin.email_addresses SocialLogin.state SocialLogin.token
    SocialLogin.request].
  repeat split; try done.
  by apply deserialize_email_addresses_Returned.
Qed.

(** X21: [deserialize] reads the five keys [account], [user], [token],
    [email_addresses] and [state] and nothing else: an entry under any
    other key changes neither the login returned nor the exception
    raised. *)
Theorem deserialize_other_key (data : gmap string (PyData SI))
    (key : string) (v : PyData SI) :
  key <> "account" -> key <> "user" -> key <> "token" ->
  key <> "email_addresses" -> key <> "state" ->
  SocialLogin.deserialize (<[key := v]> data) = SocialLogin.deserialize data.
Proof.
  intros Ha Hu Ht He Hs.
  unfold SocialLogin.deserialize, item_instance, item_list, item_state.
  by rewrite !lookup_insert_ne by done.
Qed.

(** X22: [serialize] carries everything but the request.  When the
    transport of single instances is injective, two logins with the same
    serialized form have the same account, user, token, e-mail addresses
    and state; and the request of a login never shows in its serialized
    form. *)
Theorem serialize_inj (x y : SocialLogin.t) :
  (forall a b : SocialAccount.t,
     serialize_instance (SI := SI) a = serialize_instance b -> a = b) ->
  (forall a b : User.t,
     serialize_instance (SI := SI) a = serialize_instance b -> a = b) ->
  (forall a b : SocialToken.t,
     serialize_instance (SI := SI) a = serialize_instance b -> a = b) ->
  (forall a b : EmailAddress.t,
     serialize_instance (SI := SI) a = serialize_instance b -> a = b) ->
  SocialLogin.serialize (SI := SI) x = SocialLogin.serialize y <->
  SocialLogin.set_request None x = SocialLogin.set_request None y.
Proof.
  intros Ia Iu It Ie. split.
  - intros Hs.
    assert (Hl : forall key,
              SocialLogin.serialize (SI := SI) x !! key
              = SocialLogin.serialize y !! key) by (by rewrite Hs).
    pose proof (Hl "account") as Ha. pose proof (Hl "user") as Hu.
    pose proof (Hl "token") as Ht. pose proof (Hl "email_addresses") as He.
    pose proof (Hl "state") as Hst. clear Hl Hs.
    unfold SocialLogin.serialize in *.
    destruct x as [tx ux ax ex sx rx], y as [ty uy ay ey sy ry].
    cbn [SocialLogin.token SocialLogin.user SocialLogin.account
         SocialLogin.email_addresses SocialLogin.state SocialLogin.request] in *.
    unfold SocialLogin.set_request.
    cbn [SocialLogin.token SocialLogin.user SocialLogin.account
         SocialLogin.email_addresses SocialLogin.state SocialLogin.request].
    assert (ax = ay) as ->.
    { destruct tx, ty; simplify_map_eq; by apply Ia. }
    assert (ux = uy) as ->.
    { destruct tx, ty; simplify_map_eq; by apply Iu. }
    assert (sx = sy) as ->.
    { destruct tx, ty; by simplify_map_eq. }
    assert (ex = ey) as ->.
    { assert (E : serialize_instance (SI := SI) <$> ex
                  = serialize_instance <$> ey).
      { destruct tx, ty; by simplify_map_eq. }
      clear -E Ie. revert ey E.
      induction ex as [| e ex IH]; intros [| e' ey] E; try done.
      rewrite !fmap_cons in E. injection E as E1 E2.
      f_equal; [by apply Ie | by apply IH]. }
    assert (tx = ty) as ->; [| done].
    destruct tx as [tx |], ty as [ty |]; simplify_map_eq; try done.
    f_equal. by apply It.
  - unfold SocialLogin.set_request, SocialLogin.serialize.
    intros Hxy. injection Hxy as -> -> -> -> ->. done.
Qed.
End SerializationMore.

Lemma roundtrip_inj {SI T} `{!InstanceCodec SI T} :
  (forall x : T, deserialize_instance (SI := SI) (serialize_instance x)
                 = Returned x) ->
  forall a b : T, serialize_instance (SI := SI) a = serialize_instance b ->
                  a = b.
Proof.
  intros Hrt a b Hab. pose proof (Hrt a) as Ha. rewrite Hab, Hrt in Ha.
  by injection Ha as <-.
Qed.

Lemma deserialize_Returned_inv_witness :
  exists account_data user_data eas,
    SocialLogin.serialize (SI := gmap string JsonVal) Sample.login
      !! "account" = Some (DInstance account_data)
    /\ deserialize_instance account_data = Returned Sample.account
    /\ SocialLogin.serialize (SI := gmap string JsonVal) Sample.login
         !! "user" = Some (DInstance user_data)
    /\ deserialize_instance user_data = Returned Sample.user
    /\ SocialLogin.serialize (SI := gmap string JsonVal) Sample.login
         !! "email_addresses" = Some (DList eas)
    /\ Forall2 (fun ea e => deserialize_instance ea = Returned e)
               eas [Sample.email_address].
Proof.
  destruct (deserialize_Returned_inv (SI := gmap string JsonVal)
              (SocialLogin.serialize Sample.login)
              (SocialLogin.set_request None Sample.login))
    as (ai & ui & eal & Ha & Hai & Hu & Hui & He & Hes & _).
  - intros key v Hkey Hv.
    repeat (apply elem_of_cons in Hkey as [-> | Hkey];
            [vm_compute in Hv; injection Hv as <-; by eexists |]).
    by apply elem_of_nil in Hkey.
  - intros v Hv. vm_compute in Hv. injection Hv as <-. by eexists.
  - intros v Hv. vm_compute in Hv. injection Hv as <-. by eexists.
  - reflexivity.
  - exists ai, ui, eal. repeat split; assumption.
Defined.

Lemma deserialize_other_key_witness :
  SocialLogin.deserialize
    (<["request" := DState ∅]>
       (SocialLogin.serialize (SI := gmap string JsonVal) Sample.login))
  = SocialLogin.deserialize
      (SocialLogin.serialize (SI := gmap string JsonVal) Sample.login).
Proof.
  apply (deserialize_other_key (SI := gmap string JsonVal)); discriminate.
Defined.

Lemma serialize_inj_witness :
  SocialLogin.serialize (SI := gmap string JsonVal) Sample.login
  = SocialLogin.serialize
      (SocialLogin.set_request (Some Sample.request) Sample.login).
Proof.
  refine (proj2 (serialize_inj (SI := gmap string JsonVal) Sample.login
                   (SocialLogin.set_request (Some Sample.request) Sample.login)
                   (roundtrip_inj SocialAccount_codec_roundtrip)
                   (roundtrip_inj User_codec_roundtrip)
                   (roundtrip_inj SocialToken_codec_roundtrip)
                   (roundtrip_inj EmailAddress_codec_roundtrip)) _).
  reflexivity.
Defined.
